(** * Daily Mood Tracker: the mood-entry validator and repository

    A shallow embedding of [backend/src/models/MoodEntry.js],
    [backend/src/database/database.js], the schema of
    [backend/src/database/secure.js], the middleware of
    [backend/src/middleware/validation.js] and the monitor of
    [backend/src/utils/performance.js], followed by the properties the
    specification states about them and by further properties of the code.

    JavaScript strings are sequences of UTF-16 code units; numbers that the
    code handles are integers and are kept in [Z]; [NaN] is [None]. *)

From Stdlib Require Import ZArith NArith List Lia Bool Ascii String Permutation Sorted.
From stdpp Require Import gmap.
Import ListNotations.
Local Open Scope Z_scope.

(** ** JavaScript strings *)

Module JsString.

(** A string value: its UTF-16 code units. [length] is [String.prototype.length]. *)
Definition t := list N.

(** An ASCII literal of the source, one code unit per character. *)
Definition lit (s : String.string) : t :=
  List.map N_of_ascii (list_ascii_of_string s).

(** [a < b], [a > b] on strings: code units compared left to right. *)
Fixpoint compare (a b : t) : comparison :=
  match a, b with
  | [], [] => Eq
  | [], _ :: _ => Lt
  | _ :: _, [] => Gt
  | x :: a', y :: b' =>
      match N.compare x y with
      | Eq => compare a' b'
      | c => c
      end
  end.

Definition gtb (a b : t) : bool :=
  match compare a b with Gt => true | _ => false end.
Definition geb (a b : t) : bool :=
  match compare a b with Lt => false | _ => true end.
Definition leb (a b : t) : bool := geb b a.
Definition ltb (a b : t) : bool := gtb b a.

Definition eqb (a b : t) : bool := bool_decide (a = b).

Fixpoint startsWith (s p : t) {struct p} : bool :=
  match p with
  | [] => true
  | x :: p' =>
      match s with
      | [] => false
      | y :: s' => N.eqb x y && startsWith s' p'
      end
  end.

(** [s.includes(p)] *)
Fixpoint includes (s p : t) : bool :=
  startsWith s p ||
  match s with
  | [] => false
  | _ :: s' => includes s' p
  end.

(** [parts.join(sep)] *)
Fixpoint join (sep : t) (parts : list t) : t :=
  match parts with
  | [] => []
  | [x] => x
  | x :: rest => x ++ sep ++ join sep rest
  end.

(** [s.split(c)] for a one-character separator. *)
Fixpoint split_aux (c : N) (cur : t) (s : t) : list t :=
  match s with
  | [] => [rev cur]
  | x :: s' =>
      if N.eqb x c then rev cur :: split_aux c [] s'
      else split_aux c (x :: cur) s'
  end.
Definition split (c : N) (s : t) : list t := split_aux c [] s.

Definition isDigit (c : N) : bool := (N.leb 48 c && N.leb c 57)%N.

Definition digit (n : Z) : N := Z.to_N (48 + n mod 10).

(** Zero-padded decimal of a non-negative number, [w] digits. *)
Fixpoint pad (w : nat) (n : Z) : t :=
  match w with
  | O => []
  | S w' => pad w' (n / 10) ++ [digit n]
  end.

Fixpoint digits_of_uint (d : Decimal.uint) : t :=
  match d with
  | Decimal.Nil => []
  | Decimal.D0 d' => 48%N :: digits_of_uint d'
  | Decimal.D1 d' => 49%N :: digits_of_uint d'
  | Decimal.D2 d' => 50%N :: digits_of_uint d'
  | Decimal.D3 d' => 51%N :: digits_of_uint d'
  | Decimal.D4 d' => 52%N :: digits_of_uint d'
  | Decimal.D5 d' => 53%N :: digits_of_uint d'
  | Decimal.D6 d' => 54%N :: digits_of_uint d'
  | Decimal.D7 d' => 55%N :: digits_of_uint d'
  | Decimal.D8 d' => 56%N :: digits_of_uint d'
  | Decimal.D9 d' => 57%N :: digits_of_uint d'
  end.

(** Decimal text of an integer, as SQLite and [String(n)] print it. *)
Definition ofZ (n : Z) : t :=
  match Z.to_int n with
  | Decimal.Pos d => digits_of_uint d
  | Decimal.Neg d => 45%N :: digits_of_uint d
  end.

(** [Number(s)], as far as the validators use it: on a run of decimal digits
    it is the value, on the empty string 0; other strings, which do not occur
    among the pieces of a string that matched the date pattern, are taken to
    [NaN]. *)
Definition toNumber (s : t) : option Z :=
  if forallb isDigit s
  then Some (fold_left (fun acc c => 10 * acc + (Z.of_N c - 48)) s 0)
  else None.

(** Number of characters SQLite's [length()] reports for a text value: a
    surrogate pair is one character. *)
Definition isHigh (c : N) : bool := (N.leb 0xD800 c && N.leb c 0xDBFF)%N.
Definition isLow (c : N) : bool := (N.leb 0xDC00 c && N.leb c 0xDFFF)%N.
Fixpoint codePoints (s : t) : nat :=
  match s with
  | [] => O
  | x :: s' =>
      match s' with
      | y :: s'' =>
          if isHigh x && isLow y then S (codePoints s'')
          else S (codePoints s')
      | [] => 1%nat
      end
  end.

End JsString.

Abbreviation jsstring := JsString.t.
Abbreviation js := JsString.lit.
Arguments JsString.lit s%_string.

(** ** The [Date] object

    Day and time arithmetic as ECMA-262 defines it (sec. "Time Values and
    Time Range", "Year Number", "Month Number", "Date Number", [MakeDay],
    [MakeDate], [TimeClip]). A [Date] holds a time value in milliseconds since
    the epoch, or [NaN]. *)

Module JsDate.

Definition msPerDay : Z := 86400000.

Definition Day (t : Z) : Z := t / msPerDay.
Definition TimeWithinDay (t : Z) : Z := t mod msPerDay.

Definition isLeap (y : Z) : bool :=
  ((y mod 4 =? 0) && negb (y mod 100 =? 0)) || (y mod 400 =? 0).
Definition DaysInYear (y : Z) : Z := if isLeap y then 366 else 365.

Definition DayFromYear (y : Z) : Z :=
  365 * (y - 1970) + (y - 1969) / 4 - (y - 1901) / 100 + (y - 1601) / 400.

(** The year whose first day is the latest one not after day [d]: an
    estimate from the mean year length, corrected by one either way. *)
Definition YearFromDay (d : Z) : Z :=
  let y := 1970 + (d * 400) / 146097 in
  if d <? DayFromYear y then y - 1
  else if DayFromYear (y + 1) <=? d then y + 1
  else y.

Definition YearFromTime (t : Z) : Z := YearFromDay (Day t).
Definition InLeapYear (t : Z) : bool := isLeap (YearFromTime t).
Definition DayWithinYear (t : Z) : Z := Day t - DayFromYear (YearFromTime t).

(** Day within the year on which month [m] (0-based) starts. *)
Definition monthStart (leap : bool) (m : Z) : Z :=
  let l := if leap then 1 else 0 in
  match m with
  | 0 => 0
  | 1 => 31
  | 2 => 59 + l
  | 3 => 90 + l
  | 4 => 120 + l
  | 5 => 151 + l
  | 6 => 181 + l
  | 7 => 212 + l
  | 8 => 243 + l
  | 9 => 273 + l
  | 10 => 304 + l
  | 11 => 334 + l
  | _ => 365 + l
  end.

Definition monthOfYearDay (leap : bool) (d : Z) : Z :=
  if d <? monthStart leap 1 then 0
  else if d <? monthStart leap 2 then 1
  else if d <? monthStart leap 3 then 2
  else if d <? monthStart leap 4 then 3
  else if d <? monthStart leap 5 then 4
  else if d <? monthStart leap 6 then 5
  else if d <? monthStart leap 7 then 6
  else if d <? monthStart leap 8 then 7
  else if d <? monthStart leap 9 then 8
  else if d <? monthStart leap 10 then 9
  else if d <? monthStart leap 11 then 10
  else 11.

Definition MonthFromTime (t : Z) : Z :=
  monthOfYearDay (InLeapYear t) (DayWithinYear t).

Definition DateFromTime (t : Z) : Z :=
  DayWithinYear t - monthStart (InLeapYear t) (MonthFromTime t) + 1.

(** [MakeDay(year, month, date)]: [month] is 0-based and may overflow into
    the following years, [date] may be any integer (it rolls over). *)
Definition MakeDay (year month date : Z) : Z :=
  let ym := year + month / 12 in
  let mn := month mod 12 in
  DayFromYear ym + monthStart (isLeap ym) mn + date - 1.

Definition MakeDate (day time : Z) : Z := day * msPerDay + time.

Definition TimeClip (t : Z) : option Z :=
  if Z.abs t <=? 8640000000000000 then Some t else None.

(** A [Date] instance. *)
Definition t := option Z.

Section Local.
(** Offset of the process's local time zone from UTC, in milliseconds
    (positive east of Greenwich), taken as the same at all the instants one
    call looks at. *)
Variable LocalTZA : Z.

Definition LocalTime (tv : Z) : Z := tv + LocalTZA.
Definition UTC (tv : Z) : Z := tv - LocalTZA.

Definition getFullYear (d : t) : option Z :=
  option_map (fun tv => YearFromTime (LocalTime tv)) d.
Definition getMonth (d : t) : option Z :=
  option_map (fun tv => MonthFromTime (LocalTime tv)) d.
Definition getDate (d : t) : option Z :=
  option_map (fun tv => DateFromTime (LocalTime tv)) d.

(** [d.setDate(dt)]: replaces the day of the month of the local time. *)
Definition setDate (d : t) (dt : option Z) : t :=
  match d, dt with
  | Some tv, Some n =>
      let lt := LocalTime tv in
      let newDate :=
        MakeDate (MakeDay (YearFromTime lt) (MonthFromTime lt) n)
                 (TimeWithinDay lt) in
      TimeClip (UTC newDate)
  | _, _ => None
  end.
End Local.

(** [new Date(s)] for a string of the date-only form [YYYY-MM-DD], the only
    strings the validators pass to it: the fields are read as a UTC date at
    midnight. A month outside 1..12 or a day outside 1..31 gives an invalid
    date; a day within 1..31 that the month does not have rolls over into
    the next month, as in Node's engine (an engine that answers with an
    invalid date instead leads the validators to the same verdict). *)
Definition parse (s : jsstring) : t :=
  match List.map JsString.toNumber (JsString.split 45 s) with
  | [Some y; Some m; Some d] =>
      if (1 <=? m) && (m <=? 12) && (1 <=? d) && (d <=? 31)
      then TimeClip (MakeDate (MakeDay y (m - 1) d) 0)
      else None
  | _ => None
  end.

Definition yearString (y : Z) : jsstring :=
  if (0 <=? y) && (y <=? 9999) then JsString.pad 4 y
  else (if y <? 0 then 45%N else 43%N) :: JsString.pad 6 (Z.abs y).

(** [d.toISOString()]; throws a [RangeError] ([None]) on an invalid date. *)
Definition toISOString (d : t) : option jsstring :=
  match d with
  | None => None
  | Some tv =>
      let ms := TimeWithinDay tv in
      Some (yearString (YearFromTime tv) ++ js "-"
            ++ JsString.pad 2 (MonthFromTime tv + 1) ++ js "-"
            ++ JsString.pad 2 (DateFromTime tv) ++ js "T"
            ++ JsString.pad 2 (ms / 3600000) ++ js ":"
            ++ JsString.pad 2 (ms / 60000 mod 60) ++ js ":"
            ++ JsString.pad 2 (ms / 1000 mod 60) ++ js "."
            ++ JsString.pad 3 (ms mod 1000) ++ js "Z")
  end.

End JsDate.

(** ** JavaScript values and completions *)

(** The values a property of a request body, an instance or a row holds here.
    Objects and arrays are not represented. *)
Inductive JsVal :=
| VUndefined
| VNull
| VBool (b : bool)
| VNum (n : Z)
| VStr (s : jsstring).

#[global] Instance JsVal_eq_dec : EqDecision JsVal.
Proof. solve_decision. Defined.

(** [!!v] *)
Definition truthy (v : JsVal) : bool :=
  match v with
  | VUndefined | VNull => false
  | VBool b => b
  | VNum n => negb (n =? 0)
  | VStr s => match s with [] => false | _ => true end
  end.

Definition isString (v : JsVal) : bool :=
  match v with VStr _ => true | _ => false end.

(** [String(v)] *)
Definition ToString (v : JsVal) : jsstring :=
  match v with
  | VUndefined => js "undefined"
  | VNull => js "null"
  | VBool true => js "true"
  | VBool false => js "false"
  | VNum n => JsString.ofZ n
  | VStr s => s
  end.

(** [a === b] on two numbers: [NaN] equals nothing. *)
Definition numEq (a b : option Z) : bool :=
  match a, b with
  | Some x, Some y => x =? y
  | _, _ => false
  end.

(** An [Error] object: [code] and [suggestion] are the properties
    [database.js] attaches; [name] is ["ValidationError"] for the model's own
    error class and ["Error"] otherwise. *)
Record JsError := mkError {
  name : jsstring;
  message : jsstring;
  code : option jsstring;
  suggestion : option jsstring
}.

#[global] Instance JsError_eq_dec : EqDecision JsError.
Proof. solve_decision. Defined.

Definition Error (msg : jsstring) : JsError :=
  mkError (js "Error") msg None None.
Definition ValidationError (msg : jsstring) : JsError :=
  mkError (js "ValidationError") msg None None.
Definition RangeError (msg : jsstring) : JsError :=
  mkError (js "RangeError") msg None None.

(** How a call ends: it returns a value or throws. *)
Inductive Completion (A : Type) :=
| Return (a : A)
| Throw (e : JsError).
Arguments Return {A} a.
Arguments Throw {A} e.

(** ** The model class [MoodEntry] *)

Module MoodEntry.

(** An object with the six properties of a mood entry: an instance of the
    class, the argument of its constructor, or a row of [mood_entries]. An
    absent property is [VUndefined]. *)
Record t := mk {
  id : JsVal;
  date : JsVal;
  emoji : JsVal;
  note : JsVal;
  created_at : JsVal;
  updated_at : JsVal
}.

#[global] Instance t_eq_dec : EqDecision t.
Proof. solve_decision. Defined.

Definition allowedEmojis : list jsstring :=
  [ [0xD83D; 0xDE22]; [0xD83D; 0xDE10]; [0xD83D; 0xDE0A];
    [0xD83D; 0xDE04]; [0xD83D; 0xDE0D] ]%N.

(** [/^\d{4}-\d{2}-\d{2}$/.test(s)] *)
Definition dateRegex_test (s : jsstring) : bool :=
  match s with
  | [y1; y2; y3; y4; h1; m1; m2; h2; d1; d2] =>
      JsString.isDigit y1 && JsString.isDigit y2 && JsString.isDigit y3
      && JsString.isDigit y4 && N.eqb h1 45
      && JsString.isDigit m1 && JsString.isDigit m2 && N.eqb h2 45
      && JsString.isDigit d1 && JsString.isDigit d2
  | _ => false
  end.

Section Env.
(** The process's time-zone offset and the instant [new Date()] reads. *)
Variable LocalTZA : Z.
Variable now : Z.

(** [isValidDate(dateString)]. [RegExp.prototype.test] converts its
    argument to a string; the text of [undefined], [null], a boolean or a
    number never matches the pattern (lemma [dateRegex_nonstring]), so the
    method returns [false] on them before [split] is reached. *)
Definition isValidDate (dateString : JsVal) : bool :=
  match dateString with
  | VStr s =>
      if negb (dateRegex_test s) then false
      else
        let date := JsDate.parse s in
        let parts := List.map JsString.toNumber (JsString.split 45 s) in
        let year := nth 0 parts None in
        let month := nth 1 parts None in
        let day := nth 2 parts None in
        numEq (JsDate.getFullYear LocalTZA date) year
        && numEq (option_map (fun m => m + 1) (JsDate.getMonth LocalTZA date)) month
        && numEq (JsDate.getDate LocalTZA date) day
  | _ => false
  end.

Definition includesEmoji (v : JsVal) : bool :=
  match v with
  | VStr s => existsb (JsString.eqb s) allowedEmojis
  | _ => false
  end.

Definition dateErrors (this : t) : list jsstring :=
  if negb (truthy (date this)) then [js "Date is required"]
  else if negb (isValidDate (date this)) then [js "date must be in YYYY-MM-DD format"]
  else [].

Definition emojiErrors (this : t) : list jsstring :=
  if negb (truthy (emoji this)) then [js "Emoji is required"]
  else if negb (includesEmoji (emoji this))
  then [js "emoji must be one of: " ++ JsString.join (js ", ") allowedEmojis]
  else [].

Definition noteErrors (this : t) : list jsstring :=
  match note this with
  | VStr s =>
      if (500 <? Z.of_nat (length s)) then [js "note must be 500 characters or less"]
      else []
  | _ => []
  end.

(** The array [errors] when [validate] reaches its last statement. *)
Definition errorsOf (this : t) : list jsstring :=
  dateErrors this ++ emojiErrors this ++ noteErrors this.

Definition validate (this : t) : Completion unit :=
  let errors := errorsOf this in
  if (0 <? Z.of_nat (length errors))
  then Throw (ValidationError (JsString.join (js "; ") errors))
  else Return tt.

Definition nowISO : JsVal :=
  match JsDate.toISOString (Some now) with
  | Some s => VStr s
  | None => VUndefined
  end.

(** The fields the constructor assigns before it validates. *)
Definition assign (data : t) : t :=
  {| id := match id data with VUndefined => VNull | v => v end;
     date := date data;
     emoji := emoji data;
     note := match note data with
             | VUndefined => VNull
             | VStr [] => VNull
             | v => v
             end;
     created_at := if truthy (created_at data) then created_at data else nowISO;
     updated_at := if truthy (updated_at data) then updated_at data else nowISO |}.

(** [new MoodEntry(data)] *)
Definition new (data : t) : Completion t :=
  let this := assign data in
  match validate this with
  | Throw e => Throw e
  | Return _ => Return this
  end.

Definition toDbFormat (this : t) : t := this.
Definition toJSON (this : t) : t := this.

Definition fromDbRow (row : t) : Completion t :=
  new (mk (id row) (date row) (emoji row) (note row)
          (created_at row) (updated_at row)).

(** The result object of [validateInput]. *)
Record Validation := { isValid : bool; errors : list jsstring }.

Definition inputErrors (data : t) : list jsstring :=
  (if negb (truthy (date data)) then [js "Date is required"] else [])
  ++ (if negb (truthy (emoji data)) then [js "Emoji is required"] else [])
  ++ (if truthy (date data) && negb (isString (date data))
      then [js "date must be a string"] else [])
  ++ (if truthy (emoji data) && negb (isString (emoji data))
      then [js "Emoji must be a string"] else [])
  ++ (match note data with
      | VUndefined | VNull | VStr _ => []
      | _ => [js "note must be a string"]
      end).

Definition validateInput (data : t) : Validation :=
  let errs := inputErrors data in
  if (0 <? Z.of_nat (length errs))
  then {| isValid := false; errors := errs |}
  else
    match new (mk VUndefined (date data) (emoji data) (note data)
                  VUndefined VUndefined) with
    | Return _ => {| isValid := true; errors := [] |}
    | Throw error => {| isValid := false; errors := [message error] |}
    end.
End Env.

End MoodEntry.

(** [isValidDateString] of [middleware/validation.js]; its argument is a
    query-string value, hence a string. *)
Definition isValidDateString (LocalTZA : Z) (dateString : jsstring) : bool :=
  if negb (MoodEntry.dateRegex_test dateString) then false
  else
    let date := JsDate.parse dateString in
    let parts := List.map JsString.toNumber (JsString.split 45 dateString) in
    let year := nth 0 parts None in
    let month := nth 1 parts None in
    let day := nth 2 parts None in
    numEq (JsDate.getFullYear LocalTZA date) year
    && numEq (option_map (fun m => m + 1) (JsDate.getMonth LocalTZA date)) month
    && numEq (JsDate.getDate LocalTZA date) day.

(** ** The table [mood_entries] and the statements run against it

    The store behind [SecureDatabase] is SQLite; what is modelled of it is the
    schema of [initializeSchema] and the statements [database.js] issues
    for its entries. A row is the object [get] and [all] hand back. Text is compared
    as text, code unit by code unit, which is SQLite's comparison for the
    dates the repository writes and the bounds the routes let through (digits
    and hyphens); the conversions a [DATE] or [TIMESTAMP] column applies to a
    text that spells a number are not modelled. *)

Module SecureDatabase.

Abbreviation Row := MoodEntry.t.

(** The [WHERE] clause [getMoodEntries] builds. *)
Inductive Where :=
| WhereNone
| WhereBetween (from to : jsstring)
| WhereGe (from : jsstring)
| WhereLe (to : jsstring).

(** The statements of [database.js], with their bound parameters. *)
Inductive Stmt :=
| SelectByDate (date : JsVal)
| InsertEntry (date emoji note created_at updated_at : JsVal)
| SelectCount (w : Where)
| SelectPage (w : Where) (limit offset : Z)
| DeleteByDate (date : JsVal)
| SelectStatistics (cutoff : jsstring).

(** The database: the rows of [mood_entries] in insertion order, the largest
    id ever assigned ([AUTOINCREMENT]), and the statements executed so far,
    latest first. *)
Record t := mk {
  table : list Row;
  seq : Z;
  journal : list Stmt
}.

Definition empty : t := mk [] 0 [].

(** A row of the statistics query. *)
Record Stat := mkStat {
  stat_emoji : JsVal;
  stat_count : Z;
  stat_date : JsVal
}.

(** What [run] resolves to. *)
Record RunResult := { lastID : Z; changes : Z }.

Definition SqliteConstraint (msg : jsstring) : JsError :=
  mkError (js "Error") (js "SQLITE_CONSTRAINT: " ++ msg)
          (Some (js "SQLITE_CONSTRAINT")) None.

(** A bound parameter as the column stores it: [undefined] and [null] are
    [NULL], a boolean is 0 or 1. *)
Definition bind (v : JsVal) : JsVal :=
  match v with
  | VUndefined => VNull
  | VBool b => VNum (if b then 1 else 0)
  | v => v
  end.

(** A [TEXT] column keeps a number as its decimal text. *)
Definition textAffinity (v : JsVal) : JsVal :=
  match v with
  | VNum n => VStr (JsString.ofZ n)
  | v => v
  end.

(** Order of two stored values: [NULL] first, then numbers, then text. *)
Definition sqlCompare (a b : JsVal) : comparison :=
  match a, b with
  | VStr x, VStr y => JsString.compare x y
  | VStr _, _ => Gt
  | _, VStr _ => Lt
  | VNum x, VNum y => Z.compare x y
  | VNum _, _ => Gt
  | _, VNum _ => Lt
  | _, _ => Eq
  end.

Definition isNull (v : JsVal) : bool :=
  match v with VNull | VUndefined => true | _ => false end.

(** [a = b]: unknown, hence not satisfied, when either side is [NULL]. *)
Definition sqlEq (a b : JsVal) : bool :=
  negb (isNull a) && negb (isNull b)
  && match sqlCompare a b with Eq => true | _ => false end.
Definition sqlGe (a b : JsVal) : bool :=
  negb (isNull a) && negb (isNull b)
  && match sqlCompare a b with Lt => false | _ => true end.
Definition sqlLe (a b : JsVal) : bool := sqlGe b a.

Definition matches (w : Where) (r : Row) : bool :=
  match w with
  | WhereNone => true
  | WhereBetween from to =>
      sqlGe (MoodEntry.date r) (VStr from) && sqlLe (MoodEntry.date r) (VStr to)
  | WhereGe from => sqlGe (MoodEntry.date r) (VStr from)
  | WhereLe to => sqlLe (MoodEntry.date r) (VStr to)
  end.

(** [ORDER BY date DESC]: stable insertion into a descending list. *)
Fixpoint insertDesc (r : Row) (l : list Row) : list Row :=
  match l with
  | [] => [r]
  | x :: l' =>
      match sqlCompare (MoodEntry.date r) (MoodEntry.date x) with
      | Lt => x :: insertDesc r l'
      | _ => r :: l
      end
  end.
Definition orderByDateDesc (l : list Row) : list Row :=
  fold_right insertDesc [] l.

(** [LIMIT n OFFSET k]: a negative limit means no limit, a negative offset
    is 0. *)
Definition limitOffset {A} (limit offset : Z) (l : list A) : list A :=
  let rest := skipn (Z.to_nat offset) l in
  if limit <? 0 then rest else firstn (Z.to_nat limit) rest.

Definition maxId (rows : list Row) : Z :=
  fold_right (fun r m => match MoodEntry.id r with VNum n => Z.max n m | _ => m end)
             0 rows.

Definition noteCheck (v : JsVal) : bool :=
  match v with
  | VStr s => (JsString.codePoints s <=? 500)%nat
  | _ => true
  end.

Definition emojiCheck (v : JsVal) : bool :=
  match v with
  | VStr s => existsb (JsString.eqb s) MoodEntry.allowedEmojis
  | VNull | VUndefined => true
  | _ => false
  end.

(** [INSERT INTO mood_entries (date, emoji, note, created_at, updated_at)]
    under the schema of [initializeSchema]: [NOT NULL] on [date] and
    [emoji], the two [CHECK]s, then [UNIQUE] on [date]. Of the error texts
    only the one for [UNIQUE] names the column [mood_entries.date] together
    with the code [SQLITE_CONSTRAINT], apart from the [NOT NULL] one, which a
    validated entry cannot raise. *)
Definition insert (d e n c u : JsVal) (db : t) : Completion RunResult * t :=
  let d := bind d in
  let e := textAffinity (bind e) in
  let n := textAffinity (bind n) in
  let c := bind c in
  let u := bind u in
  if isNull d
  then (Throw (SqliteConstraint (js "NOT NULL constraint failed: mood_entries.date")), db)
  else if isNull e
  then (Throw (SqliteConstraint (js "NOT NULL constraint failed: mood_entries.emoji")), db)
  else if negb (emojiCheck e)
  then (Throw (SqliteConstraint (js "CHECK constraint failed: emoji IN (...)")), db)
  else if negb (noteCheck n)
  then (Throw (SqliteConstraint (js "CHECK constraint failed: length(note) <= 500")), db)
  else if existsb (fun r => sqlEq (MoodEntry.date r) d) (table db)
  then (Throw (SqliteConstraint (js "UNIQUE constraint failed: mood_entries.date")), db)
  else
    let rowid := Z.max (seq db) (maxId (table db)) + 1 in
    (Return {| lastID := rowid; changes := 1 |},
     mk (table db ++ [MoodEntry.mk (VNum rowid) d e n c u]) rowid (journal db)).

Section Queries.
(** SQLite's [DATE(x)], which the statistics query groups by. *)
Variable sqlDATE : JsVal -> JsVal.

Definition sameGroup (r : Row) (g : Stat) : bool :=
  bool_decide (MoodEntry.emoji r = stat_emoji g)
  && bool_decide (sqlDATE (MoodEntry.created_at r) = stat_date g).

(** [GROUP BY emoji, DATE(created_at)] with [COUNT( * )]: one output row
    per distinct pair. *)
Fixpoint addToGroups (r : Row) (gs : list Stat) : list Stat :=
  match gs with
  | [] => [mkStat (MoodEntry.emoji r) 1 (sqlDATE (MoodEntry.created_at r))]
  | g :: gs' =>
      if sameGroup r g
      then mkStat (stat_emoji g) (stat_count g + 1) (stat_date g) :: gs'
      else g :: addToGroups r gs'
  end.
Definition groupRows (rows : list Row) : list Stat :=
  fold_left (fun gs r => addToGroups r gs) rows [].

(** [ORDER BY date DESC], where [date] is the output column
    [DATE(created_at)]. *)
Fixpoint insertStat (g : Stat) (l : list Stat) : list Stat :=
  match l with
  | [] => [g]
  | x :: l' =>
      match sqlCompare (stat_date g) (stat_date x) with
      | Lt => x :: insertStat g l'
      | _ => g :: l
      end
  end.

Definition statistics (cutoff : jsstring) (rows : list Row) : list Stat :=
  fold_right insertStat []
    (groupRows (List.filter (fun r => sqlGe (MoodEntry.date r) (VStr cutoff)) rows)).
End Queries.

(** The three access methods. Each call is recorded in the journal. *)
Definition log (s : Stmt) (db : t) : t :=
  mk (table db) (seq db) (s :: journal db).

(** [run(sql, params)] for the [INSERT] and the [DELETE]. *)
Definition run (s : Stmt) (db : t) : Completion RunResult * t :=
  let db := log s db in
  match s with
  | InsertEntry d e n c u => insert d e n c u db
  | DeleteByDate d =>
      let keep := List.filter (fun r => negb (sqlEq (MoodEntry.date r) (bind d))) (table db) in
      (Return {| lastID := seq db;
                 changes := Z.of_nat (length (table db)) - Z.of_nat (length keep) |},
       mk keep (seq db) (journal db))
  | _ => (Return {| lastID := seq db; changes := 0 |}, db)
  end.

(** [get(sql, params)] for the lookup by date: the first row, or
    [undefined]. *)
Definition getByDate (d : JsVal) (db : t) : Completion (option Row) * t :=
  (Return (List.find (fun r => sqlEq (MoodEntry.date r) (bind d)) (table db)),
   log (SelectByDate d) db).

(** [get] for [SELECT COUNT( * ) as total]. *)
Definition getCount (w : Where) (db : t) : Completion Z * t :=
  (Return (Z.of_nat (length (List.filter (matches w) (table db)))),
   log (SelectCount w) db).

(** [all] for the page query. *)
Definition allPage (w : Where) (limit offset : Z) (db : t)
  : Completion (list Row) * t :=
  (Return (limitOffset limit offset
             (orderByDateDesc (List.filter (matches w) (table db)))),
   log (SelectPage w limit offset) db).

(** [all] for the statistics query. *)
Definition allStatistics (sqlDATE : JsVal -> JsVal) (cutoff : jsstring) (db : t)
  : Completion (list Stat) * t :=
  (Return (statistics sqlDATE cutoff (table db)), log (SelectStatistics cutoff) db).

End SecureDatabase.

(** ** The repository [MoodDatabase] *)

Module MoodDatabase.

(** An [async] method: it runs against the database, may change it, and
    returns or throws. *)
Definition M (A : Type) : Type :=
  SecureDatabase.t -> Completion A * SecureDatabase.t.

Definition ret {A} (a : A) : M A := fun db => (Return a, db).
Definition throw {A} (e : JsError) : M A := fun db => (Throw e, db).
Definition lift {A} (c : Completion A) : M A := fun db => (c, db).
Definition bind {A B} (m : M A) (k : A -> M B) : M B :=
  fun db =>
    match m db with
    | (Return a, db') => k a db'
    | (Throw e, db') => (Throw e, db')
    end.
(** [try { m } catch (e) { h e }] *)
Definition try {A} (m : M A) (h : JsError -> M A) : M A :=
  fun db =>
    match m db with
    | (Return a, db') => (Return a, db')
    | (Throw e, db') => h e db'
    end.

Notation "'let*' x ':=' m 'in' k" := (bind m (fun x => k))
  (at level 10, x name, m at level 100, k at level 200).

(** [rows.map(f)] where [f] may throw. *)
Fixpoint mapC {A B} (f : A -> Completion B) (l : list A) : Completion (list B) :=
  match l with
  | [] => Return []
  | x :: l' =>
      match f x with
      | Throw e => Throw e
      | Return y =>
          match mapC f l' with
          | Throw e => Throw e
          | Return ys => Return (y :: ys)
          end
      end
  end.

Record Options := {
  limit : option Z;
  page : option Z;
  from : option jsstring;
  to : option jsstring
}.

(** The object [getMoodEntries] returns; [page_no] and [page_limit] are its
    properties [page] and [limit]. *)
Record Page := {
  moods : list MoodEntry.t;
  total : Z;
  page_no : Z;
  page_limit : Z;
  totalPages : Z
}.

Record StatisticsOptions := { days : option Z }.

Record Statistics := {
  totalEntries : Z;
  distribution : gmap jsstring Z;
  dailyBreakdown : list SecureDatabase.Stat;
  period : Z
}.

Definition duplicateDate (date : JsVal) : JsError :=
  mkError (js "Error")
          (js "Mood entry for " ++ ToString date ++ js " already exists")
          (Some (js "DUPLICATE_DATE"))
          (Some (js "Consider updating, editing, or deleting the existing entry first")).

Definition notFound (date : JsVal) : JsError :=
  mkError (js "Error")
          (js "Mood entry for " ++ ToString date ++ js " not found")
          (Some (js "NOT_FOUND")) None.

(** [Math.ceil(a / b)] for integers with [b > 0]. *)
Definition ceilDiv (a b : Z) : Z := - ((- a) / b).

(** A filter bound counts when it is truthy: neither absent nor empty. *)
Definition given (v : option jsstring) : option jsstring :=
  match v with
  | Some (c :: s) => Some (c :: s)
  | _ => None
  end.

(** One step of the [forEach] that fills [distribution] and [totalEntries].
    [distribution] is a plain object used as a map from emoji to count; its
    keys are emoji of the table, which the schema's [CHECK] keeps among the
    five allowed ones. *)
Definition tally (acc : gmap jsstring Z * Z) (stat : SecureDatabase.Stat)
  : gmap jsstring Z * Z :=
  let '(distribution, totalEntries) := acc in
  let k := ToString (SecureDatabase.stat_emoji stat) in
  let distribution :=
    match distribution !! k with
    | Some v => if v =? 0 then <[k := 0]> distribution else distribution
    | None => <[k := 0]> distribution
    end in
  (<[k := default 0 (distribution !! k) + SecureDatabase.stat_count stat]> distribution,
   totalEntries + SecureDatabase.stat_count stat).

Section Env.
Variable LocalTZA : Z.
Variable sqlDATE : JsVal -> JsVal.
(** The instant at which the method runs. *)
Variable now : Z.

Definition getMoodEntryByDate (date : JsVal) : M (option MoodEntry.t) :=
  let* row := SecureDatabase.getByDate date in
  match row with
  | Some row =>
      let* entry := lift (MoodEntry.fromDbRow LocalTZA now row) in
      ret (Some entry)
  | None => ret None
  end.

(** The [try]/[catch] around the [INSERT] in [createMoodEntry]. *)
Definition insertMoodEntry (moodEntry : MoodEntry.t) : M MoodEntry.t :=
  try
    (let* result := SecureDatabase.run
       (SecureDatabase.InsertEntry
          (MoodEntry.date moodEntry) (MoodEntry.emoji moodEntry)
          (MoodEntry.note moodEntry) (MoodEntry.created_at moodEntry)
          (MoodEntry.updated_at moodEntry)) in
     ret (MoodEntry.mk (VNum (SecureDatabase.lastID result))
            (MoodEntry.date moodEntry) (MoodEntry.emoji moodEntry)
            (MoodEntry.note moodEntry) (MoodEntry.created_at moodEntry)
            (MoodEntry.updated_at moodEntry)))
    (fun sqliteError =>
       if bool_decide (code sqliteError = Some (js "SQLITE_CONSTRAINT"))
          && JsString.includes (message sqliteError) (js "mood_entries.date")
       then throw (duplicateDate (MoodEntry.date moodEntry))
       else throw sqliteError).

(** The part of [createMoodEntry] before the [INSERT]: construction and
    the lookup for an entry on the same date. *)
Definition checkMoodEntry (moodData : MoodEntry.t) : M MoodEntry.t :=
  let* moodEntry := lift (MoodEntry.new LocalTZA now moodData) in
  let* existing := getMoodEntryByDate (MoodEntry.date moodEntry) in
  match existing with
  | Some _ => throw (duplicateDate (MoodEntry.date moodEntry))
  | None => ret moodEntry
  end.

Definition createMoodEntry (moodData : MoodEntry.t) : M MoodEntry.t :=
  let* moodEntry := checkMoodEntry moodData in
  insertMoodEntry moodEntry.

Definition getMoodEntries (options : Options) : M Page :=
  let limit := default 20 (limit options) in
  let page := default 1 (page options) in
  if (limit <? 1) || (100 <? limit)
  then throw (Error (js "Limit must be between 1 and 100"))
  else if page <? 1
  then throw (Error (js "Page must be 1 or greater"))
  else
    let* w := match given (from options), given (to options) with
         | Some f, Some t =>
             if JsString.gtb f t
             then throw (Error (js "From date cannot be after to date"))
             else ret (SecureDatabase.WhereBetween f t)
         | Some f, None => ret (SecureDatabase.WhereGe f)
         | None, Some t => ret (SecureDatabase.WhereLe t)
         | None, None => ret SecureDatabase.WhereNone
         end in
    let* total := SecureDatabase.getCount w in
    let offset := (page - 1) * limit in
    let* rows := SecureDatabase.allPage w limit offset in
    let* moods := lift (mapC (MoodEntry.fromDbRow LocalTZA now) rows) in
    ret {| moods := moods; total := total; page_no := page;
           page_limit := limit; totalPages := ceilDiv total limit |}.

Definition deleteMoodEntryByDate (date : JsVal) : M MoodEntry.t :=
  let* existing := getMoodEntryByDate date in
  match existing with
  | None => throw (notFound date)
  | Some existing =>
      let* result := SecureDatabase.run (SecureDatabase.DeleteByDate date) in
      if SecureDatabase.changes result =? 0
      then throw (notFound date)
      else ret existing
  end.

(** The cutoff string of [getStatistics]: [new Date()], moved back by
    [days] with [setDate], printed with [toISOString] and cut at ['T']. *)
Definition cutoffDateStr (days : Z) : option jsstring :=
  let cutoffDate := Some now in
  let cutoffDate :=
    JsDate.setDate LocalTZA cutoffDate
      (option_map (fun d => d - days) (JsDate.getDate LocalTZA cutoffDate)) in
  option_map (fun iso => nth 0 (JsString.split 84 iso) [])
             (JsDate.toISOString cutoffDate).

Definition getStatistics (options : StatisticsOptions) : M Statistics :=
  let days := default 30 (days options) in
  match cutoffDateStr days with
  | None => throw (RangeError (js "Invalid time value"))
  | Some cutoff =>
      let* stats := SecureDatabase.allStatistics sqlDATE cutoff in
      let '(distribution, totalEntries) := fold_left tally stats (∅, 0) in
      ret {| totalEntries := totalEntries; distribution := distribution;
             dailyBreakdown := stats; period := days |}
  end.

(** [updateMoodEntry(date, moodData)]: the entry of [date] is deleted, then
    [{ ...moodData, date }] is created. *)
Definition updateMoodEntry (date : JsVal) (moodData : MoodEntry.t) : M MoodEntry.t :=
  let* deleted := deleteMoodEntryByDate date in
  let updatedData :=
    MoodEntry.mk (MoodEntry.id moodData) date (MoodEntry.emoji moodData)
      (MoodEntry.note moodData) (MoodEntry.created_at moodData)
      (MoodEntry.updated_at moodData) in
  createMoodEntry updatedData.
End Env.

End MoodDatabase.

(** ** The middleware of [middleware/validation.js] *)

Module Validation.

(** What a middleware does with a request: it answers with a status and an
    error body ([error], and [details] where the code sets it), or calls
    [next] on the request as it leaves it. *)
Inductive Outcome (A : Type) :=
| Respond (status : Z) (error : jsstring) (details : option (list jsstring))
| Next (a : A).
Arguments Respond {A} status error details.
Arguments Next {A} a.

(** [validateMoodEntry]: [body] is [req.body], [None] when it is missing or
    not an object. *)
Definition validateMoodEntry (LocalTZA now : Z) (body : option MoodEntry.t)
  : Outcome MoodEntry.t :=
  match body with
  | None => Respond 400 (js "Request body must be a valid JSON object") None
  | Some body =>
      let validation := MoodEntry.validateInput LocalTZA now body in
      if negb (MoodEntry.isValid validation)
      then Respond 400 (JsString.join (js "; ") (MoodEntry.errors validation))
                   (Some (MoodEntry.errors validation))
      else Next body
  end.

(** [validateDateParam]: [date] is [req.params.date]; on success the request
    carries it as [validatedDate]. *)
Definition validateDateParam (LocalTZA : Z) (date : option jsstring) : Outcome jsstring :=
  match date with
  | None | Some [] => Respond 400 (js "Date parameter is required") None
  | Some date =>
      if negb (MoodEntry.dateRegex_test date)
      then Respond 400 (js "Invalid date format. Use YYYY-MM-DD format") None
      else
        let dateObj := JsDate.parse date in
        let parts := List.map JsString.toNumber (JsString.split 45 date) in
        let year := nth 0 parts None in
        let month := nth 1 parts None in
        let day := nth 2 parts None in
        if negb (numEq (JsDate.getFullYear LocalTZA dateObj) year)
           || negb (numEq (option_map (fun m => m + 1) (JsDate.getMonth LocalTZA dateObj)) month)
           || negb (numEq (JsDate.getDate LocalTZA dateObj) day)
        then Respond 400
               (js "Invalid date. Please provide a valid date in YYYY-MM-DD format") None
        else Next date
  end.

(** White space and line terminators, which [parseInt] skips at the start. *)
Definition isWhiteSpace (c : N) : bool :=
  existsb (N.eqb c)
    [9; 10; 11; 12; 13; 32; 160; 0x1680; 0x2000; 0x2001; 0x2002; 0x2003; 0x2004;
     0x2005; 0x2006; 0x2007; 0x2008; 0x2009; 0x200A; 0x2028; 0x2029; 0x202F;
     0x205F; 0x3000; 0xFEFF]%N.

Fixpoint trimStart (s : jsstring) : jsstring :=
  match s with
  | c :: s' => if isWhiteSpace c then trimStart s' else s
  | [] => []
  end.

Fixpoint leadingDigits (s : jsstring) : jsstring :=
  match s with
  | c :: s' => if JsString.isDigit c then c :: leadingDigits s' else []
  | [] => []
  end.

Definition digitsValue (ds : jsstring) : Z :=
  fold_left (fun acc c => 10 * acc + (Z.of_N c - 48)) ds 0.

(** [parseInt(s, 10)]: leading white space and one sign are skipped, the
    digits that follow are read, the rest is ignored; [NaN] when no digit
    follows. The value is the mathematical one. *)
Definition parseInt (s : jsstring) : option Z :=
  let s := trimStart s in
  let '(sign, s) :=
    match s with
    | 45%N :: r => (-1, r)
    | 43%N :: r => (1, r)
    | _ => (1, s)
    end in
  match leadingDigits s with
  | [] => None
  | ds => Some (sign * digitsValue ds)
  end.

(** [req.query] of [GET /api/moods]: each parameter is a string or absent. *)
Record Query := {
  limit : option jsstring;
  page : option jsstring;
  from : option jsstring;
  to : option jsstring
}.

(** [req.query] after [validateMoodListQuery]: [limit] and [page] were
    replaced by the numbers read from them. *)
Record ListQuery := {
  limitNum : option Z;
  pageNum : option Z;
  fromDate : option jsstring;
  toDate : option jsstring
}.

Definition limitErrors (limit : option jsstring) : list jsstring :=
  match limit with
  | None => []
  | Some limit =>
      match parseInt limit with
      | None => [js "Limit must be a positive integer"]
      | Some limitNum =>
          if limitNum <? 1 then [js "Limit must be a positive integer"]
          else if 100 <? limitNum then [js "Limit cannot exceed 100"]
          else []
      end
  end.

Definition pageErrors (page : option jsstring) : list jsstring :=
  match page with
  | None => []
  | Some page =>
      match parseInt page with
      | None => [js "Page must be a positive integer"]
      | Some pageNum =>
          if pageNum <? 1 then [js "Page must be a positive integer"] else []
      end
  end.

Definition boundErrors (LocalTZA : Z) (msg : jsstring) (bound : option jsstring)
  : list jsstring :=
  match bound with
  | None => []
  | Some b => if negb (isValidDateString LocalTZA b) then [msg] else []
  end.

Definition rangeErrors (from to : option jsstring) : list jsstring :=
  match MoodDatabase.given from, MoodDatabase.given to with
  | Some f, Some t =>
      if JsString.gtb f t then [js "From date cannot be after to date"] else []
  | _, _ => []
  end.

Definition queryErrors (LocalTZA : Z) (q : Query) : list jsstring :=
  limitErrors (limit q) ++ pageErrors (page q)
  ++ boundErrors LocalTZA (js "From date must be in YYYY-MM-DD format") (from q)
  ++ boundErrors LocalTZA (js "To date must be in YYYY-MM-DD format") (to q)
  ++ rangeErrors (from q) (to q).

Definition validateMoodListQuery (LocalTZA : Z) (q : Query) : Outcome ListQuery :=
  let errors := queryErrors LocalTZA q in
  if (0 <? Z.of_nat (length errors))
  then Respond 400 (JsString.join (js "; ") errors) (Some errors)
  else Next {| limitNum := match limit q with Some l => parseInt l | None => None end;
               pageNum := match page q with Some p => parseInt p | None => None end;
               fromDate := from q;
               toDate := to q |}.

(** The options the route [GET /api/moods] builds from the validated query:
    [{ limit: req.query.limit || 20, page: req.query.page || 1, from, to }]. *)
Definition listOptions (q : ListQuery) : MoodDatabase.Options :=
  {| MoodDatabase.limit :=
       Some (match limitNum q with Some n => if n =? 0 then 20 else n | None => 20 end);
     MoodDatabase.page :=
       Some (match pageNum q with Some n => if n =? 0 then 1 else n | None => 1 end);
     MoodDatabase.from := fromDate q;
     MoodDatabase.to := toDate q |}.

End Validation.

(** ** The monitor of [utils/performance.js] *)

Module PerformanceMonitor.

(** What [obj[key]] yields on an object literal whose own properties are
    numbers: the number, a function or object inherited from
    [Object.prototype], or [undefined]. *)
Inductive Property :=
| Own (n : Z)
| Inherited
| Missing.

Definition objectPrototype : list jsstring :=
  [js "constructor"; js "__defineGetter__"; js "__defineSetter__";
   js "hasOwnProperty"; js "__lookupGetter__"; js "__lookupSetter__";
   js "isPrototypeOf"; js "propertyIsEnumerable"; js "toString"; js "valueOf";
   js "__proto__"; js "toLocaleString"].

Definition lookup (own : list (jsstring * Z)) (key : jsstring) : Property :=
  match List.find (fun kv => JsString.eqb key (fst kv)) own with
  | Some kv => Own (snd kv)
  | None => if existsb (JsString.eqb key) objectPrototype then Inherited else Missing
  end.

Definition propertyTruthy (p : Property) : bool :=
  match p with
  | Own n => negb (n =? 0)
  | Inherited => true
  | Missing => false
  end.

(** [this.budgets], in milliseconds and bytes. *)
Definition budgets : list (jsstring * Z) :=
  [(js "MOOD_ENTRY", 100); (js "DATA_VISUALIZATION", 500);
   (js "DATABASE_QUERY", 50); (js "MEMORY_USAGE", 200 * 1024 * 1024)].

(** [duration <= budget]. A duration is held as the count of nanoseconds
    [endTime - startTime] it is computed from; the code's value is that
    count converted to a number and divided by 1000000. For a count that is
    not negative and a whole budget below 2^28 the rounded quotient is at
    most the budget exactly when the count is at most 1000000 times the
    budget, since the numbers around such a budget lie closer together than
    [1 / 1000000]. A comparison with an inherited function or object is
    false. *)
Definition durationLe (duration : Z) (budget : Property) : bool :=
  match budget with
  | Own budget => duration <=? budget * 1000000
  | _ => false
  end.

(** The object [startTimer] returns; [endTimer] adds [duration]. *)
Record Timer := {
  operationType : jsstring;
  startTime : Z;
  duration : option Z
}.

Record Metric := {
  operation : jsstring;
  metricDuration : Z;
  timestamp : JsVal;
  withinBudget : bool
}.

(** The monitor: its array [metrics], oldest first. *)
Definition t := list Metric.

Definition new : t := [].

(** [startTimer(operationType)], when [process.hrtime.bigint()] reads
    [hrtime]. *)
Definition startTimer (hrtime : Z) (operationType : jsstring) : Timer :=
  {| operationType := operationType; startTime := hrtime; duration := None |}.

Definition isWithinBudget (operationType : jsstring) (duration : Z) : bool :=
  let budget := lookup budgets operationType in
  if propertyTruthy budget then durationLe duration budget else true.

(** [endTimer(timer)], when the clocks read [hrtime] and [now]: the metric
    it returns, the timer with its duration set, and the monitor with the
    metric pushed. *)
Definition endTimer (hrtime now : Z) (timer : Timer) (this : t) : Metric * Timer * t :=
  let endTime := hrtime in
  let duration := endTime - startTime timer in
  let timer' :=
    {| operationType := operationType timer; startTime := startTime timer;
       duration := Some duration |} in
  let metric :=
    {| operation := operationType timer;
       metricDuration := duration;
       timestamp := MoodEntry.nowISO now;
       withinBudget := isWithinBudget (operationType timer) duration |} in
  (metric, timer', this ++ [metric]).

Definition getMetrics (this : t) : list Metric := this.

Definition budgetMap : list (jsstring * Z) :=
  [(js "mood_entry", 100); (js "analytics", 500); (js "database", 50)].

(** [validateBudget(timer, operationType)], when the clock reads [hrtime]. *)
Definition validateBudget (hrtime : Z) (timer : Timer) (opType : jsstring) : bool :=
  let budget :=
    if propertyTruthy (lookup budgetMap opType) then lookup budgetMap opType
    else lookup budgetMap (operationType timer) in
  if negb (propertyTruthy budget) then true
  else
    match duration timer with
    | Some duration => durationLe duration budget
    | None =>
        let currentTime := hrtime in
        let currentDuration := currentTime - startTime timer in
        durationLe currentDuration budget
    end.

(** The object [validateBudgets] returns; [violationRate] is the quotient
    of the two counts it is computed from ([NaN] when the second is 0). *)
Record Report := {
  totalOperations : Z;
  violations : Z;
  violationRate : Z * Z;
  details : list Metric
}.

Definition validateBudgets (this : t) : Report :=
  let violations := List.filter (fun m => negb (withinBudget m)) this in
  {| totalOperations := Z.of_nat (length this);
     violations := Z.of_nat (length violations);
     violationRate := (Z.of_nat (length violations), Z.of_nat (length this));
     details := violations |}.

End PerformanceMonitor.

(** ** Notions the statements refer to *)

(** Days of month [m] (1-based) in year [y] of the Gregorian calendar. *)
Definition daysInMonth (y m : Z) : Z :=
  match m with
  | 2 => if JsDate.isLeap y then 29 else 28
  | 4 | 6 | 9 | 11 => 30
  | _ => 31
  end.

(** [y]-[m]-[d] is a date of the calendar. *)
Definition isCalendarDate (y m d : Z) : bool :=
  (1 <=? m) && (m <=? 12) && (1 <=? d) && (d <=? daysInMonth y m).

Definition digitValue (c : N) : Z := Z.of_N c - 48.

(** The year, month and day a string of the form [YYYY-MM-DD] spells. *)
Definition dateFields (s : jsstring) : option (Z * Z * Z) :=
  match s with
  | [y1; y2; y3; y4; _; m1; m2; _; d1; d2] =>
      if MoodEntry.dateRegex_test s
      then Some (1000 * digitValue y1 + 100 * digitValue y2
                 + 10 * digitValue y3 + digitValue y4,
                 10 * digitValue m1 + digitValue m2,
                 10 * digitValue d1 + digitValue d2)
      else None
  | _ => None
  end.

(** The string has the form [YYYY-MM-DD] and spells a date of the calendar. *)
Definition denotesCalendarDate (s : jsstring) : bool :=
  match dateFields s with
  | Some (y, m, d) => isCalendarDate y m d
  | None => false
  end.

(** The rejection rules of the entity validator as the specification lists
    them, and the message reported for each. A field is missing when it is
    absent or otherwise falsy; the format rule covers both the pattern and the
    calendar check, which the code reports under one message. *)
Inductive Rule :=
| DateMissing
| DateMalformed
| EmojiMissing
| EmojiNotAllowed
| NoteTooLong.

Definition allRules : list Rule :=
  [DateMissing; DateMalformed; EmojiMissing; EmojiNotAllowed; NoteTooLong].

Definition normalizedNote (n : JsVal) : JsVal :=
  match n with
  | VUndefined => VNull
  | VStr [] => VNull
  | v => v
  end.

Definition violates (LocalTZA : Z) (c : MoodEntry.t) (r : Rule) : bool :=
  match r with
  | DateMissing => negb (truthy (MoodEntry.date c))
  | DateMalformed =>
      truthy (MoodEntry.date c)
      && negb (MoodEntry.isValidDate LocalTZA (MoodEntry.date c))
  | EmojiMissing => negb (truthy (MoodEntry.emoji c))
  | EmojiNotAllowed =>
      truthy (MoodEntry.emoji c) && negb (MoodEntry.includesEmoji (MoodEntry.emoji c))
  | NoteTooLong =>
      match MoodEntry.note c with
      | VStr s => (500 <? length s)%nat
      | _ => false
      end
  end.

Definition ruleMessage (r : Rule) : jsstring :=
  match r with
  | DateMissing => js "Date is required"
  | DateMalformed => js "date must be in YYYY-MM-DD format"
  | EmojiMissing => js "Emoji is required"
  | EmojiNotAllowed =>
      js "emoji must be one of: " ++ JsString.join (js ", ") MoodEntry.allowedEmojis
  | NoteTooLong => js "note must be 500 characters or less"
  end.

Definition violated (LocalTZA : Z) (c : MoodEntry.t) : list Rule :=
  List.filter (violates LocalTZA c) allRules.

(** The candidate breaks at least one rule. *)
Definition invalid (LocalTZA : Z) (c : MoodEntry.t) : bool :=
  existsb (violates LocalTZA c) allRules.

(** A database whose rows all pass the model's validation when read back
    (no violated rule) and carry pairwise different dates: what the schema's
    [UNIQUE] constraint and writing through the repository maintain. *)
Definition rowsValid (LocalTZA : Z) (db : SecureDatabase.t) : Prop :=
  Forall (fun r => invalid LocalTZA r = false) (SecureDatabase.table db).

Definition datesUnique (db : SecureDatabase.t) : Prop :=
  List.NoDup (List.map MoodEntry.date (SecureDatabase.table db)).

Definition wellFormed (LocalTZA : Z) (db : SecureDatabase.t) : Prop :=
  rowsValid LocalTZA db /\ datesUnique db.

(** The rows stored for date [d]. *)
Definition rowsOn (d : jsstring) (db : SecureDatabase.t) : list SecureDatabase.Row :=
  List.filter (fun r => bool_decide (MoodEntry.date r = VStr d)) (SecureDatabase.table db).

(** One step of the system: a repository method runs to completion, or, when
    requests interleave at an [await], the statement of [createMoodEntry] or
    [deleteMoodEntryByDate] that follows the lookup runs on its own, against
    whatever the table holds by then. *)
Inductive step (LocalTZA : Z) (sqlDATE : JsVal -> JsVal)
  : SecureDatabase.t -> SecureDatabase.t -> Prop :=
| step_create now data db :
    step LocalTZA sqlDATE db
      (snd (MoodDatabase.createMoodEntry LocalTZA now data db))
| step_check now data db :
    step LocalTZA sqlDATE db
      (snd (MoodDatabase.checkMoodEntry LocalTZA now data db))
| step_insert now data moodEntry db :
    MoodEntry.new LocalTZA now data = Return moodEntry ->
    step LocalTZA sqlDATE db
      (snd (MoodDatabase.insertMoodEntry moodEntry db))
| step_get now date db :
    step LocalTZA sqlDATE db
      (snd (MoodDatabase.getMoodEntryByDate LocalTZA now date db))
| step_list now options db :
    step LocalTZA sqlDATE db
      (snd (MoodDatabase.getMoodEntries LocalTZA now options db))
| step_delete now date db :
    step LocalTZA sqlDATE db
      (snd (MoodDatabase.deleteMoodEntryByDate LocalTZA now date db))
| step_delete_statement date db :
    step LocalTZA sqlDATE db
      (snd (SecureDatabase.run (SecureDatabase.DeleteByDate date) db))
| step_statistics now options db :
    step LocalTZA sqlDATE db
      (snd (MoodDatabase.getStatistics LocalTZA sqlDATE now options db)).

(** The databases the repository can produce from the empty one. *)
Inductive reachable (LocalTZA : Z) (sqlDATE : JsVal -> JsVal)
  : SecureDatabase.t -> Prop :=
| reachable_empty : reachable LocalTZA sqlDATE SecureDatabase.empty
| reachable_step db db' :
    reachable LocalTZA sqlDATE db ->
    step LocalTZA sqlDATE db db' ->
    reachable LocalTZA sqlDATE db'.

(** The row the [INSERT] writes for an entry, once an id is assigned. *)
Definition rowOf (rowid : Z) (e : MoodEntry.t) : SecureDatabase.Row :=
  MoodEntry.mk (VNum rowid)
    (SecureDatabase.bind (MoodEntry.date e))
    (SecureDatabase.textAffinity (SecureDatabase.bind (MoodEntry.emoji e)))
    (SecureDatabase.textAffinity (SecureDatabase.bind (MoodEntry.note e)))
    (SecureDatabase.bind (MoodEntry.created_at e))
    (SecureDatabase.bind (MoodEntry.updated_at e)).

(** A note as the data model has it: a string, [null], or absent. *)
Definition textOrAbsent (v : JsVal) : bool :=
  match v with
  | VUndefined | VNull | VStr _ => true
  | _ => false
  end.

(** Sample data for the concrete instances: an allowed emoji, a candidate
    with the given date, emoji and note, and an instant on 2025-09-22. *)
Definition sad : jsstring := [0xD83D; 0xDE22]%N.
Definition happy : jsstring := [0xD83D; 0xDE0A]%N.
Definition candidate (d : String.string) (e : jsstring) (n : JsVal) : MoodEntry.t :=
  MoodEntry.mk VUndefined (VStr (js d)) (VStr e) n VUndefined VUndefined.
Definition morning : Z := 1758535445123.

(** The database after one entry for 2025-09-22 was created in the empty
    one, in a process running on UTC. *)
Definition oneEntry : SecureDatabase.t :=
  snd (MoodDatabase.createMoodEntry 0 morning (candidate "2025-09-22" sad VNull)
         SecureDatabase.empty).

(** The date of a row or entry, as text. *)
Definition dateText (r : MoodEntry.t) : jsstring :=
  match MoodEntry.date r with
  | VStr s => s
  | _ => []
  end.

Definition hasDateText (r : MoodEntry.t) : Prop :=
  exists s, MoodEntry.date r = VStr s.

Definition notOlder (a b : MoodEntry.t) : Prop :=
  JsString.compare (dateText a) (dateText b) <> Lt.

(** [a] is dated strictly after [b]. *)
Definition newerThan (a b : MoodEntry.t) : Prop :=
  JsString.compare (dateText a) (dateText b) = Gt.

(** The inclusive date-range filter: [from <= date], [date <= to], each bound
    only when it is given. *)
Definition withinBounds (from to : option jsstring) (r : MoodEntry.t) : bool :=
  match MoodEntry.date r with
  | VStr d =>
      match from with Some f => JsString.leb f d | None => true end
      && match to with Some t => JsString.leb d t | None => true end
  | _ => false
  end.

Definition dateOrAbsent (v : option jsstring) : bool :=
  match v with
  | Some s => MoodEntry.dateRegex_test s
  | None => true
  end.

(** Valid options of [getMoodEntries]: a limit within 1..100, a page from 1,
    bounds that are dates of the form [YYYY-MM-DD] when given, and no lower
    bound after the upper one. *)
Definition validOptions (o : MoodDatabase.Options) : bool :=
  let limit := default 20 (MoodDatabase.limit o) in
  let page := default 1 (MoodDatabase.page o) in
  (1 <=? limit) && (limit <=? 100) && (1 <=? page)
  && dateOrAbsent (MoodDatabase.given (MoodDatabase.from o))
  && dateOrAbsent (MoodDatabase.given (MoodDatabase.to o))
  && match MoodDatabase.given (MoodDatabase.from o),
           MoodDatabase.given (MoodDatabase.to o) with
     | Some f, Some t => negb (JsString.gtb f t)
     | _, _ => true
     end.

(** The options [getMoodEntries] refuses, as the specification lists them. *)
Definition refusedOptions (o : MoodDatabase.Options) : Prop :=
  let limit := default 20 (MoodDatabase.limit o) in
  let page := default 1 (MoodDatabase.page o) in
  limit < 1 \/ 100 < limit \/ page < 1
  \/ exists f t, MoodDatabase.given (MoodDatabase.from o) = Some f
                 /\ MoodDatabase.given (MoodDatabase.to o) = Some t
                 /\ JsString.gtb f t = true.

(** The [WHERE] clause for a pair of bounds. *)
Definition whereOf (from to : option jsstring) : SecureDatabase.Where :=
  match from, to with
  | Some f, Some t => SecureDatabase.WhereBetween f t
  | Some f, None => SecureDatabase.WhereGe f
  | None, Some t => SecureDatabase.WhereLe t
  | None, None => SecureDatabase.WhereNone
  end.

(** The database after entries for 2025-09-22, 2025-09-20 and 2025-09-21
    were created in this order, and options asking for the first page of two
    entries from 2025-09-20 on. *)
Definition threeDays : SecureDatabase.t :=
  snd (MoodDatabase.createMoodEntry 0 morning (candidate "2025-09-21" sad VNull)
    (snd (MoodDatabase.createMoodEntry 0 morning (candidate "2025-09-20" happy (VStr (js "ok")))
            oneEntry))).

Definition firstTwo : MoodDatabase.Options :=
  {| MoodDatabase.limit := Some 2; MoodDatabase.page := None;
     MoodDatabase.from := Some (js "2025-09-20"); MoodDatabase.to := None |}.

(** The date, printed [YYYY-MM-DD], of the day with number [n] counted from
    1970-01-01 in UTC. *)
Definition calendarDay (n : Z) : jsstring :=
  let t := n * JsDate.msPerDay in
  JsDate.yearString (JsDate.YearFromTime t) ++ js "-"
  ++ JsString.pad 2 (JsDate.MonthFromTime t + 1) ++ js "-"
  ++ JsString.pad 2 (JsDate.DateFromTime t).

(** The row's date is the cutoff or later. *)
Definition onOrAfter (cutoff : jsstring) (r : MoodEntry.t) : bool :=
  match MoodEntry.date r with
  | VStr d => JsString.leb cutoff d
  | _ => false
  end.

(** Number of rows that satisfy [p]. *)
Definition countRows (p : MoodEntry.t -> bool) (rows : list MoodEntry.t) : Z :=
  Z.of_nat (length (List.filter p rows)).

(** The sum of the counts of the statistics rows whose emoji and day satisfy
    [p]. *)
Definition weight (p : JsVal -> JsVal -> bool) (gs : list SecureDatabase.Stat) : Z :=
  fold_right
    (fun g acc =>
       (if p (SecureDatabase.stat_emoji g) (SecureDatabase.stat_date g)
        then SecureDatabase.stat_count g else 0) + acc)
    0 gs.

Definition keyOf (g : SecureDatabase.Stat) : JsVal * JsVal :=
  (SecureDatabase.stat_emoji g, SecureDatabase.stat_date g).

(** The emoji and the day of creation a row is grouped under. *)
Definition groupKey (sqlDATE : JsVal -> JsVal) (r : MoodEntry.t) : JsVal * JsVal :=
  (MoodEntry.emoji r, sqlDATE (MoodEntry.created_at r)).

(** Every row carries a number as id, between 1 and the largest id ever
    assigned, and no two rows carry the same. *)
Definition idsAssigned (db : SecureDatabase.t) : Prop :=
  0 <= SecureDatabase.seq db
  /\ Forall (fun r => exists n, MoodEntry.id r = VNum n /\ 1 <= n <= SecureDatabase.seq db)
            (SecureDatabase.table db)
  /\ List.NoDup (List.map MoodEntry.id (SecureDatabase.table db)).

(** The object [{ ...moodData, date }] of [updateMoodEntry]. *)
Definition withDate (moodData : MoodEntry.t) (date : JsVal) : MoodEntry.t :=
  MoodEntry.mk (MoodEntry.id moodData) date (MoodEntry.emoji moodData)
    (MoodEntry.note moodData) (MoodEntry.created_at moodData)
    (MoodEntry.updated_at moodData).

(** The page number of the query, when one is given, is an integer that
    JavaScript numbers hold exactly, so that [parseInt] returns it as it is
    written. *)
Definition safePage (q : Validation.Query) : Prop :=
  forall p n, Validation.page q = Some p -> Validation.parseInt p = Some n ->
    n <= 9007199254740991.

(** The options for page [p] of a listing with a given limit and bounds, and
    the entries [getMoodEntries] returns for options (none when it throws). *)
Definition pageOptions (limit : Z) (from to : option jsstring) (p : Z)
  : MoodDatabase.Options :=
  {| MoodDatabase.limit := Some limit; MoodDatabase.page := Some p;
     MoodDatabase.from := from; MoodDatabase.to := to |}.

Definition moodsOfPage (LocalTZA now : Z) (o : MoodDatabase.Options)
    (db : SecureDatabase.t) : list MoodEntry.t :=
  match fst (MoodDatabase.getMoodEntries LocalTZA now o db) with
  | Return pg => MoodDatabase.moods pg
  | Throw _ => []
  end.

(** The monitor after a series of timers, each given by its operation
    type and the readings of the clocks at its start and its end, was
    started and ended in turn. *)
Definition recorded (runs : list (jsstring * Z * Z * Z)) (this : PerformanceMonitor.t)
  : PerformanceMonitor.t :=
  fold_left
    (fun this run =>
       let '(op, start, finish, now) := run in
       snd (PerformanceMonitor.endTimer finish now
              (PerformanceMonitor.startTimer start op) this))
    runs this.

(** * Properties *)

(** ** Strings *)

Section StringFacts.

Lemma compare_refl (s : jsstring) : JsString.compare s s = Eq.
Proof.
  induction s as [|x s IH]; simpl; [reflexivity|].
  rewrite N.compare_refl. exact IH.
Qed.

Lemma compare_eq (a b : jsstring) : JsString.compare a b = Eq -> a = b.
Proof.
  revert b. induction a as [|x a IH]; intros [|y b]; simpl; try discriminate; auto.
  destruct (N.compare x y) eqn:E; try discriminate.
  apply N.compare_eq in E. intros H. f_equal; auto.
Qed.

Lemma compare_antisym (a b : jsstring) :
  JsString.compare b a = CompOpp (JsString.compare a b).
Proof.
  revert b. induction a as [|x a IH]; intros [|y b]; simpl; auto.
  rewrite (N.compare_antisym x y).
  destruct (N.compare x y); simpl; auto.
Qed.

Lemma compare_lt_trans (a b c : jsstring) :
  JsString.compare a b = Lt -> JsString.compare b c = Lt ->
  JsString.compare a c = Lt.
Proof.
  revert b c. induction a as [|x a IH]; intros [|y b] [|z c]; simpl;
    try discriminate; auto.
  destruct (N.compare x y) eqn:Exy; try discriminate;
    destruct (N.compare y z) eqn:Eyz; try discriminate; intros H1 H2.
  - apply N.compare_eq in Exy, Eyz. subst. rewrite N.compare_refl. eauto.
  - apply N.compare_eq in Exy. subst. rewrite Eyz. reflexivity.
  - apply N.compare_eq in Eyz. subst. rewrite Exy. reflexivity.
  - rewrite N.compare_lt_iff in Exy, Eyz.
    assert (E : N.compare x z = Lt) by (rewrite N.compare_lt_iff; lia).
    rewrite E. reflexivity.
Qed.

Lemma startsWith_app (p s : jsstring) : JsString.startsWith (p ++ s) p = true.
Proof.
  induction p as [|x p IH]; simpl; [reflexivity|].
  rewrite N.eqb_refl. exact IH.
Qed.

Lemma includes_app (a m b : jsstring) :
  JsString.includes (a ++ m ++ b) m = true.
Proof.
  induction a as [|x a IH]; simpl.
  - destruct (m ++ b) eqn:E; simpl.
    + destruct m; [reflexivity | discriminate].
    + rewrite <- E, startsWith_app. reflexivity.
  - rewrite IH. apply orb_true_r.
Qed.

Lemma includes_join (sep m : jsstring) (l : list jsstring) :
  In m l -> JsString.includes (JsString.join sep l) m = true.
Proof.
  induction l as [|x l IH]; [intros []|].
  intros [->|Hin].
  - destruct l as [|y l]; simpl.
    + rewrite <- (app_nil_r m) at 1. apply (includes_app [] m []).
    + apply (includes_app [] m).
  - destruct l as [|y l]; [destruct Hin|].
    change (JsString.join sep (x :: y :: l))
      with (x ++ sep ++ JsString.join sep (y :: l)).
    specialize (IH Hin). revert IH.
    generalize (JsString.join sep (y :: l)) as r. intros r IH.
    rewrite app_assoc. generalize (x ++ sep) as pre. intros pre.
    induction pre as [|c pre IHp]; simpl; [exact IH|].
    rewrite IHp. apply orb_true_r.
Qed.

Lemma codePoints_le (s : jsstring) : (JsString.codePoints s <= length s)%nat.
Proof.
  assert (H : forall n (s : jsstring), (length s <= n)%nat ->
              (JsString.codePoints s <= length s)%nat).
  { intros n. induction n as [|n IH]; intros [|x [|y r]] Hl; simpl in *; try lia.
    destruct (JsString.isHigh x && JsString.isLow y).
    - assert (JsString.codePoints r <= length r)%nat by (apply IH; lia). lia.
    - assert (JsString.codePoints (y :: r) <= length (y :: r))%nat
        by (apply IH; simpl; lia).
      simpl in *. lia. }
  apply (H (length s)). lia.
Qed.

End StringFacts.

(** ** Calendar arithmetic *)

Section DateFacts.
Import JsDate.

Lemma isLeap_cases y :
  (isLeap y = true /\ DaysInYear y = 366) \/ (isLeap y = false /\ DaysInYear y = 365).
Proof. unfold DaysInYear. destruct (isLeap y); auto. Qed.

Lemma DayFromYear_succ y : DayFromYear (y + 1) = DayFromYear y + DaysInYear y.
Proof.
  unfold DaysInYear, isLeap, DayFromYear.
  destruct (Z.eqb_spec (y mod 4) 0), (Z.eqb_spec (y mod 100) 0),
    (Z.eqb_spec (y mod 400) 0); simpl; Z.div_mod_to_equations; lia.
Qed.

Lemma DayFromYear_mean y :
  146097 * (y - 1970) - 398 <= 400 * DayFromYear y <= 146097 * (y - 1970) + 481.
Proof. unfold DayFromYear. Z.div_mod_to_equations. lia. Qed.

Lemma DayFromYear_lt y y' : y < y' -> DayFromYear y < DayFromYear y'.
Proof.
  intros H. replace y' with (y + 1 + (y' - y - 1)) by lia.
  assert (0 <= y' - y - 1) as Hk by lia. revert Hk.
  generalize (y' - y - 1) as k. intros k Hk. pattern k.
  apply natlike_ind; [ | | exact Hk].
  - rewrite Z.add_0_r, DayFromYear_succ. destruct (isLeap_cases y) as [[_ ->]|[_ ->]]; lia.
  - intros x Hx IH. replace (y + 1 + Z.succ x) with (y + 1 + x + 1) by lia.
    rewrite DayFromYear_succ. destruct (isLeap_cases (y + 1 + x)) as [[_ ->]|[_ ->]]; lia.
Qed.

Lemma YearFromDay_spec d :
  DayFromYear (YearFromDay d) <= d < DayFromYear (YearFromDay d + 1).
Proof.
  unfold YearFromDay.
  set (q := d * 400 / 146097).
  assert (Hq : 146097 * q <= 400 * d < 146097 * (q + 1))
    by (subst q; Z.div_mod_to_equations; lia).
  pose proof (DayFromYear_mean (1970 + q - 1)) as B0.
  pose proof (DayFromYear_mean (1970 + q + 1 + 1)) as B3.
  destruct (Z.ltb_spec d (DayFromYear (1970 + q))) as [H1|H1].
  - replace (1970 + q - 1 + 1) with (1970 + q) by lia. lia.
  - destruct (Z.leb_spec (DayFromYear (1970 + q + 1)) d) as [H2|H2]; lia.
Qed.

Lemma YearFromDay_unique d y :
  DayFromYear y <= d < DayFromYear (y + 1) -> YearFromDay d = y.
Proof.
  intros H. pose proof (YearFromDay_spec d) as S.
  destruct (Z.lt_trichotomy (YearFromDay d) y) as [L|[E|G]]; [|exact E|].
  - assert (DayFromYear (YearFromDay d + 1) <= DayFromYear y).
    { destruct (Z.eq_dec (YearFromDay d + 1) y) as [->|]; [lia|].
      apply Z.lt_le_incl, DayFromYear_lt. lia. }
    lia.
  - assert (DayFromYear (y + 1) <= DayFromYear (YearFromDay d)).
    { destruct (Z.eq_dec (y + 1) (YearFromDay d)) as [->|]; [lia|].
      apply Z.lt_le_incl, DayFromYear_lt. lia. }
    lia.
Qed.

Lemma DayWithinYear_range t :
  0 <= DayWithinYear t < DaysInYear (YearFromTime t).
Proof.
  unfold DayWithinYear, YearFromTime.
  pose proof (YearFromDay_spec (Day t)) as S.
  rewrite DayFromYear_succ in S. lia.
Qed.

Lemma monthOfYearDay_range (leap : bool) (d : Z) :
  0 <= d < (if leap then 366 else 365) ->
  0 <= monthOfYearDay leap d <= 11
  /\ 1 <= d - monthStart leap (monthOfYearDay leap d) + 1
     <= (match monthOfYearDay leap d + 1 with
         | 2 => if leap then 29 else 28
         | 4 | 6 | 9 | 11 => 30
         | _ => 31
         end).
Proof.
  intros H. unfold monthOfYearDay.
  destruct leap; cbv [monthStart];
    repeat (match goal with
            | |- context [?a <? ?b] => destruct (Z.ltb_spec a b)
            end; [simpl; lia|]); simpl; lia.
Qed.

(** Whatever the instant, the year, month and day it reads as form a date
    of the calendar. *)
Lemma fields_are_calendar_date t :
  isCalendarDate (YearFromTime t) (MonthFromTime t + 1) (DateFromTime t) = true.
Proof.
  pose proof (DayWithinYear_range t) as R.
  unfold DaysInYear in R. fold (InLeapYear t) in R.
  pose proof (monthOfYearDay_range (InLeapYear t) (DayWithinYear t) R) as [M D].
  unfold isCalendarDate, daysInMonth, DateFromTime, MonthFromTime in *.
  fold (InLeapYear t).
  repeat rewrite andb_true_iff. repeat split; try (apply Z.leb_le; lia).
Qed.

Lemma monthOfYearDay_start (leap : bool) (m d : Z) :
  0 <= m <= 11 ->
  1 <= d <= (match m + 1 with
             | 2 => if leap then 29 else 28
             | 4 | 6 | 9 | 11 => 30
             | _ => 31
             end) ->
  monthOfYearDay leap (monthStart leap m + d - 1) = m.
Proof.
  intros Hm Hd.
  assert (m = 0 \/ m = 1 \/ m = 2 \/ m = 3 \/ m = 4 \/ m = 5 \/ m = 6
          \/ m = 7 \/ m = 8 \/ m = 9 \/ m = 10 \/ m = 11) as C by lia.
  unfold monthOfYearDay.
  destruct leap; repeat (destruct C as [->|C]); try subst m;
    simpl in Hd; cbv [monthStart];
    repeat (match goal with
            | |- context [?a <? ?b] => destruct (Z.ltb_spec a b)
            end; try lia); reflexivity.
Qed.

(** A date of the calendar, made into a day number, reads back as itself. *)
Lemma MakeDay_fields y m d t :
  isCalendarDate y m d = true ->
  Day t = MakeDay y (m - 1) d ->
  YearFromTime t = y /\ MonthFromTime t + 1 = m /\ DateFromTime t = d.
Proof.
  unfold isCalendarDate, daysInMonth. rewrite !andb_true_iff, !Z.leb_le.
  intros [[[M1 M2] D1] D2] HD.
  assert (Hdiv : (m - 1) / 12 = 0) by (apply Z.div_small; lia).
  assert (Hmod : (m - 1) mod 12 = m - 1) by (apply Z.mod_small; lia).
  unfold MakeDay in HD. cbv zeta in HD. rewrite Hdiv, Hmod, Z.add_0_r in HD.
  assert (Hstart : monthOfYearDay (isLeap y) (monthStart (isLeap y) (m - 1) + d - 1) = m - 1).
  { apply monthOfYearDay_start; [lia|]. replace (m - 1 + 1) with m by lia. lia. }
  assert (Hin : 0 <= monthStart (isLeap y) (m - 1) + d - 1 < DaysInYear y).
  { pose proof (monthOfYearDay_range (isLeap y) (monthStart (isLeap y) (m - 1) + d - 1)) as R.
    unfold DaysInYear.
    assert (m = 1 \/ m = 2 \/ m = 3 \/ m = 4 \/ m = 5 \/ m = 6 \/ m = 7
            \/ m = 8 \/ m = 9 \/ m = 10 \/ m = 11 \/ m = 12) as C by lia.
    clear Hstart R. destruct (isLeap y);
      repeat (destruct C as [->|C]); try subst m; simpl in D2 |- *; lia. }
  assert (HY : YearFromTime t = y).
  { unfold YearFromTime. apply YearFromDay_unique.
    rewrite DayFromYear_succ. lia. }
  assert (HW : DayWithinYear t = monthStart (isLeap y) (m - 1) + d - 1).
  { unfold DayWithinYear. rewrite HY. lia. }
  split; [exact HY|].
  unfold DateFromTime, MonthFromTime, InLeapYear. rewrite HW, HY, Hstart. lia.
Qed.

End DateFacts.

(** ** The date validator *)

Section ValidatorFacts.
Import JsDate.

Lemma isDigit_value c :
  JsString.isDigit c = true -> 0 <= digitValue c <= 9 /\ N.eqb c 45 = false.
Proof.
  unfold JsString.isDigit, digitValue.
  rewrite andb_true_iff, !N.leb_le. intros [H1 H2].
  split; [lia|]. apply N.eqb_neq. lia.
Qed.

(** What [split] and [Number] extract from a string that matches the
    pattern, and what [new Date] makes of it. *)
Lemma matched_string s :
  MoodEntry.dateRegex_test s = true ->
  exists y m d,
    dateFields s = Some (y, m, d)
    /\ 0 <= y <= 9999 /\ 0 <= m <= 99 /\ 0 <= d <= 99
    /\ List.map JsString.toNumber (JsString.split 45 s) = [Some y; Some m; Some d]
    /\ parse s = (if (1 <=? m) && (m <=? 12) && (1 <=? d) && (d <=? 31)
                  then TimeClip (MakeDate (MakeDay y (m - 1) d) 0)
                  else None).
Proof.
  intros Hre.
  destruct s as [|y1 [|y2 [|y3 [|y4 [|h1 [|m1 [|m2 [|h2 [|d1 [|d2 [|x r]]]]]]]]]]];
    try discriminate Hre.
  unfold dateFields. rewrite Hre.
  unfold MoodEntry.dateRegex_test in Hre.
  rewrite !andb_true_iff in Hre.
  destruct Hre as [[[[[[[[[Y1 Y2] Y3] Y4] H1] M1] M2] H2] D1] D2].
  apply N.eqb_eq in H1, H2. subst h1 h2.
  destruct (isDigit_value _ Y1) as [R1 N1], (isDigit_value _ Y2) as [R2 N2],
    (isDigit_value _ Y3) as [R3 N3], (isDigit_value _ Y4) as [R4 N4],
    (isDigit_value _ M1) as [R5 N5], (isDigit_value _ M2) as [R6 N6],
    (isDigit_value _ D1) as [R7 N7], (isDigit_value _ D2) as [R8 N8].
  assert (Hsplit :
    List.map JsString.toNumber
      (JsString.split 45 [y1; y2; y3; y4; 45%N; m1; m2; 45%N; d1; d2])
    = [Some (1000 * digitValue y1 + 100 * digitValue y2
             + 10 * digitValue y3 + digitValue y4);
       Some (10 * digitValue m1 + digitValue m2);
       Some (10 * digitValue d1 + digitValue d2)]).
  { unfold JsString.split. cbn [JsString.split_aux].
    rewrite N1, N2, N3, N4, N5, N6, N7, N8. cbn [N.eqb Pos.eqb rev app List.map].
    unfold JsString.toNumber. cbn [forallb fold_left].
    rewrite Y1, Y2, Y3, Y4, M1, M2, D1, D2. cbn [andb].
    unfold digitValue. repeat f_equal; lia. }
  eexists _, _, _. split; [reflexivity|].
  split; [lia|]. split; [lia|]. split; [lia|]. split; [exact Hsplit|].
  unfold parse. rewrite Hsplit. reflexivity.
Qed.

Lemma Day_of_midnight day tz :
  0 <= tz < msPerDay -> Day (MakeDate day 0 + tz) = day.
Proof.
  unfold Day, MakeDate, msPerDay. intros H.
  Z.div_mod_to_equations. lia.
Qed.

Lemma MakeDay_in_range y m d :
  0 <= y <= 9999 -> 1 <= m <= 12 -> 1 <= d <= 31 ->
  TimeClip (MakeDate (MakeDay y (m - 1) d) 0) = Some (MakeDate (MakeDay y (m - 1) d) 0).
Proof.
  intros Hy Hm Hd. unfold TimeClip.
  assert (Hdiv : (m - 1) / 12 = 0) by (apply Z.div_small; lia).
  assert (Hz : 0 <= monthStart (isLeap y) ((m - 1) mod 12) <= 366).
  { rewrite Z.mod_small by lia.
    assert (m = 1 \/ m = 2 \/ m = 3 \/ m = 4 \/ m = 5 \/ m = 6 \/ m = 7
            \/ m = 8 \/ m = 9 \/ m = 10 \/ m = 11 \/ m = 12) as C by lia.
    destruct (isLeap y); repeat (destruct C as [->|C]); try subst m; simpl; lia. }
  pose proof (DayFromYear_mean y) as B.
  assert (Hb : Z.abs (MakeDate (MakeDay y (m - 1) d) 0) <= 8640000000000000).
  { unfold MakeDate, MakeDay, msPerDay. cbv zeta. rewrite Hdiv.
    replace (y + 0) with y by lia. lia. }
  destruct (Z.leb_spec (Z.abs (MakeDate (MakeDay y (m - 1) d) 0)) 8640000000000000);
    [reflexivity|lia].
Qed.

(** Soundness, in every time zone: what the validator accepts has the form
    [YYYY-MM-DD] and spells a date of the calendar. *)
Lemma isValidDate_sound tz s :
  MoodEntry.isValidDate tz (VStr s) = true ->
  MoodEntry.dateRegex_test s = true /\ denotesCalendarDate s = true.
Proof.
  unfold MoodEntry.isValidDate.
  destruct (MoodEntry.dateRegex_test s) eqn:Hre; [|discriminate].
  cbn [negb]. intros H. split; [reflexivity|].
  destruct (matched_string s Hre) as (y & m & d & Hf & _ & _ & _ & Hsp & _).
  unfold denotesCalendarDate. rewrite Hf.
  rewrite Hsp in H. cbn [nth] in H.
  destruct (parse s) as [t|]; [|discriminate H].
  cbn [getFullYear getMonth getDate option_map numEq] in H.
  rewrite !andb_true_iff, !Z.eqb_eq in H. destruct H as [[HY HM] HD].
  rewrite <- HY, <- HM, <- HD. apply fields_are_calendar_date.
Qed.

(** Completeness, where local time is UTC or ahead of it by less than a
    day. *)
Lemma isValidDate_complete tz s :
  0 <= tz < msPerDay ->
  denotesCalendarDate s = true ->
  MoodEntry.isValidDate tz (VStr s) = true.
Proof.
  intros Htz Hc. unfold denotesCalendarDate in Hc.
  destruct (dateFields s) as [[[y m] d]|] eqn:Hf; [|discriminate].
  assert (Hre : MoodEntry.dateRegex_test s = true).
  { unfold dateFields in Hf.
    destruct s as [|y1 [|y2 [|y3 [|y4 [|h1 [|m1 [|m2 [|h2 [|d1 [|d2 [|x r]]]]]]]]]]];
      try discriminate Hf.
    destruct (MoodEntry.dateRegex_test _); [reflexivity|discriminate]. }
  destruct (matched_string s Hre) as (y' & m' & d' & Hf' & Hy & _ & _ & Hsp & Hp).
  rewrite Hf in Hf'. injection Hf' as <- <- <-.
  pose proof Hc as Hc'.
  unfold isCalendarDate in Hc'. rewrite !andb_true_iff, !Z.leb_le in Hc'.
  destruct Hc' as [[[M1 M2] D1] D2].
  assert (D3 : d <= 31).
  { unfold daysInMonth in D2.
    assert (m = 1 \/ m = 2 \/ m = 3 \/ m = 4 \/ m = 5 \/ m = 6 \/ m = 7
            \/ m = 8 \/ m = 9 \/ m = 10 \/ m = 11 \/ m = 12) as C by lia.
    destruct (isLeap y); repeat (destruct C as [->|C]); try subst m; simpl in D2; lia. }
  unfold MoodEntry.isValidDate. rewrite Hre, Hsp, Hp. cbn [negb nth].
  replace ((1 <=? m) && (m <=? 12) && (1 <=? d) && (d <=? 31)) with true
    by (symmetry; rewrite !andb_true_iff, !Z.leb_le; lia).
  rewrite MakeDay_in_range by lia.
  cbn [getFullYear getMonth getDate option_map numEq].
  destruct (MakeDay_fields y m d (LocalTime tz (MakeDate (MakeDay y (m - 1) d) 0)) Hc)
    as (HY & HM & HD).
  { unfold LocalTime. apply Day_of_midnight. exact Htz. }
  rewrite HY, HM, HD, !Z.eqb_refl. reflexivity.
Qed.

(** The text of a value that is not a string never matches the pattern, so
    [isValidDate] answers [false] on it at the pattern test. *)
Lemma digits_of_uint_digits d :
  forallb JsString.isDigit (JsString.digits_of_uint d) = true.
Proof. induction d; simpl; auto. Qed.

Lemma dateRegex_nonstring v :
  isString v = false -> MoodEntry.dateRegex_test (ToString v) = false.
Proof.
  destruct v as [| |[]|n|s]; try reflexivity; [|discriminate].
  intros _. unfold ToString, JsString.ofZ.
  destruct (Z.to_int n) as [d|d].
  - pose proof (digits_of_uint_digits d) as H.
    destruct (JsString.digits_of_uint d)
      as [|y1 [|y2 [|y3 [|y4 [|h1 [|m1 [|m2 [|h2 [|d1 [|d2 [|x r]]]]]]]]]]];
      try reflexivity.
    cbn [forallb] in H. rewrite !andb_true_iff in H.
    destruct H as (_ & _ & _ & _ & H & _).
    destruct (isDigit_value _ H) as [_ E].
    unfold MoodEntry.dateRegex_test. rewrite E, !andb_false_r. reflexivity.
  - destruct (JsString.digits_of_uint d)
      as [|y2 [|y3 [|y4 [|h1 [|m1 [|m2 [|h2 [|d1 [|d2 [|x r]]]]]]]]]];
      reflexivity.
Qed.

Lemma Day_from_fields t :
  Day t = MakeDay (YearFromTime t) (MonthFromTime t) (DateFromTime t).
Proof.
  pose proof (DayWithinYear_range t) as R.
  unfold DaysInYear in R. fold (InLeapYear t) in R.
  pose proof (monthOfYearDay_range (InLeapYear t) (DayWithinYear t) R) as [M _].
  fold (MonthFromTime t) in M.
  unfold MakeDay. cbv zeta.
  rewrite (Z.div_small (MonthFromTime t) 12), (Z.mod_small (MonthFromTime t) 12) by lia.
  replace (YearFromTime t + 0) with (YearFromTime t) by lia.
  fold (InLeapYear t). unfold DateFromTime, DayWithinYear. lia.
Qed.

Lemma Day_before_midnight day tz :
  - msPerDay <= tz < 0 -> Day (MakeDate day 0 + tz) = day - 1.
Proof.
  unfold Day, MakeDate, msPerDay. intros H.
  Z.div_mod_to_equations. lia.
Qed.

(** Where local time is behind UTC (by a day at most), the instant
    [new Date(s)] denotes reads, in local time, as the day before: the
    validator accepts nothing. *)
Lemma isValidDate_behind_UTC tz v :
  - msPerDay <= tz < 0 -> MoodEntry.isValidDate tz v = false.
Proof.
  intros Htz. destruct v as [| | | |s]; try reflexivity.
  destruct (MoodEntry.isValidDate tz (VStr s)) eqn:H; [exfalso|reflexivity].
  unfold MoodEntry.isValidDate in H.
  destruct (MoodEntry.dateRegex_test s) eqn:Hre; [|discriminate].
  cbn [negb] in H.
  destruct (matched_string s Hre) as (y & m & d & _ & _ & _ & _ & Hsp & Hp).
  rewrite Hsp, Hp in H. cbn [nth] in H.
  destruct ((1 <=? m) && (m <=? 12) && (1 <=? d) && (d <=? 31)); [|discriminate H].
  destruct (TimeClip (MakeDate (MakeDay y (m - 1) d) 0)) as [t|] eqn:Et; [|discriminate H].
  assert (Ett : t = MakeDate (MakeDay y (m - 1) d) 0).
  { unfold TimeClip in Et. destruct (_ <=? _) in Et; [|discriminate Et]. congruence. }
  cbn [getFullYear getMonth getDate option_map numEq] in H.
  rewrite !andb_true_iff, !Z.eqb_eq in H. destruct H as [[HY HM] HD].
  pose proof (Day_from_fields (LocalTime tz t)) as E.
  rewrite HY, HD in E. replace (MonthFromTime _) with (m - 1) in E by lia.
  unfold LocalTime in E. rewrite Ett in E.
  rewrite Day_before_midnight in E by exact Htz. lia.
Qed.

Lemma isValidDateString_eq tz s :
  isValidDateString tz s = MoodEntry.isValidDate tz (VStr s).
Proof. reflexivity. Qed.

End ValidatorFacts.

(** ** The entity validator *)

Section EntityFacts.
Variable LocalTZA : Z.
Variable now : Z.

Lemma new_cases data :
  let this := MoodEntry.assign now data in
  (MoodEntry.errorsOf LocalTZA this = []
   /\ MoodEntry.new LocalTZA now data = Return this)
  \/ (MoodEntry.errorsOf LocalTZA this <> []
      /\ MoodEntry.new LocalTZA now data
         = Throw (ValidationError
                    (JsString.join (js "; ") (MoodEntry.errorsOf LocalTZA this)))).
Proof.
  intros this. unfold MoodEntry.new, MoodEntry.validate. fold this.
  destruct (MoodEntry.errorsOf LocalTZA this) as [|e l]; [left|right]; split;
    try reflexivity; discriminate.
Qed.

(** The array [errors] holds the messages of the violated rules, in the
    order of the rules. *)
Lemma errorsOf_violated data :
  MoodEntry.errorsOf LocalTZA (MoodEntry.assign now data)
  = List.map ruleMessage (violated LocalTZA data).
Proof.
  unfold MoodEntry.errorsOf, MoodEntry.dateErrors, MoodEntry.emojiErrors,
    MoodEntry.noteErrors, violated, allRules, violates.
  cbn [MoodEntry.assign MoodEntry.date MoodEntry.emoji MoodEntry.note List.filter].
  destruct (truthy (MoodEntry.date data)),
    (MoodEntry.isValidDate LocalTZA (MoodEntry.date data)),
    (truthy (MoodEntry.emoji data)),
    (MoodEntry.includesEmoji (MoodEntry.emoji data));
    cbn [negb andb app List.map ruleMessage];
    (destruct (MoodEntry.note data) as [| | | |[|c n]];
     [reflexivity .. | ]);
    (generalize (c :: n) as s; intros s;
     destruct (Z.ltb_spec 500 (Z.of_nat (length s)));
     destruct (Nat.ltb_spec 500 (length s)); try lia; reflexivity).
Qed.

Lemma invalid_violated data :
  invalid LocalTZA data = true <-> violated LocalTZA data <> [].
Proof.
  unfold invalid, violated. generalize allRules as l.
  induction l as [|r l IH]; simpl.
  - split; [discriminate|congruence].
  - destruct (violates LocalTZA data r); simpl; [split; [discriminate|reflexivity]|exact IH].
Qed.

Lemma new_valid data :
  invalid LocalTZA data = false ->
  MoodEntry.new LocalTZA now data = Return (MoodEntry.assign now data).
Proof.
  intros H. destruct (new_cases data) as [[_ E]|[N _]]; [exact E|].
  rewrite errorsOf_violated in N.
  assert (violated LocalTZA data <> []) as V by (intros E; rewrite E in N; auto).
  apply invalid_violated in V. congruence.
Qed.

Lemma new_invalid data :
  invalid LocalTZA data = true ->
  MoodEntry.new LocalTZA now data
  = Throw (ValidationError
             (JsString.join (js "; ") (List.map ruleMessage (violated LocalTZA data)))).
Proof.
  intros H. destruct (new_cases data) as [[E _]|[_ E]].
  - rewrite errorsOf_violated in E. apply invalid_violated in H.
    destruct (violated LocalTZA data); [congruence|discriminate].
  - rewrite E, errorsOf_violated. reflexivity.
Qed.

Lemma new_returns data e :
  MoodEntry.new LocalTZA now data = Return e ->
  e = MoodEntry.assign now data /\ invalid LocalTZA data = false.
Proof.
  intros H. destruct (invalid LocalTZA data) eqn:I.
  - rewrite new_invalid in H by exact I. discriminate.
  - rewrite new_valid in H by exact I. injection H as <-. auto.
Qed.

End EntityFacts.

(** ** The table and its statements *)

Section TableFacts.

Lemma sqlEq_text v s : SecureDatabase.sqlEq v (VStr s) = true <-> v = VStr s.
Proof.
  unfold SecureDatabase.sqlEq. split.
  - destruct v as [| |b|n|x]; simpl; try discriminate.
    destruct (JsString.compare x s) eqn:E; try discriminate.
    apply compare_eq in E. congruence.
  - intros ->. simpl. rewrite compare_refl. reflexivity.
Qed.

Lemma sqlEq_text_decide v s :
  SecureDatabase.sqlEq v (VStr s) = bool_decide (v = VStr s).
Proof.
  destruct (bool_decide_reflect (v = VStr s)) as [E|N].
  - apply sqlEq_text. exact E.
  - destruct (SecureDatabase.sqlEq v (VStr s)) eqn:E; [|reflexivity].
    apply sqlEq_text in E. contradiction.
Qed.

Lemma find_none_rowsOn d db :
  List.find (fun r => SecureDatabase.sqlEq (MoodEntry.date r) (VStr d))
            (SecureDatabase.table db) = None
  <-> rowsOn d db = [].
Proof.
  unfold rowsOn. induction (SecureDatabase.table db) as [|r l IH]; simpl.
  - tauto.
  - rewrite sqlEq_text_decide.
    destruct (bool_decide (MoodEntry.date r = VStr d)); [|exact IH].
    split; discriminate.
Qed.

Lemma find_some_rowsOn d db r :
  List.find (fun r => SecureDatabase.sqlEq (MoodEntry.date r) (VStr d))
            (SecureDatabase.table db) = Some r ->
  In r (SecureDatabase.table db) /\ MoodEntry.date r = VStr d.
Proof.
  intros H. apply find_some in H. destruct H as [H1 H2].
  apply sqlEq_text in H2. auto.
Qed.

Lemma existsb_rowsOn d db :
  existsb (fun r => SecureDatabase.sqlEq (MoodEntry.date r) (VStr d))
          (SecureDatabase.table db) = false
  <-> rowsOn d db = [].
Proof.
  unfold rowsOn. induction (SecureDatabase.table db) as [|r l IH]; simpl.
  - tauto.
  - rewrite sqlEq_text_decide.
    destruct (bool_decide (MoodEntry.date r = VStr d)); simpl; [|exact IH].
    split; discriminate.
Qed.

Lemma unique_find d db r :
  datesUnique db -> In r (SecureDatabase.table db) -> MoodEntry.date r = VStr d ->
  List.find (fun r => SecureDatabase.sqlEq (MoodEntry.date r) (VStr d))
            (SecureDatabase.table db) = Some r
  /\ rowsOn d db = [r].
Proof.
  unfold datesUnique, rowsOn. induction (SecureDatabase.table db) as [|x l IH];
    simpl; [intros _ []|].
  intros ND Hin Hd. inversion ND as [|? ? Hnot ND']; subst.
  rewrite sqlEq_text_decide.
  destruct Hin as [->|Hin].
  - rewrite Hd, bool_decide_eq_true_2 by reflexivity. split; [reflexivity|].
    f_equal. clear IH ND ND'. induction l as [|y l IH]; simpl; [reflexivity|].
    destruct (bool_decide_reflect (MoodEntry.date y = VStr d)) as [E|_].
    + exfalso. apply Hnot. simpl. left. congruence.
    + apply IH. intros H. apply Hnot. simpl. auto.
  - destruct (bool_decide_reflect (MoodEntry.date x = VStr d)) as [E|_].
    + exfalso. apply Hnot. rewrite E, <- Hd. apply in_map. exact Hin.
    + apply IH; auto.
Qed.

Lemma filter_length_lt {A} (f : A -> bool) (l : list A) x :
  In x l -> f x = false -> (length (List.filter f l) < length l)%nat.
Proof.
  induction l as [|y l IH]; simpl; [intros []|].
  intros [->|Hin] Hf.
  - rewrite Hf. pose proof (filter_length_le f l). lia.
  - specialize (IH Hin Hf). destruct (f y); simpl; lia.
Qed.

Lemma includes_date_column :
  JsString.includes
    (message (SecureDatabase.SqliteConstraint
                (js "UNIQUE constraint failed: mood_entries.date")))
    (js "mood_entries.date") = true.
Proof. vm_compute. reflexivity. Qed.

End TableFacts.

(** ** The repository *)

Section RepositoryFacts.
Variable LocalTZA : Z.

Lemma valid_fields data :
  invalid LocalTZA data = false ->
  exists d em,
    MoodEntry.date data = VStr d
    /\ MoodEntry.isValidDate LocalTZA (VStr d) = true
    /\ MoodEntry.emoji data = VStr em
    /\ existsb (JsString.eqb em) MoodEntry.allowedEmojis = true
    /\ (forall s, MoodEntry.note data = VStr s -> (length s <= 500)%nat).
Proof.
  unfold invalid, allRules, violates. cbn [existsb].
  rewrite !orb_false_iff. intros (H1 & H2 & H3 & H4 & H5 & _).
  apply negb_false_iff in H1, H3. rewrite H1 in H2. rewrite H3 in H4.
  cbn [andb] in H2, H4. apply negb_false_iff in H2, H4.
  destruct (MoodEntry.date data) as [| | | |d]; try discriminate H2.
  destruct (MoodEntry.emoji data) as [| | | |em]; try discriminate H4.
  exists d, em. repeat split; auto.
  intros s E. rewrite E in H5. apply Nat.ltb_ge in H5. exact H5.
Qed.

Lemma fromDbRow_new now row :
  MoodEntry.fromDbRow LocalTZA now row = MoodEntry.new LocalTZA now row.
Proof. destruct row; reflexivity. Qed.

Lemma fromDbRow_valid now row :
  invalid LocalTZA row = false ->
  MoodEntry.fromDbRow LocalTZA now row = Return (MoodEntry.assign now row).
Proof. intros H. rewrite fromDbRow_new. apply new_valid. exact H. Qed.

Lemma mapC_fromDbRow now rows :
  Forall (fun r => invalid LocalTZA r = false) rows ->
  MoodDatabase.mapC (MoodEntry.fromDbRow LocalTZA now) rows
  = Return (List.map (MoodEntry.assign now) rows).
Proof.
  induction 1 as [|r l Hr _ IH]; simpl; [reflexivity|].
  rewrite fromDbRow_valid, IH by exact Hr. reflexivity.
Qed.

(** *** Lookup by date *)

Lemma getMoodEntryByDate_table now date db :
  SecureDatabase.table (snd (MoodDatabase.getMoodEntryByDate LocalTZA now date db))
  = SecureDatabase.table db
  /\ SecureDatabase.seq (snd (MoodDatabase.getMoodEntryByDate LocalTZA now date db))
     = SecureDatabase.seq db.
Proof.
  unfold MoodDatabase.getMoodEntryByDate, MoodDatabase.bind, SecureDatabase.getByDate,
    MoodDatabase.lift, MoodDatabase.ret.
  destruct (List.find _ _); [|auto].
  destruct (MoodEntry.fromDbRow _ _ _); auto.
Qed.

Lemma getMoodEntryByDate_absent now d db :
  rowsOn d db = [] ->
  MoodDatabase.getMoodEntryByDate LocalTZA now (VStr d) db
  = (Return None, SecureDatabase.log (SecureDatabase.SelectByDate (VStr d)) db).
Proof.
  intros H. apply find_none_rowsOn in H.
  unfold MoodDatabase.getMoodEntryByDate, MoodDatabase.bind, SecureDatabase.getByDate.
  cbn [SecureDatabase.bind]. rewrite H. reflexivity.
Qed.

Lemma getMoodEntryByDate_found now d db r :
  List.find (fun r => SecureDatabase.sqlEq (MoodEntry.date r) (VStr d))
            (SecureDatabase.table db) = Some r ->
  invalid LocalTZA r = false ->
  MoodDatabase.getMoodEntryByDate LocalTZA now (VStr d) db
  = (Return (Some (MoodEntry.assign now r)),
     SecureDatabase.log (SecureDatabase.SelectByDate (VStr d)) db).
Proof.
  intros H V.
  unfold MoodDatabase.getMoodEntryByDate, MoodDatabase.bind, SecureDatabase.getByDate.
  cbn [SecureDatabase.bind]. rewrite H.
  unfold MoodDatabase.lift. rewrite fromDbRow_valid by exact V. reflexivity.
Qed.

Lemma getMoodEntryByDate_present now d db r :
  wellFormed LocalTZA db ->
  In r (SecureDatabase.table db) -> MoodEntry.date r = VStr d ->
  MoodDatabase.getMoodEntryByDate LocalTZA now (VStr d) db
  = (Return (Some (MoodEntry.assign now r)),
     SecureDatabase.log (SecureDatabase.SelectByDate (VStr d)) db).
Proof.
  intros [V U] Hin Hd. apply getMoodEntryByDate_found.
  - destruct (unique_find d db r U Hin Hd) as [F _]. exact F.
  - exact (proj1 (List.Forall_forall _ _) V r Hin).
Qed.

(** *** The insert *)

Lemma codePoints_below_surrogates (s : jsstring) :
  forallb (fun c => N.ltb c 0xD800) s = true ->
  JsString.codePoints s = length s.
Proof.
  assert (H : forall n (s : jsstring), (length s <= n)%nat ->
              forallb (fun c => N.ltb c 0xD800) s = true ->
              JsString.codePoints s = length s).
  { intros n. induction n as [|n IH]; intros [|x [|y r]] Hl Hs; simpl in *;
      try lia; try reflexivity.
    apply andb_true_iff in Hs. destruct Hs as [Hx Hs].
    assert (JsString.isHigh x = false) as ->.
    { unfold JsString.isHigh. apply N.ltb_lt in Hx.
      apply andb_false_iff. left. apply N.leb_gt. exact Hx. }
    cbn [andb]. f_equal. apply (IH (y :: r)); [simpl; lia|exact Hs]. }
  intros Hs. apply (H (length s)); [lia|exact Hs].
Qed.

Lemma ofZ_below_surrogates n :
  forallb (fun c => N.ltb c 0xD800) (JsString.ofZ n) = true.
Proof.
  assert (D : forall d, forallb (fun c => N.ltb c 0xD800) (JsString.digits_of_uint d) = true)
    by (induction d; simpl; auto).
  unfold JsString.ofZ. destruct (Z.to_int n); simpl; auto.
Qed.

Lemma rowOf_valid now data rowid :
  invalid LocalTZA data = false ->
  SecureDatabase.noteCheck
    (SecureDatabase.textAffinity
       (SecureDatabase.bind (MoodEntry.note (MoodEntry.assign now data)))) = true ->
  invalid LocalTZA (rowOf rowid (MoodEntry.assign now data)) = false.
Proof.
  intros V C.
  destruct (valid_fields data V) as (d & em & Hd & Hv & He & Hem & Hn).
  unfold invalid, allRules, violates, rowOf.
  cbn [existsb MoodEntry.assign MoodEntry.date MoodEntry.emoji MoodEntry.note].
  rewrite Hd, He. cbn [SecureDatabase.bind SecureDatabase.textAffinity].
  rewrite Hv. cbn [MoodEntry.includesEmoji]. rewrite Hem.
  assert (Td : truthy (VStr d) = true).
  { destruct d; [discriminate Hv|reflexivity]. }
  assert (Te : truthy (VStr em) = true).
  { destruct em; [discriminate Hem|reflexivity]. }
  rewrite Td, Te. cbn [negb andb orb].
  cbn [MoodEntry.assign MoodEntry.note] in C.
  destruct (MoodEntry.note data) as [| |b|n|[|c s]] eqn:En;
    cbn [SecureDatabase.bind SecureDatabase.textAffinity] in C |- *; try reflexivity.
  - destruct b; reflexivity.
  - cbn [SecureDatabase.noteCheck] in C.
    rewrite codePoints_below_surrogates in C by apply ofZ_below_surrogates.
    apply Nat.leb_le in C. rewrite orb_false_r. apply Nat.ltb_ge. exact C.
  - specialize (Hn _ eq_refl). rewrite orb_false_r. apply Nat.ltb_ge. exact Hn.
Qed.

Lemma noteCheck_text now data :
  invalid LocalTZA data = false ->
  textOrAbsent (MoodEntry.note data) = true ->
  SecureDatabase.noteCheck
    (SecureDatabase.textAffinity
       (SecureDatabase.bind (MoodEntry.note (MoodEntry.assign now data)))) = true.
Proof.
  intros V T.
  destruct (valid_fields data V) as (_ & _ & _ & _ & _ & _ & Hn).
  cbn [MoodEntry.assign MoodEntry.note].
  destruct (MoodEntry.note data) as [| |b|n|[|c s]] eqn:En; try discriminate T;
    try reflexivity.
  cbn [SecureDatabase.bind SecureDatabase.textAffinity SecureDatabase.noteCheck].
  apply Nat.leb_le. specialize (Hn _ eq_refl).
  pose proof (codePoints_le (c :: s)). lia.
Qed.

Lemma insertMoodEntry_run now data db :
  invalid LocalTZA data = false ->
  let e := MoodEntry.assign now data in
  let logged :=
    SecureDatabase.log
      (SecureDatabase.InsertEntry (MoodEntry.date e) (MoodEntry.emoji e)
         (MoodEntry.note e) (MoodEntry.created_at e) (MoodEntry.updated_at e)) db in
  let rowid := Z.max (SecureDatabase.seq db) (SecureDatabase.maxId (SecureDatabase.table db)) + 1 in
  exists d, MoodEntry.date data = VStr d /\
  MoodDatabase.insertMoodEntry e db =
    if negb (SecureDatabase.noteCheck
               (SecureDatabase.textAffinity (SecureDatabase.bind (MoodEntry.note e))))
    then (Throw (SecureDatabase.SqliteConstraint
                   (js "CHECK constraint failed: length(note) <= 500")), logged)
    else match rowsOn d db with
         | [] => (Return (MoodEntry.mk (VNum rowid) (MoodEntry.date e) (MoodEntry.emoji e)
                            (MoodEntry.note e) (MoodEntry.created_at e)
                            (MoodEntry.updated_at e)),
                  SecureDatabase.mk (SecureDatabase.table db ++ [rowOf rowid e]) rowid
                                    (SecureDatabase.journal logged))
         | _ :: _ => (Throw (MoodDatabase.duplicateDate (VStr d)), logged)
         end.
Proof.
  intros V e logged rowid.
  destruct (valid_fields data V) as (d & em & Hd & Hv & He & Hem & Hn).
  exists d. split; [exact Hd|].
  unfold MoodDatabase.insertMoodEntry, MoodDatabase.try, MoodDatabase.bind,
    SecureDatabase.run, SecureDatabase.insert.
  fold logged.
  assert (Ed : MoodEntry.date e = VStr d) by exact Hd.
  assert (Ee : MoodEntry.emoji e = VStr em) by exact He.
  rewrite Ed, Ee. cbn [SecureDatabase.bind SecureDatabase.textAffinity SecureDatabase.isNull].
  cbn [SecureDatabase.emojiCheck]. rewrite Hem. cbn [negb].
  destruct (SecureDatabase.noteCheck _) eqn:C; cbn [negb].
  2:{ unfold MoodDatabase.throw. reflexivity. }
  change (SecureDatabase.table logged) with (SecureDatabase.table db).
  destruct (existsb _ (SecureDatabase.table db)) eqn:X.
  - assert (rowsOn d db <> []) as N.
    { intros E. apply existsb_rowsOn in E. congruence. }
    destruct (rowsOn d db); [congruence|].
    rewrite includes_date_column. reflexivity.
  - apply existsb_rowsOn in X. rewrite X. unfold rowOf. rewrite Ed, Ee. reflexivity.
Qed.

(** *** Construction and the lookup before the insert *)

Lemma checkMoodEntry_invalid now data db :
  invalid LocalTZA data = true ->
  MoodDatabase.checkMoodEntry LocalTZA now data db
  = (Throw (ValidationError
              (JsString.join (js "; ") (List.map ruleMessage (violated LocalTZA data)))),
     db).
Proof.
  intros H. unfold MoodDatabase.checkMoodEntry, MoodDatabase.bind, MoodDatabase.lift.
  rewrite new_invalid by exact H. reflexivity.
Qed.

Lemma checkMoodEntry_free now data d db :
  invalid LocalTZA data = false ->
  MoodEntry.date data = VStr d ->
  rowsOn d db = [] ->
  MoodDatabase.checkMoodEntry LocalTZA now data db
  = (Return (MoodEntry.assign now data),
     SecureDatabase.log (SecureDatabase.SelectByDate (VStr d)) db).
Proof.
  intros V Hd F. unfold MoodDatabase.checkMoodEntry, MoodDatabase.bind at 1, MoodDatabase.lift.
  rewrite new_valid by exact V.
  unfold MoodDatabase.bind.
  change (MoodEntry.date (MoodEntry.assign now data)) with (MoodEntry.date data).
  rewrite Hd, getMoodEntryByDate_absent by exact F. reflexivity.
Qed.

Lemma checkMoodEntry_taken now data d db :
  wellFormed LocalTZA db ->
  invalid LocalTZA data = false ->
  MoodEntry.date data = VStr d ->
  rowsOn d db <> [] ->
  MoodDatabase.checkMoodEntry LocalTZA now data db
  = (Throw (MoodDatabase.duplicateDate (VStr d)),
     SecureDatabase.log (SecureDatabase.SelectByDate (VStr d)) db).
Proof.
  intros W V Hd T. unfold MoodDatabase.checkMoodEntry, MoodDatabase.bind at 1, MoodDatabase.lift.
  rewrite new_valid by exact V.
  unfold MoodDatabase.bind.
  change (MoodEntry.date (MoodEntry.assign now data)) with (MoodEntry.date data).
  rewrite Hd.
  destruct (rowsOn d db) as [|r l] eqn:E; [congruence|].
  assert (In r (rowsOn d db)) as Hin by (rewrite E; left; reflexivity).
  unfold rowsOn in Hin. apply filter_In in Hin. destruct Hin as [Hin Hr].
  apply bool_decide_eq_true in Hr.
  rewrite (getMoodEntryByDate_present now d db r W Hin Hr). reflexivity.
Qed.

Lemma checkMoodEntry_table now data db :
  SecureDatabase.table (snd (MoodDatabase.checkMoodEntry LocalTZA now data db))
  = SecureDatabase.table db
  /\ SecureDatabase.seq (snd (MoodDatabase.checkMoodEntry LocalTZA now data db))
     = SecureDatabase.seq db.
Proof.
  unfold MoodDatabase.checkMoodEntry, MoodDatabase.bind at 1, MoodDatabase.lift.
  destruct (MoodEntry.new LocalTZA now data) as [e|err]; [|auto].
  unfold MoodDatabase.bind.
  pose proof (getMoodEntryByDate_table now (MoodEntry.date e) db) as T.
  destruct (MoodDatabase.getMoodEntryByDate LocalTZA now (MoodEntry.date e) db)
    as [[[x|]|err] db']; exact T.
Qed.

Lemma checkMoodEntry_returns now data db e db' :
  MoodDatabase.checkMoodEntry LocalTZA now data db = (Return e, db') ->
  invalid LocalTZA data = false
  /\ e = MoodEntry.assign now data
  /\ exists d, MoodEntry.date data = VStr d /\ rowsOn d db = []
               /\ db' = SecureDatabase.log (SecureDatabase.SelectByDate (VStr d)) db.
Proof.
  intros H. destruct (invalid LocalTZA data) eqn:V.
  { rewrite checkMoodEntry_invalid in H by exact V. discriminate. }
  destruct (valid_fields data V) as (d & em & Hd & _).
  destruct (rowsOn d db) as [|r l] eqn:E.
  - rewrite (checkMoodEntry_free now data d db V Hd E) in H.
    injection H as <- <-. repeat split; eauto.
  - exfalso. revert H.
    unfold MoodDatabase.checkMoodEntry, MoodDatabase.bind at 1, MoodDatabase.lift.
    rewrite new_valid by exact V.
    unfold MoodDatabase.bind.
    change (MoodEntry.date (MoodEntry.assign now data)) with (MoodEntry.date data).
    rewrite Hd.
    unfold MoodDatabase.getMoodEntryByDate, MoodDatabase.bind, SecureDatabase.getByDate.
    cbn [SecureDatabase.bind].
    destruct (List.find _ (SecureDatabase.table db)) as [row|] eqn:F.
    + unfold MoodDatabase.lift.
      destruct (MoodEntry.fromDbRow LocalTZA now row); discriminate.
    + apply find_none_rowsOn in F. congruence.
Qed.

(** *** The invariant *)

Lemma wellFormed_table db db' :
  SecureDatabase.table db' = SecureDatabase.table db ->
  wellFormed LocalTZA db -> wellFormed LocalTZA db'.
Proof.
  unfold wellFormed, rowsValid, datesUnique. intros ->. auto.
Qed.

Lemma rowsOn_nil_not_in d db :
  rowsOn d db = [] -> ~ In (VStr d) (List.map MoodEntry.date (SecureDatabase.table db)).
Proof.
  unfold rowsOn. intros E Hin. apply in_map_iff in Hin.
  destruct Hin as (r & Hd & Hin).
  assert (In r (List.filter (fun r => bool_decide (MoodEntry.date r = VStr d))
                            (SecureDatabase.table db))) as X.
  { apply filter_In. split; [exact Hin|]. apply bool_decide_eq_true. exact Hd. }
  rewrite E in X. destruct X.
Qed.

Lemma insertMoodEntry_wellFormed now data e db :
  MoodEntry.new LocalTZA now data = Return e ->
  wellFormed LocalTZA db ->
  wellFormed LocalTZA (snd (MoodDatabase.insertMoodEntry e db)).
Proof.
  intros N W. apply new_returns in N. destruct N as [-> V].
  destruct (insertMoodEntry_run now data db V) as (d & Hd & R).
  rewrite R. clear R.
  destruct (SecureDatabase.noteCheck _) eqn:C; cbn [negb].
  2:{ revert W. apply wellFormed_table. reflexivity. }
  destruct (rowsOn d db) as [|r l] eqn:E.
  2:{ revert W. apply wellFormed_table. reflexivity. }
  destruct W as [WV WU]. split.
  - unfold rowsValid. cbn [snd SecureDatabase.table].
    apply Forall_app. split; [exact WV|].
    constructor; [|constructor]. apply rowOf_valid; assumption.
  - unfold datesUnique. cbn [snd SecureDatabase.table].
    rewrite map_app. cbn [List.map rowOf MoodEntry.date MoodEntry.assign].
    rewrite Hd. cbn [SecureDatabase.bind].
    apply List.NoDup_app; [exact WU|constructor; [intros []|constructor]|].
    intros x Hx [<-|[]]. revert Hx. apply rowsOn_nil_not_in. exact E.
Qed.

Lemma createMoodEntry_wellFormed now data db :
  wellFormed LocalTZA db ->
  wellFormed LocalTZA (snd (MoodDatabase.createMoodEntry LocalTZA now data db)).
Proof.
  intros W. unfold MoodDatabase.createMoodEntry, MoodDatabase.bind.
  pose proof (checkMoodEntry_table now data db) as [T _].
  destruct (MoodDatabase.checkMoodEntry LocalTZA now data db) as [[e|err] db1] eqn:C.
  - cbn [snd] in T.
    apply checkMoodEntry_returns in C. destruct C as (V & -> & _).
    apply (insertMoodEntry_wellFormed now data); [apply new_valid; exact V|].
    revert W. apply wellFormed_table. exact T.
  - cbn [snd] in *. revert W. apply wellFormed_table. exact T.
Qed.

Lemma filter_wellFormed (f : SecureDatabase.Row -> bool) db db' :
  SecureDatabase.table db' = List.filter f (SecureDatabase.table db) ->
  wellFormed LocalTZA db -> wellFormed LocalTZA db'.
Proof.
  unfold wellFormed, rowsValid, datesUnique. intros -> [V U]. split.
  - apply List.Forall_forall. intros r Hr. apply filter_In in Hr.
    exact (proj1 (List.Forall_forall _ _) V r (proj1 Hr)).
  - clear V. induction (SecureDatabase.table db) as [|x l IH]; simpl; [constructor|].
    inversion U as [|? ? Hnot U']; subst.
    destruct (f x); simpl; [constructor|]; auto.
    intros Hin. apply Hnot. apply in_map_iff in Hin.
    destruct Hin as (r & E & Hr). apply filter_In in Hr.
    apply in_map_iff. exists r. tauto.
Qed.

Lemma deleteMoodEntryByDate_table now date db db' :
  db' = snd (MoodDatabase.deleteMoodEntryByDate LocalTZA now date db) ->
  SecureDatabase.table db' = SecureDatabase.table db
  \/ SecureDatabase.table db'
     = List.filter (fun r => negb (SecureDatabase.sqlEq (MoodEntry.date r)
                                                       (SecureDatabase.bind date)))
                   (SecureDatabase.table db).
Proof.
  unfold MoodDatabase.deleteMoodEntryByDate, MoodDatabase.bind at 1.
  pose proof (getMoodEntryByDate_table now date db) as [T _].
  destruct (MoodDatabase.getMoodEntryByDate LocalTZA now date db) as [[[x|]|err] db1];
    simpl in T; try (intros ->; auto).
  unfold MoodDatabase.bind, SecureDatabase.run. simpl.
  destruct (_ =? 0); simpl; rewrite T; auto.
Qed.

Lemma getMoodEntries_table now options db :
  SecureDatabase.table (snd (MoodDatabase.getMoodEntries LocalTZA now options db))
  = SecureDatabase.table db.
Proof.
  unfold MoodDatabase.getMoodEntries.
  destruct (_ || _); [reflexivity|].
  destruct (_ <? 1); [reflexivity|].
  unfold MoodDatabase.bind at 1.
  destruct (MoodDatabase.given (MoodDatabase.from options)),
    (MoodDatabase.given (MoodDatabase.to options));
    try destruct (JsString.gtb _ _); try reflexivity;
    unfold MoodDatabase.ret, MoodDatabase.bind, MoodDatabase.lift,
      SecureDatabase.getCount, SecureDatabase.allPage;
    destruct (MoodDatabase.mapC _ _); reflexivity.
Qed.

Lemma getStatistics_table sqlDATE now options db :
  SecureDatabase.table (snd (MoodDatabase.getStatistics LocalTZA sqlDATE now options db))
  = SecureDatabase.table db.
Proof.
  unfold MoodDatabase.getStatistics.
  destruct (MoodDatabase.cutoffDateStr _ _ _); [|reflexivity].
  unfold MoodDatabase.bind, SecureDatabase.allStatistics.
  destruct (fold_left _ _ _). reflexivity.
Qed.

Lemma step_wellFormed sqlDATE db db' :
  step LocalTZA sqlDATE db db' -> wellFormed LocalTZA db -> wellFormed LocalTZA db'.
Proof.
  intros S W. destruct S.
  - apply createMoodEntry_wellFormed. exact W.
  - revert W. apply wellFormed_table. apply checkMoodEntry_table.
  - eapply insertMoodEntry_wellFormed; eauto.
  - revert W. apply wellFormed_table. apply getMoodEntryByDate_table.
  - revert W. apply wellFormed_table. apply getMoodEntries_table.
  - destruct (deleteMoodEntryByDate_table now date db _ eq_refl) as [T|T].
    + revert W. apply wellFormed_table. exact T.
    + revert W. apply filter_wellFormed with (1 := T).
  - revert W. apply filter_wellFormed with
      (f := fun r => negb (SecureDatabase.sqlEq (MoodEntry.date r) (SecureDatabase.bind date))).
    reflexivity.
  - revert W. apply wellFormed_table. apply getStatistics_table.
Qed.

Lemma reachable_wellFormed sqlDATE db :
  reachable LocalTZA sqlDATE db -> wellFormed LocalTZA db.
Proof.
  induction 1 as [|db db' _ IH S].
  - split; constructor.
  - eapply step_wellFormed; eauto.
Qed.

Lemma unique_rowsOn d db :
  datesUnique db -> (length (rowsOn d db) <= 1)%nat.
Proof.
  intros U. destruct (rowsOn d db) as [|r l] eqn:E; [simpl; lia|].
  assert (In r (rowsOn d db)) as Hin by (rewrite E; left; reflexivity).
  unfold rowsOn in Hin. apply filter_In in Hin. destruct Hin as [Hin Hr].
  apply bool_decide_eq_true in Hr.
  destruct (unique_find d db r U Hin Hr) as [_ R]. rewrite R in E.
  injection E as <-. simpl. lia.
Qed.

End RepositoryFacts.

(** ** Create and read back *)

Section CreateFacts.
Variable LocalTZA : Z.

Lemma find_app_none {A} (f : A -> bool) l l' :
  List.find f l = None -> List.find f (l ++ l') = List.find f l'.
Proof.
  induction l as [|x l IH]; simpl; [reflexivity|].
  destruct (f x); [discriminate|exact IH].
Qed.

Lemma assign_note now data :
  MoodEntry.note (MoodEntry.assign now data) = normalizedNote (MoodEntry.note data).
Proof. destruct data as [i d e [| |b|n|[|c s]] c0 u]; reflexivity. Qed.

(** A successful [createMoodEntry], spelled out. *)
Lemma createMoodEntry_returns now data db e db' :
  textOrAbsent (MoodEntry.note data) = true ->
  MoodDatabase.createMoodEntry LocalTZA now data db = (Return e, db') ->
  exists d rowid,
    invalid LocalTZA data = false
    /\ MoodEntry.date data = VStr d
    /\ rowsOn d db = []
    /\ e = MoodEntry.mk (VNum rowid) (MoodEntry.date data) (MoodEntry.emoji data)
             (MoodEntry.note (MoodEntry.assign now data))
             (MoodEntry.created_at (MoodEntry.assign now data))
             (MoodEntry.updated_at (MoodEntry.assign now data))
    /\ SecureDatabase.table db'
       = SecureDatabase.table db ++ [rowOf rowid (MoodEntry.assign now data)].
Proof.
  intros T H. unfold MoodDatabase.createMoodEntry, MoodDatabase.bind in H.
  destruct (MoodDatabase.checkMoodEntry LocalTZA now data db) as [[e0|err] db1] eqn:C;
    [|discriminate H].
  apply checkMoodEntry_returns in C.
  destruct C as (V & -> & d & Hd & F & ->).
  destruct (insertMoodEntry_run LocalTZA now data
              (SecureDatabase.log (SecureDatabase.SelectByDate (VStr d)) db) V)
    as (d' & Hd' & R).
  rewrite Hd in Hd'. injection Hd' as <-.
  rewrite R in H. clear R.
  rewrite (noteCheck_text LocalTZA now data V T) in H. cbn [negb] in H.
  change (rowsOn d (SecureDatabase.log (SecureDatabase.SelectByDate (VStr d)) db))
    with (rowsOn d db) in H.
  rewrite F in H. injection H as <- <-.
  eexists d, _. repeat split; try assumption; reflexivity.
Qed.

Lemma createMoodEntry_invalid now data db :
  invalid LocalTZA data = true ->
  MoodDatabase.createMoodEntry LocalTZA now data db
  = (Throw (ValidationError
              (JsString.join (js "; ") (List.map ruleMessage (violated LocalTZA data)))),
     db).
Proof.
  intros H. unfold MoodDatabase.createMoodEntry, MoodDatabase.bind.
  rewrite checkMoodEntry_invalid by exact H. reflexivity.
Qed.

Lemma createMoodEntry_taken now data d db :
  wellFormed LocalTZA db ->
  invalid LocalTZA data = false ->
  MoodEntry.date data = VStr d ->
  rowsOn d db <> [] ->
  MoodDatabase.createMoodEntry LocalTZA now data db
  = (Throw (MoodDatabase.duplicateDate (VStr d)),
     SecureDatabase.log (SecureDatabase.SelectByDate (VStr d)) db).
Proof.
  intros W V Hd T. unfold MoodDatabase.createMoodEntry, MoodDatabase.bind.
  rewrite (checkMoodEntry_taken LocalTZA now data d db W V Hd T). reflexivity.
Qed.

Lemma createMoodEntry_free now data d db :
  invalid LocalTZA data = false ->
  textOrAbsent (MoodEntry.note data) = true ->
  MoodEntry.date data = VStr d ->
  rowsOn d db = [] ->
  let rowid := Z.max (SecureDatabase.seq db) (SecureDatabase.maxId (SecureDatabase.table db)) + 1 in
  let e := MoodEntry.assign now data in
  exists db',
    MoodDatabase.createMoodEntry LocalTZA now data db
    = (Return (MoodEntry.mk (VNum rowid) (MoodEntry.date e) (MoodEntry.emoji e)
                 (MoodEntry.note e) (MoodEntry.created_at e) (MoodEntry.updated_at e)),
       db')
    /\ SecureDatabase.table db' = SecureDatabase.table db ++ [rowOf rowid e].
Proof.
  intros V T Hd F rowid e. unfold MoodDatabase.createMoodEntry, MoodDatabase.bind.
  rewrite (checkMoodEntry_free LocalTZA now data d db V Hd F).
  destruct (insertMoodEntry_run LocalTZA now data
              (SecureDatabase.log (SecureDatabase.SelectByDate (VStr d)) db) V)
    as (d' & Hd' & R).
  rewrite Hd in Hd'. injection Hd' as <-.
  rewrite R. clear R.
  rewrite (noteCheck_text LocalTZA now data V T). cbn [negb].
  change (rowsOn d (SecureDatabase.log (SecureDatabase.SelectByDate (VStr d)) db))
    with (rowsOn d db).
  rewrite F. eexists. split; reflexivity.
Qed.

End CreateFacts.

(** ** The claims *)




(** C2: in every database the repository can reach, also through requests
    that interleave between the lookup and the statement that follows it, a
    date has at most one row; a create for a date that is taken fails with the
    [DUPLICATE_DATE] error at the lookup; and the insert on its own, when it
    runs against a table that holds the date, fails in the store on the
    [UNIQUE] constraint, which [createMoodEntry] reports as the same
    [DUPLICATE_DATE] error. Either way the table is unchanged and holds
    exactly one row for the date. *)
Theorem one_entry_per_date
    (LocalTZA : Z) (sqlDATE : JsVal -> JsVal) (db : SecureDatabase.t) :
  reachable LocalTZA sqlDATE db ->
  (forall d, (length (rowsOn d db) <= 1)%nat)
  /\ (forall now data d,
        invalid LocalTZA data = false ->
        MoodEntry.date data = VStr d ->
        rowsOn d db <> [] ->
        exists db',
          MoodDatabase.createMoodEntry LocalTZA now data db
          = (Throw (MoodDatabase.duplicateDate (VStr d)), db')
          /\ code (MoodDatabase.duplicateDate (VStr d)) = Some (js "DUPLICATE_DATE")
          /\ SecureDatabase.table db' = SecureDatabase.table db
          /\ length (rowsOn d db') = 1%nat)
  /\ (forall now data d,
        invalid LocalTZA data = false ->
        textOrAbsent (MoodEntry.note data) = true ->
        MoodEntry.date data = VStr d ->
        rowsOn d db <> [] ->
        let e := MoodEntry.assign now data in
        exists db',
          fst (SecureDatabase.run
                 (SecureDatabase.InsertEntry (MoodEntry.date e) (MoodEntry.emoji e)
                    (MoodEntry.note e) (MoodEntry.created_at e) (MoodEntry.updated_at e)) db)
          = Throw (SecureDatabase.SqliteConstraint
                     (js "UNIQUE constraint failed: mood_entries.date"))
          /\ MoodDatabase.insertMoodEntry e db
             = (Throw (MoodDatabase.duplicateDate (VStr d)), db')
          /\ SecureDatabase.table db' = SecureDatabase.table db
          /\ length (rowsOn d db') = 1%nat).
Proof.
  intros R. pose proof (reachable_wellFormed LocalTZA sqlDATE db R) as W.
  assert (One : forall d, rowsOn d db <> [] -> length (rowsOn d db) = 1%nat).
  { intros d N. pose proof (unique_rowsOn d db (proj2 W)).
    destruct (rowsOn d db) as [|r [|r' l]]; simpl in *; try congruence; lia. }
  split; [intros d; apply unique_rowsOn; exact (proj2 W)|]. split.
  - intros now data d V Hd T.
    rewrite (createMoodEntry_taken LocalTZA now data d db W V Hd T).
    eexists. split; [reflexivity|]. split; [reflexivity|]. split; [reflexivity|].
    apply (One d T).
  - intros now data d V Tn Hd T e.
    destruct (insertMoodEntry_run LocalTZA now data db V) as (d' & Hd' & Run).
    rewrite Hd in Hd'. injection Hd' as <-.
    fold e in Run. rewrite Run.
    unfold e. rewrite (noteCheck_text LocalTZA now data V Tn). cbn [negb].
    destruct (rowsOn d db) as [|r l] eqn:E; [congruence|].
    eexists. split; [|split; [reflexivity|split; [reflexivity|]]].
    + destruct (valid_fields LocalTZA data V) as (d0 & em & Hd0 & _ & He & Hem & _).
      unfold SecureDatabase.run, SecureDatabase.insert.
      change (MoodEntry.date (MoodEntry.assign now data)) with (MoodEntry.date data).
      change (MoodEntry.emoji (MoodEntry.assign now data)) with (MoodEntry.emoji data).
      rewrite Hd, He.
      cbn [SecureDatabase.bind SecureDatabase.textAffinity SecureDatabase.isNull
             SecureDatabase.emojiCheck].
      rewrite Hem. cbn [negb].
      rewrite (noteCheck_text LocalTZA now data V Tn). cbn [negb].
      change (SecureDatabase.table (SecureDatabase.log _ db)) with (SecureDatabase.table db).
      destruct (existsb _ (SecureDatabase.table db)) eqn:X; [reflexivity|].
      apply existsb_rowsOn in X. congruence.
    + change (length (rowsOn d db) = 1%nat). apply One. congruence.
Qed.

Lemma one_entry_per_date_witness :
  (forall d, (length (rowsOn d oneEntry) <= 1)%nat)
  /\ (exists db',
        MoodDatabase.createMoodEntry 0 morning (candidate "2025-09-22" happy VNull) oneEntry
        = (Throw (MoodDatabase.duplicateDate (VStr (js "2025-09-22"))), db')
        /\ SecureDatabase.table db' = SecureDatabase.table oneEntry)
  /\ (exists db',
        MoodDatabase.insertMoodEntry
          (MoodEntry.assign morning (candidate "2025-09-22" happy VNull)) oneEntry
        = (Throw (MoodDatabase.duplicateDate (VStr (js "2025-09-22"))), db')
        /\ SecureDatabase.table db' = SecureDatabase.table oneEntry).
Proof.
  assert (R : reachable 0 (fun v => v) oneEntry).
  { unfold oneEntry. eapply reachable_step; [apply reachable_empty|apply step_create]. }
  destruct (one_entry_per_date 0 (fun v => v) oneEntry R) as (H1 & H2 & H3).
  split; [exact H1|]. split.
  - destruct (H2 morning (candidate "2025-09-22" happy VNull) (js "2025-09-22"))
      as (db' & E & _ & T & _);
      [vm_compute; reflexivity | reflexivity | vm_compute; discriminate |].
    exists db'. split; assumption.
  - destruct (H3 morning (candidate "2025-09-22" happy VNull) (js "2025-09-22"))
      as (db' & _ & E & T & _);
      [vm_compute; reflexivity | reflexivity | reflexivity | vm_compute; discriminate |].
    exists db'. split; assumption.
Defined.

(** C3: a candidate that breaks any rule of the validator makes
    [createMoodEntry] throw a [ValidationError] whose message joins, with
    ["; "], the message of every rule the candidate breaks; the message
    contains each of them; and the database is exactly as before, its journal
    of executed statements included. *)
Theorem invalid_candidate_rejected
    (LocalTZA now : Z) (data : MoodEntry.t) (db : SecureDatabase.t) :
  invalid LocalTZA data = true ->
  let msg := JsString.join (js "; ") (List.map ruleMessage (violated LocalTZA data)) in
  MoodDatabase.createMoodEntry LocalTZA now data db = (Throw (ValidationError msg), db)
  /\ name (ValidationError msg) = js "ValidationError"
  /\ (forall r, violates LocalTZA data r = true ->
                JsString.includes msg (ruleMessage r) = true).
Proof.
  intros H msg. split; [apply createMoodEntry_invalid; exact H|].
  split; [reflexivity|].
  intros r Hr. apply includes_join. apply in_map. unfold violated.
  apply filter_In. split; [|exact Hr]. destruct r; simpl; auto 6.
Qed.

Lemma invalid_candidate_rejected_witness :
  MoodDatabase.createMoodEntry 0 morning
    (candidate "2025-02-30" (js "x") (VStr (repeat 97%N 501))) oneEntry
  = (Throw (ValidationError
              (js "date must be in YYYY-MM-DD format; emoji must be one of: "
               ++ JsString.join (js ", ") MoodEntry.allowedEmojis
               ++ js "; note must be 500 characters or less")),
     oneEntry).
Proof.
  destruct (invalid_candidate_rejected 0 morning
              (candidate "2025-02-30" (js "x") (VStr (repeat 97%N 501))) oneEntry)
    as (E & _ & _); [vm_compute; reflexivity|].
  rewrite E. vm_compute. reflexivity.
Defined.



(** C10: a candidate whose date (or emoji) is the empty string is reported
    as lacking the field, by [validateInput] and by the constructor alike:
    the errors name ['Date is required'] (['Emoji is required']) and nothing
    in them mentions the format (the fixed set); and whenever the constructor
    does report the format or the fixed-set rule, the field is non-empty. *)
Theorem empty_field_is_missing (LocalTZA now : Z) (data : MoodEntry.t) :
  (MoodEntry.date data = VStr [] ->
   MoodEntry.isValid (MoodEntry.validateInput LocalTZA now data) = false
   /\ In (js "Date is required") (MoodEntry.errors (MoodEntry.validateInput LocalTZA now data))
   /\ (forall m, In m (MoodEntry.errors (MoodEntry.validateInput LocalTZA now data)) ->
                 JsString.includes m (js "date must be in YYYY-MM-DD format") = false)
   /\ exists msg,
        MoodEntry.new LocalTZA now data = Throw (ValidationError msg)
        /\ In (js "Date is required") (MoodEntry.errorsOf LocalTZA (MoodEntry.assign now data))
        /\ JsString.includes msg (js "Date is required") = true
        /\ JsString.includes msg (js "date must be in YYYY-MM-DD format") = false)
  /\ (MoodEntry.emoji data = VStr [] ->
      MoodEntry.isValid (MoodEntry.validateInput LocalTZA now data) = false
      /\ In (js "Emoji is required") (MoodEntry.errors (MoodEntry.validateInput LocalTZA now data))
      /\ (forall m, In m (MoodEntry.errors (MoodEntry.validateInput LocalTZA now data)) ->
                    JsString.includes m (js "emoji must be one of") = false)
      /\ exists msg,
           MoodEntry.new LocalTZA now data = Throw (ValidationError msg)
           /\ In (js "Emoji is required") (MoodEntry.errorsOf LocalTZA (MoodEntry.assign now data))
           /\ JsString.includes msg (js "Emoji is required") = true
           /\ JsString.includes msg (js "emoji must be one of") = false)
  /\ (In (js "date must be in YYYY-MM-DD format")
         (MoodEntry.errorsOf LocalTZA (MoodEntry.assign now data)) ->
      truthy (MoodEntry.date data) = true /\ MoodEntry.date data <> VStr [])
  /\ (In (ruleMessage EmojiNotAllowed)
         (MoodEntry.errorsOf LocalTZA (MoodEntry.assign now data)) ->
      truthy (MoodEntry.emoji data) = true /\ MoodEntry.emoji data <> VStr []).
Proof.
  split; [|split; [|split]].
  - intros Hd.
    assert (Hin : MoodEntry.validateInput LocalTZA now data
                  = {| MoodEntry.isValid := false;
                       MoodEntry.errors := MoodEntry.inputErrors data |}).
    { unfold MoodEntry.validateInput, MoodEntry.inputErrors. rewrite Hd. reflexivity. }
    rewrite Hin. cbn [MoodEntry.isValid MoodEntry.errors].
    split; [reflexivity|]. split; [|split].
    + unfold MoodEntry.inputErrors. rewrite Hd. left. reflexivity.
    + unfold MoodEntry.inputErrors. rewrite Hd. cbn [truthy negb andb app].
      intros m Hm.
      destruct (truthy (MoodEntry.emoji data)), (isString (MoodEntry.emoji data)),
        (MoodEntry.note data) as [| |b|n|x]; cbn in Hm;
        repeat (destruct Hm as [<-|Hm]; [vm_compute; reflexivity|]); destruct Hm.
    + assert (Vd : violates LocalTZA data DateMissing = true)
        by (unfold violates; rewrite Hd; reflexivity).
      assert (Vf : violates LocalTZA data DateMalformed = false)
        by (unfold violates; rewrite Hd; reflexivity).
      assert (V : invalid LocalTZA data = true)
        by (unfold invalid, allRules; cbn [existsb]; rewrite Vd; reflexivity).
      eexists. split; [apply new_invalid; exact V|].
      rewrite errorsOf_violated.
      unfold violated, allRules. cbn [List.filter]. rewrite Vd, Vf.
      split; [left; reflexivity|].
      assert (X : violates LocalTZA data EmojiMissing = true ->
                  violates LocalTZA data EmojiNotAllowed = false).
      { unfold violates. intros E. apply negb_true_iff in E. rewrite E. reflexivity. }
      destruct (violates LocalTZA data EmojiMissing),
        (violates LocalTZA data EmojiNotAllowed), (violates LocalTZA data NoteTooLong);
        try (specialize (X eq_refl); discriminate X);
        split; vm_compute; reflexivity.
  - intros He.
    assert (Hin : MoodEntry.validateInput LocalTZA now data
                  = {| MoodEntry.isValid := false;
                       MoodEntry.errors := MoodEntry.inputErrors data |}).
    { unfold MoodEntry.validateInput, MoodEntry.inputErrors. rewrite He.
      destruct (negb (truthy (MoodEntry.date data))); reflexivity. }
    rewrite Hin. cbn [MoodEntry.isValid MoodEntry.errors].
    split; [reflexivity|]. split; [|split].
    + unfold MoodEntry.inputErrors. rewrite He.
      destruct (negb (truthy (MoodEntry.date data))); simpl; auto.
    + unfold MoodEntry.inputErrors. rewrite He. cbn [truthy negb andb app].
      intros m Hm.
      destruct (truthy (MoodEntry.date data)), (isString (MoodEntry.date data)),
        (MoodEntry.note data) as [| |b|n|x]; cbn in Hm;
        repeat (destruct Hm as [<-|Hm]; [vm_compute; reflexivity|]); destruct Hm.
    + assert (Vd : violates LocalTZA data EmojiMissing = true)
        by (unfold violates; rewrite He; reflexivity).
      assert (Vf : violates LocalTZA data EmojiNotAllowed = false)
        by (unfold violates; rewrite He; reflexivity).
      assert (V : invalid LocalTZA data = true)
        by (unfold invalid, allRules; cbn [existsb]; rewrite Vd, !orb_true_r; reflexivity).
      eexists. split; [apply new_invalid; exact V|].
      rewrite errorsOf_violated.
      unfold violated, allRules. cbn [List.filter]. rewrite Vd, Vf.
      assert (X : violates LocalTZA data DateMissing = true ->
                  violates LocalTZA data DateMalformed = false).
      { unfold violates. intros E. apply negb_true_iff in E. rewrite E. reflexivity. }
      destruct (violates LocalTZA data DateMissing),
        (violates LocalTZA data DateMalformed), (violates LocalTZA data NoteTooLong);
        try (specialize (X eq_refl); discriminate X);
        (split; [simpl; auto 6|split; vm_compute; reflexivity]).
  - rewrite errorsOf_violated. intros Hin. apply in_map_iff in Hin.
    destruct Hin as (r & Hm & Hr). unfold violated in Hr. apply filter_In in Hr.
    destruct Hr as [_ Hv].
    destruct r; try (vm_compute in Hm; discriminate Hm).
    unfold violates in Hv. apply andb_true_iff in Hv. destruct Hv as [Ht _].
    split; [exact Ht|]. intros E. rewrite E in Ht. discriminate Ht.
  - rewrite errorsOf_violated. intros Hin. apply in_map_iff in Hin.
    destruct Hin as (r & Hm & Hr). unfold violated in Hr. apply filter_In in Hr.
    destruct Hr as [_ Hv].
    destruct r; try (vm_compute in Hm; discriminate Hm).
    unfold violates in Hv. apply andb_true_iff in Hv. destruct Hv as [Ht _].
    split; [exact Ht|]. intros E. rewrite E in Ht. discriminate Ht.
Qed.

Lemma empty_field_is_missing_witness :
  MoodEntry.isValid
    (MoodEntry.validateInput 0 morning (candidate "" sad VNull)) = false
  /\ In (js "Date is required")
        (MoodEntry.errors (MoodEntry.validateInput 0 morning (candidate "" sad VNull)))
  /\ MoodEntry.new 0 morning (candidate "" sad VNull)
     = Throw (ValidationError (js "Date is required")).
Proof.
  destruct (empty_field_is_missing 0 morning (candidate "" sad VNull)) as [H _].
  destruct (H eq_refl) as (H1 & H2 & _ & msg & H3 & _).
  split; [exact H1|]. split; [exact H2|]. vm_compute. reflexivity.
Defined.

(** ** Delete *)

Section DeleteFacts.
Variable LocalTZA : Z.

Lemma deleteMoodEntryByDate_absent now d db :
  rowsOn d db = [] ->
  MoodDatabase.deleteMoodEntryByDate LocalTZA now (VStr d) db
  = (Throw (MoodDatabase.notFound (VStr d)),
     SecureDatabase.log (SecureDatabase.SelectByDate (VStr d)) db).
Proof.
  intros F. unfold MoodDatabase.deleteMoodEntryByDate, MoodDatabase.bind.
  rewrite getMoodEntryByDate_absent by exact F. reflexivity.
Qed.

Lemma rowsOn_after_delete d db db' :
  SecureDatabase.table db'
  = List.filter (fun r => negb (SecureDatabase.sqlEq (MoodEntry.date r) (VStr d)))
                (SecureDatabase.table db) ->
  rowsOn d db' = []
  /\ SecureDatabase.table db'
     = List.filter (fun r => negb (bool_decide (MoodEntry.date r = VStr d)))
                   (SecureDatabase.table db).
Proof.
  unfold rowsOn. intros ->. induction (SecureDatabase.table db) as [|x l [IH1 IH2]];
    simpl; [auto|].
  rewrite sqlEq_text_decide.
  destruct (bool_decide (MoodEntry.date x = VStr d)) eqn:E; simpl.
  - auto.
  - rewrite E. split; [exact IH1|]. f_equal. exact IH2.
Qed.

Lemma deleteMoodEntryByDate_present now d db r :
  wellFormed LocalTZA db ->
  In r (SecureDatabase.table db) -> MoodEntry.date r = VStr d ->
  MoodDatabase.deleteMoodEntryByDate LocalTZA now (VStr d) db
  = (Return (MoodEntry.assign now r),
     SecureDatabase.mk
       (List.filter (fun r => negb (SecureDatabase.sqlEq (MoodEntry.date r) (VStr d)))
                    (SecureDatabase.table db))
       (SecureDatabase.seq db)
       (SecureDatabase.DeleteByDate (VStr d)
        :: SecureDatabase.SelectByDate (VStr d) :: SecureDatabase.journal db)).
Proof.
  intros W Hin Hd. unfold MoodDatabase.deleteMoodEntryByDate, MoodDatabase.bind at 1.
  rewrite (getMoodEntryByDate_present LocalTZA now d db r W Hin Hd).
  unfold MoodDatabase.bind, SecureDatabase.run.
  cbn [SecureDatabase.bind SecureDatabase.changes SecureDatabase.log
         SecureDatabase.table SecureDatabase.seq SecureDatabase.journal].
  assert (L : (length (List.filter
                         (fun r => negb (SecureDatabase.sqlEq (MoodEntry.date r) (VStr d)))
                         (SecureDatabase.table db))
               < length (SecureDatabase.table db))%nat).
  { apply filter_length_lt with (x := r); [exact Hin|].
    rewrite Hd. apply negb_false_iff, sqlEq_text. reflexivity. }
  destruct (Z.eqb_spec
              (Z.of_nat (length (SecureDatabase.table db))
               - Z.of_nat (length (List.filter
                    (fun r => negb (SecureDatabase.sqlEq (MoodEntry.date r) (VStr d)))
                    (SecureDatabase.table db)))) 0) as [E|_]; [lia|].
  reflexivity.
Qed.

End DeleteFacts.

(** C6: in a well-formed database, [deleteMoodEntryByDate] on a date that
    has a row returns that row as a lookup read it before the deletion,
    leaves no row for the date (a following lookup returns [null]) and keeps
    every other row; a second delete of the date, like any delete of a date
    without a row, throws the [NOT_FOUND] error, whose message carries the
    date, and leaves table and id sequence as they were. *)
Theorem delete_by_date
    (LocalTZA now now' : Z) (d : jsstring) (db : SecureDatabase.t) :
  wellFormed LocalTZA db ->
  (forall r, In r (SecureDatabase.table db) -> MoodEntry.date r = VStr d ->
     exists db' db0,
       MoodDatabase.getMoodEntryByDate LocalTZA now (VStr d) db
       = (Return (Some (MoodEntry.assign now r)), db0)
       /\ MoodDatabase.deleteMoodEntryByDate LocalTZA now (VStr d) db
          = (Return (MoodEntry.assign now r), db')
       /\ rowsOn d db' = []
       /\ SecureDatabase.table db'
          = List.filter (fun x => negb (bool_decide (MoodEntry.date x = VStr d)))
                        (SecureDatabase.table db)
       /\ (exists db'',
             MoodDatabase.getMoodEntryByDate LocalTZA now' (VStr d) db' = (Return None, db''))
       /\ (exists db'',
             MoodDatabase.deleteMoodEntryByDate LocalTZA now' (VStr d) db'
             = (Throw (MoodDatabase.notFound (VStr d)), db'')
             /\ SecureDatabase.table db'' = SecureDatabase.table db'))
  /\ (rowsOn d db = [] ->
      exists db',
        MoodDatabase.deleteMoodEntryByDate LocalTZA now (VStr d) db
        = (Throw (MoodDatabase.notFound (VStr d)), db')
        /\ code (MoodDatabase.notFound (VStr d)) = Some (js "NOT_FOUND")
        /\ JsString.includes (message (MoodDatabase.notFound (VStr d))) d = true
        /\ SecureDatabase.table db' = SecureDatabase.table db
        /\ SecureDatabase.seq db' = SecureDatabase.seq db).
Proof.
  intros W. split.
  - intros r Hin Hd.
    rewrite (getMoodEntryByDate_present LocalTZA now d db r W Hin Hd).
    rewrite (deleteMoodEntryByDate_present LocalTZA now d db r W Hin Hd).
    eexists _, _. split; [reflexivity|]. split; [reflexivity|].
    match goal with
    | |- rowsOn d ?x = [] /\ _ =>
        destruct (rowsOn_after_delete d db x eq_refl) as [G1 G2]
    end.
    split; [exact G1|]. split; [exact G2|]. split.
    + rewrite getMoodEntryByDate_absent by exact G1. eexists. reflexivity.
    + rewrite deleteMoodEntryByDate_absent by exact G1. eexists. split; reflexivity.
  - intros F. rewrite deleteMoodEntryByDate_absent by exact F.
    eexists. split; [reflexivity|]. split; [reflexivity|].
    split; [|split; reflexivity].
    apply (includes_app (js "Mood entry for ") d (js " not found")).
Qed.

Lemma delete_by_date_witness :
  (exists db',
     MoodDatabase.deleteMoodEntryByDate 0 morning (VStr (js "2025-09-22")) oneEntry
     = (Return (MoodEntry.mk (VNum 1) (VStr (js "2025-09-22")) (VStr sad) VNull
                  (VStr (js "2025-09-22T10:04:05.123Z"))
                  (VStr (js "2025-09-22T10:04:05.123Z"))), db')
     /\ rowsOn (js "2025-09-22") db' = []
     /\ exists db'',
          MoodDatabase.deleteMoodEntryByDate 0 morning (VStr (js "2025-09-22")) db'
          = (Throw (MoodDatabase.notFound (VStr (js "2025-09-22"))), db''))
  /\ (exists db',
        MoodDatabase.deleteMoodEntryByDate 0 morning (VStr (js "2025-09-21")) oneEntry
        = (Throw (MoodDatabase.notFound (VStr (js "2025-09-21"))), db')
        /\ SecureDatabase.table db' = SecureDatabase.table oneEntry).
Proof.
  assert (W : wellFormed 0 oneEntry).
  { apply (reachable_wellFormed 0 (fun v => v)).
    unfold oneEntry. eapply reachable_step; [apply reachable_empty|apply step_create]. }
  split.
  - destruct (delete_by_date 0 morning morning (js "2025-09-22") oneEntry W) as [H _].
    destruct (H (MoodEntry.mk (VNum 1) (VStr (js "2025-09-22")) (VStr sad) VNull
                   (VStr (js "2025-09-22T10:04:05.123Z"))
                   (VStr (js "2025-09-22T10:04:05.123Z"))))
      as (db' & db0 & _ & E & G & _ & _ & db'' & E2 & _);
      [vm_compute; auto | reflexivity |].
    exists db'. split; [exact E|]. split; [exact G|]. exists db''. exact E2.
  - destruct (delete_by_date 0 morning morning (js "2025-09-21") oneEntry W) as [_ H].
    destruct H as (db' & E & _ & _ & T & _); [vm_compute; reflexivity|].
    exists db'. split; assumption.
Defined.

(** ** Ordering and paging *)

Section ListFacts.
Variable LocalTZA : Z.

Lemma insertDesc_perm r l : Permutation (SecureDatabase.insertDesc r l) (r :: l).
Proof.
  induction l as [|x l IH]; simpl; [reflexivity|].
  destruct (SecureDatabase.sqlCompare _ _); try reflexivity.
  rewrite IH. apply perm_swap.
Qed.

Lemma orderByDateDesc_perm l : Permutation (SecureDatabase.orderByDateDesc l) l.
Proof.
  induction l as [|x l IH]; simpl; [reflexivity|].
  rewrite insertDesc_perm. constructor. exact IH.
Qed.

Lemma notOlder_trans a b c : notOlder a b -> notOlder b c -> notOlder a c.
Proof.
  unfold notOlder. intros H1 H2 H3.
  destruct (JsString.compare (dateText a) (dateText b)) eqn:E1; [| congruence |].
  - apply compare_eq in E1. rewrite E1 in H3. contradiction.
  - destruct (JsString.compare (dateText b) (dateText c)) eqn:E2; [| congruence |].
    + apply compare_eq in E2. rewrite <- E2 in H3. congruence.
    + assert (JsString.compare (dateText c) (dateText b) = Lt) as X1
        by (rewrite compare_antisym, E2; reflexivity).
      assert (JsString.compare (dateText b) (dateText a) = Lt) as X2
        by (rewrite compare_antisym, E1; reflexivity).
      pose proof (compare_lt_trans _ _ _ X1 X2) as X3.
      rewrite compare_antisym, H3 in X3. discriminate.
Qed.

Lemma sqlCompare_text a b :
  hasDateText a -> hasDateText b ->
  SecureDatabase.sqlCompare (MoodEntry.date a) (MoodEntry.date b)
  = JsString.compare (dateText a) (dateText b).
Proof.
  unfold dateText. intros [x ->] [y ->]. reflexivity.
Qed.

Lemma insertDesc_sorted r l :
  hasDateText r -> Forall hasDateText l ->
  StronglySorted notOlder l ->
  StronglySorted notOlder (SecureDatabase.insertDesc r l).
Proof.
  intros Hr Hl S. induction S as [|x l S IH F]; simpl.
  - repeat constructor.
  - inversion Hl as [|? ? Hx Hl']; subst.
    rewrite sqlCompare_text by assumption.
    destruct (JsString.compare (dateText r) (dateText x)) eqn:E.
    + constructor; [constructor; assumption|].
      constructor; [unfold notOlder; congruence|].
      eapply List.Forall_impl; [|exact F]. intros y Hy.
      apply notOlder_trans with x; [unfold notOlder; congruence|exact Hy].
    + constructor; [apply IH; exact Hl'|].
      assert (notOlder x r) as Hxr.
      { unfold notOlder. rewrite compare_antisym, E. discriminate. }
      eapply Permutation.Permutation_Forall; [symmetry; apply insertDesc_perm|].
      constructor; assumption.
    + constructor; [constructor; assumption|].
      constructor; [unfold notOlder; congruence|].
      eapply List.Forall_impl; [|exact F]. intros y Hy.
      apply notOlder_trans with x; [unfold notOlder; congruence|exact Hy].
Qed.

Lemma orderByDateDesc_sorted l :
  Forall hasDateText l -> StronglySorted notOlder (SecureDatabase.orderByDateDesc l).
Proof.
  induction 1 as [|x l Hx Hl IH]; simpl; [constructor|].
  apply insertDesc_sorted; [exact Hx| |exact IH].
  eapply Permutation.Permutation_Forall; [symmetry; apply orderByDateDesc_perm|exact Hl].
Qed.

Lemma valid_hasDateText r : invalid LocalTZA r = false -> hasDateText r.
Proof.
  intros V. destruct (valid_fields LocalTZA r V) as (d & _ & Hd & _).
  exists d. exact Hd.
Qed.

Lemma matches_withinBounds from to r :
  hasDateText r ->
  SecureDatabase.matches (whereOf from to) r = withinBounds from to r.
Proof.
  intros [d Hd]. unfold withinBounds. rewrite Hd.
  destruct from as [f|], to as [t|]; cbn [whereOf SecureDatabase.matches];
    rewrite ?Hd; unfold SecureDatabase.sqlLe, SecureDatabase.sqlGe, JsString.leb,
      JsString.geb; cbn [SecureDatabase.isNull negb andb SecureDatabase.sqlCompare];
    rewrite ?andb_true_r; reflexivity.
Qed.

Lemma strictly_sorted l :
  Forall hasDateText l ->
  List.NoDup (List.map MoodEntry.date l) ->
  StronglySorted notOlder l -> StronglySorted newerThan l.
Proof.
  intros T N S. induction S as [|x l S IH F]; [constructor|].
  inversion T as [|? ? Tx Tl]; subst. simpl in N.
  inversion N as [|? ? Nx Nl]; subst.
  constructor; [apply IH; assumption|].
  apply List.Forall_forall. intros y Hy.
  pose proof (proj1 (List.Forall_forall _ _) F y Hy) as G.
  pose proof (proj1 (List.Forall_forall _ _) Tl y Hy) as Ty.
  unfold notOlder in G. unfold newerThan.
  destruct (JsString.compare (dateText x) (dateText y)) eqn:E; try congruence.
  exfalso. apply compare_eq in E. apply Nx.
  destruct Tx as [a Ha], Ty as [b Hb]. unfold dateText in E. rewrite Ha, Hb in E.
  subst b. rewrite Ha, <- Hb. apply in_map. exact Hy.
Qed.

Lemma NoDup_map_filter {A B} (g : A -> B) (f : A -> bool) l :
  List.NoDup (List.map g l) -> List.NoDup (List.map g (List.filter f l)).
Proof.
  induction l as [|x l IH]; simpl; [auto|].
  intros N. inversion N as [|? ? Nx Nl]; subst.
  destruct (f x); simpl; [constructor|]; auto.
  intros Hin. apply Nx. apply in_map_iff in Hin. destruct Hin as (y & E & Hy).
  apply filter_In in Hy. apply in_map_iff. exists y. tauto.
Qed.

Lemma limitOffset_incl {A} limit offset (l : list A) x :
  In x (SecureDatabase.limitOffset limit offset l) -> In x l.
Proof.
  unfold SecureDatabase.limitOffset. intros H.
  assert (S : forall n y, In y (skipn n l) -> In y l).
  { intros n y Hy. rewrite <- (firstn_skipn n l). apply in_or_app. auto. }
  destruct (limit <? 0).
  - eapply S; eauto.
  - eapply S. rewrite <- (firstn_skipn (Z.to_nat limit) (skipn _ l)).
    apply in_or_app. left. exact H.
Qed.

Lemma ceilDiv_spec total limit :
  0 < limit ->
  (MoodDatabase.ceilDiv total limit - 1) * limit < total
  <= MoodDatabase.ceilDiv total limit * limit.
Proof.
  intros H. unfold MoodDatabase.ceilDiv.
  pose proof (Z.div_mod (- total) limit ltac:(lia)) as E.
  pose proof (Z.mod_pos_bound (- total) limit H) as B.
  nia.
Qed.

Lemma sorted_skipn {A} (R : A -> A -> Prop) n l :
  StronglySorted R l -> StronglySorted R (skipn n l).
Proof.
  revert l. induction n as [|n IH]; intros l S; [exact S|].
  destruct l as [|x l]; [exact S|]. simpl. apply IH.
  inversion S; assumption.
Qed.

Lemma sorted_firstn {A} (R : A -> A -> Prop) n l :
  StronglySorted R l -> StronglySorted R (firstn n l).
Proof.
  revert l. induction n as [|n IH]; intros l S; [constructor|].
  destruct l as [|x l]; [constructor|]. simpl.
  inversion S as [|? ? S' F]; subst. constructor; [apply IH; exact S'|].
  apply List.Forall_forall. intros y Hy.
  apply (proj1 (List.Forall_forall _ _) F).
  rewrite <- (firstn_skipn n l). apply in_or_app. left. exact Hy.
Qed.

Lemma sorted_assign now l :
  StronglySorted newerThan l ->
  StronglySorted newerThan (List.map (MoodEntry.assign now) l).
Proof.
  induction 1 as [|x l S IH F]; simpl; constructor; [exact IH|].
  apply List.Forall_forall. intros y Hy. apply in_map_iff in Hy.
  destruct Hy as (r & <- & Hr).
  exact (proj1 (List.Forall_forall _ _) F r Hr).
Qed.

(** [getMoodEntries] on options it does not refuse. *)
Lemma getMoodEntries_run now o db :
  rowsValid LocalTZA db ->
  let limit := default 20 (MoodDatabase.limit o) in
  let page := default 1 (MoodDatabase.page o) in
  let from := MoodDatabase.given (MoodDatabase.from o) in
  let to := MoodDatabase.given (MoodDatabase.to o) in
  let w := whereOf from to in
  1 <= limit <= 100 -> 1 <= page ->
  (forall f t, from = Some f -> to = Some t -> JsString.gtb f t = false) ->
  MoodDatabase.getMoodEntries LocalTZA now o db
  = (Return {| MoodDatabase.moods :=
                 List.map (MoodEntry.assign now)
                   (SecureDatabase.limitOffset limit ((page - 1) * limit)
                      (SecureDatabase.orderByDateDesc
                         (List.filter (SecureDatabase.matches w) (SecureDatabase.table db))));
               MoodDatabase.total :=
                 Z.of_nat (length (List.filter (SecureDatabase.matches w)
                                               (SecureDatabase.table db)));
               MoodDatabase.page_no := page;
               MoodDatabase.page_limit := limit;
               MoodDatabase.totalPages :=
                 MoodDatabase.ceilDiv
                   (Z.of_nat (length (List.filter (SecureDatabase.matches w)
                                                  (SecureDatabase.table db))))
                   limit |},
     SecureDatabase.log (SecureDatabase.SelectPage w limit ((page - 1) * limit))
       (SecureDatabase.log (SecureDatabase.SelectCount w) db)).
Proof.
  intros V limit page from to w Hl Hp Hft.
  unfold MoodDatabase.getMoodEntries. fold limit page from to.
  replace ((limit <? 1) || (100 <? limit)) with false
    by (symmetry; apply orb_false_iff; split; [apply Z.ltb_ge|apply Z.ltb_ge]; lia).
  replace (page <? 1) with false by (symmetry; apply Z.ltb_ge; lia).
  assert (W : forall db0,
    match from, to with
    | Some f, Some t =>
        if JsString.gtb f t
        then MoodDatabase.throw (Error (js "From date cannot be after to date"))
        else MoodDatabase.ret (SecureDatabase.WhereBetween f t)
    | Some f, None => MoodDatabase.ret (SecureDatabase.WhereGe f)
    | None, Some t => MoodDatabase.ret (SecureDatabase.WhereLe t)
    | None, None => MoodDatabase.ret SecureDatabase.WhereNone
    end db0 = (Return w, db0)).
  { intros db0. unfold w, whereOf. destruct from as [f|], to as [t|]; try reflexivity.
    rewrite (Hft f t eq_refl eq_refl). reflexivity. }
  unfold MoodDatabase.bind at 1. rewrite W.
  unfold MoodDatabase.bind, SecureDatabase.getCount, SecureDatabase.allPage,
    MoodDatabase.lift, MoodDatabase.ret.
  cbn [SecureDatabase.table SecureDatabase.log].
  rewrite mapC_fromDbRow; [reflexivity|].
  apply List.Forall_forall. intros r Hr.
  apply limitOffset_incl in Hr.
  apply (Permutation_in _ (orderByDateDesc_perm _)) in Hr.
  apply filter_In in Hr.
  exact (proj1 (List.Forall_forall _ _) V r (proj1 Hr)).
Qed.

End ListFacts.


Lemma threeDays_reachable : reachable 0 (fun v => v) threeDays.
Proof.
  unfold threeDays, oneEntry.
  repeat (eapply reachable_step; [|apply step_create]). apply reachable_empty.
Qed.


(** The scenario of the specification: entries for 2025-09-20, -21 and -22
    are listed, without options, as 22, 21, 20 with a total of 3. *)
Example list_three_days :
  exists pg db',
    MoodDatabase.getMoodEntries 0 morning
      {| MoodDatabase.limit := None; MoodDatabase.page := None;
         MoodDatabase.from := None; MoodDatabase.to := None |} threeDays
    = (Return pg, db')
    /\ List.map MoodEntry.date (MoodDatabase.moods pg)
       = [VStr (js "2025-09-22"); VStr (js "2025-09-21"); VStr (js "2025-09-20")]
    /\ MoodDatabase.total pg = 3
    /\ MoodDatabase.page_limit pg = 20
    /\ MoodDatabase.totalPages pg = 1.
Proof. eexists _, _. split; [vm_compute; reflexivity|]. repeat split. Qed.

Lemma refusedOptions_dec (o : MoodDatabase.Options) :
  refusedOptions o \/ ~ refusedOptions o.
Proof.
  unfold refusedOptions. cbv zeta.
  destruct (Z.lt_ge_cases (default 20 (MoodDatabase.limit o)) 1) as [A|A]; [auto|].
  destruct (Z.lt_ge_cases 100 (default 20 (MoodDatabase.limit o))) as [B|B]; [auto|].
  destruct (Z.lt_ge_cases (default 1 (MoodDatabase.page o)) 1) as [C|C]; [auto|].
  destruct (MoodDatabase.given (MoodDatabase.from o)) as [f|] eqn:Ef.
  2:{ right. intros [H|[H|[H|(f & t & X & _)]]]; try lia. discriminate. }
  destruct (MoodDatabase.given (MoodDatabase.to o)) as [t|] eqn:Et.
  2:{ right. intros [H|[H|[H|(f' & t & _ & X & _)]]]; try lia. discriminate. }
  destruct (JsString.gtb f t) eqn:G.
  - left. right. right. right. exists f, t. auto.
  - right. intros [H|[H|[H|(f' & t' & X & Y & Z)]]]; try lia. congruence.
Qed.



(** ** Statistics *)

Section CutoffFacts.
Import JsDate.
Variable LocalTZA : Z.

Lemma MakeDay_shift y m d k : MakeDay y m (d - k) = MakeDay y m d - k.
Proof. unfold MakeDay. cbv zeta. lia. Qed.

Lemma setDate_back now days :
  Z.abs (now - days * msPerDay) <= 8640000000000000 ->
  setDate LocalTZA (Some now)
    (option_map (fun d => d - days) (getDate LocalTZA (Some now)))
  = Some (now - days * msPerDay).
Proof.
  intros B. cbn [getDate option_map setDate].
  rewrite MakeDay_shift, <- Day_from_fields.
  assert (E : UTC LocalTZA
                (MakeDate (Day (LocalTime LocalTZA now) - days)
                          (TimeWithinDay (LocalTime LocalTZA now)))
              = now - days * msPerDay).
  { unfold UTC, MakeDate, Day, TimeWithinDay, LocalTime, msPerDay.
    Z.div_mod_to_equations. lia. }
  rewrite E. unfold TimeClip.
  destruct (Z.leb_spec (Z.abs (now - days * msPerDay)) 8640000000000000);
    [reflexivity|lia].
Qed.

Lemma split_first c (a rest : jsstring) :
  Forall (fun x => x <> c) a ->
  nth 0 (JsString.split c (a ++ c :: rest)) [] = a.
Proof.
  unfold JsString.split.
  assert (G : forall cur, Forall (fun x => x <> c) a ->
            nth 0 (JsString.split_aux c cur (a ++ c :: rest)) [] = rev cur ++ a).
  { induction a as [|x a IH]; intros cur F; simpl.
    - rewrite N.eqb_refl. simpl. rewrite app_nil_r. reflexivity.
    - inversion F as [|? ? Hx Fa]; subst.
      destruct (N.eqb_spec x c) as [->|_]; [congruence|].
      rewrite IH by exact Fa. simpl. rewrite <- app_assoc. reflexivity. }
  intros F. rewrite G by exact F. reflexivity.
Qed.

Lemma pad_digits w n : Forall (fun x => x <> 84%N) (JsString.pad w n).
Proof.
  revert n. induction w as [|w IH]; intros n; simpl; [constructor|].
  apply Forall_app. split; [apply IH|]. constructor; [|constructor].
  unfold JsString.digit. pose proof (Z.mod_pos_bound n 10 ltac:(lia)). lia.
Qed.

Lemma yearString_digits y : Forall (fun x => x <> 84%N) (yearString y).
Proof.
  unfold yearString. destruct (_ && _); [apply pad_digits|].
  constructor; [destruct (y <? 0); discriminate|apply pad_digits].
Qed.

Lemma Day_shift now days : Day (now - days * msPerDay) = Day now - days.
Proof. unfold Day, msPerDay. Z.div_mod_to_equations. lia. Qed.

Lemma Day_of_day n : Day (n * msPerDay) = n.
Proof. unfold Day, msPerDay. Z.div_mod_to_equations. lia. Qed.

(** The cutoff is the calendar date [days] days before today's (UTC)
    date, whatever the local time zone. *)
Lemma cutoffDateStr_today_minus_days now days :
  Z.abs (now - days * msPerDay) <= 8640000000000000 ->
  MoodDatabase.cutoffDateStr LocalTZA now days = Some (calendarDay (Day now - days)).
Proof.
  intros B. unfold MoodDatabase.cutoffDateStr.
  rewrite setDate_back by exact B.
  cbn [toISOString option_map]. f_equal.
  set (t := now - days * msPerDay).
  assert (Y : YearFromTime ((Day now - days) * msPerDay) = YearFromTime t).
  { unfold YearFromTime, t. rewrite Day_of_day, Day_shift. reflexivity. }
  assert (W : DayWithinYear ((Day now - days) * msPerDay) = DayWithinYear t).
  { unfold DayWithinYear. rewrite Y. unfold t. rewrite Day_of_day, Day_shift. reflexivity. }
  assert (M : MonthFromTime ((Day now - days) * msPerDay) = MonthFromTime t).
  { unfold MonthFromTime, InLeapYear. rewrite Y, W. reflexivity. }
  assert (D : DateFromTime ((Day now - days) * msPerDay) = DateFromTime t).
  { unfold DateFromTime, InLeapYear. rewrite Y, W, M. reflexivity. }
  unfold calendarDay. cbv zeta. rewrite Y, M, D.
  set (a := yearString (YearFromTime t) ++ js "-"
            ++ JsString.pad 2 (MonthFromTime t + 1) ++ js "-"
            ++ JsString.pad 2 (DateFromTime t)).
  set (rest := JsString.pad 2 (TimeWithinDay t / 3600000) ++ js ":"
               ++ JsString.pad 2 (TimeWithinDay t / 60000 mod 60) ++ js ":"
               ++ JsString.pad 2 (TimeWithinDay t / 1000 mod 60) ++ js "."
               ++ JsString.pad 3 (TimeWithinDay t mod 1000) ++ js "Z").
  transitivity (nth 0 (JsString.split 84 (a ++ 84%N :: rest)) []).
  { f_equal. f_equal. unfold a, rest. rewrite <- !app_assoc. reflexivity. }
  apply split_first. unfold a. change (js "-") with [45%N].
  apply Forall_app. split; [apply yearString_digits|].
  constructor; [discriminate|].
  apply Forall_app. split; [apply pad_digits|].
  constructor; [discriminate|]. apply pad_digits.
Qed.

End CutoffFacts.

Section StatisticsFacts.
Variable sqlDATE : JsVal -> JsVal.

Lemma sameGroup_key r g :
  SecureDatabase.sameGroup sqlDATE r g = bool_decide (groupKey sqlDATE r = keyOf g).
Proof.
  unfold SecureDatabase.sameGroup, groupKey, keyOf.
  destruct (bool_decide_reflect (MoodEntry.emoji r = SecureDatabase.stat_emoji g)) as [E1|N1],
    (bool_decide_reflect (sqlDATE (MoodEntry.created_at r) = SecureDatabase.stat_date g))
      as [E2|N2]; simpl; symmetry.
  - apply bool_decide_eq_true. congruence.
  - apply bool_decide_eq_false. congruence.
  - apply bool_decide_eq_false. congruence.
  - apply bool_decide_eq_false. congruence.
Qed.

Lemma weight_addToGroups p r gs :
  weight p (SecureDatabase.addToGroups sqlDATE r gs)
  = weight p gs + (if p (fst (groupKey sqlDATE r)) (snd (groupKey sqlDATE r)) then 1 else 0).
Proof.
  induction gs as [|g gs IH]; cbn [SecureDatabase.addToGroups weight fold_right].
  - cbn [SecureDatabase.stat_emoji SecureDatabase.stat_date SecureDatabase.stat_count].
    change (p (MoodEntry.emoji r) (sqlDATE (MoodEntry.created_at r)))
      with (p (fst (groupKey sqlDATE r)) (snd (groupKey sqlDATE r))).
    destruct (p _ _); lia.
  - rewrite sameGroup_key.
    destruct (bool_decide_reflect (groupKey sqlDATE r = keyOf g)) as [E|_];
      cbn [weight fold_right SecureDatabase.stat_emoji SecureDatabase.stat_date
             SecureDatabase.stat_count].
    + rewrite E. cbn [keyOf fst snd]. fold (weight p gs). clear IH.
      destruct (p (SecureDatabase.stat_emoji g) (SecureDatabase.stat_date g)); lia.
    + fold (weight p (SecureDatabase.addToGroups sqlDATE r gs)). rewrite IH.
      fold (weight p gs). lia.
Qed.

Lemma weight_groupRows p rows :
  weight p (SecureDatabase.groupRows sqlDATE rows)
  = countRows (fun r => p (fst (groupKey sqlDATE r)) (snd (groupKey sqlDATE r))) rows.
Proof.
  unfold SecureDatabase.groupRows, countRows.
  assert (G : forall gs,
    weight p (fold_left (fun gs r => SecureDatabase.addToGroups sqlDATE r gs) rows gs)
    = weight p gs
      + Z.of_nat (length (List.filter (fun r => p (fst (groupKey sqlDATE r)) (snd (groupKey sqlDATE r))) rows))).
  { induction rows as [|r rows IH]; intros gs; simpl; [lia|].
    rewrite IH, weight_addToGroups. destruct (p _ _); simpl; lia. }
  rewrite G. simpl. lia.
Qed.

Lemma insertStat_perm g l : Permutation (SecureDatabase.insertStat g l) (g :: l).
Proof.
  induction l as [|x l IH]; simpl; [reflexivity|].
  destruct (SecureDatabase.sqlCompare _ _); try reflexivity.
  rewrite IH. apply perm_swap.
Qed.

Lemma sortStats_perm l : Permutation (fold_right SecureDatabase.insertStat [] l) l.
Proof.
  induction l as [|x l IH]; simpl; [reflexivity|].
  rewrite insertStat_perm. constructor. exact IH.
Qed.

Lemma weight_perm p l l' : Permutation l l' -> weight p l = weight p l'.
Proof. induction 1; simpl; lia. Qed.

Lemma keys_addToGroups r gs :
  List.NoDup (List.map keyOf gs) ->
  List.NoDup (List.map keyOf (SecureDatabase.addToGroups sqlDATE r gs))
  /\ (forall k, In k (List.map keyOf (SecureDatabase.addToGroups sqlDATE r gs)) ->
                k = groupKey sqlDATE r \/ In k (List.map keyOf gs)).
Proof.
  induction gs as [|g gs IH]; simpl.
  - intros _. split; [repeat constructor; intros []|]. intros k [<-|[]]. auto.
  - intros N. inversion N as [|? ? Ng Ngs]; subst.
    rewrite sameGroup_key.
    destruct (bool_decide_reflect (groupKey sqlDATE r = keyOf g)) as [E|NE]; simpl.
    + split; [constructor; assumption|]. intros k [<-|Hk]; auto.
    + destruct (IH Ngs) as [IH1 IH2]. split.
      * constructor; [|exact IH1]. intros Hin. apply IH2 in Hin.
        destruct Hin as [Hin|Hin]; [congruence|contradiction].
      * intros k [<-|Hk]; [auto|]. apply IH2 in Hk. tauto.
Qed.

Lemma keys_groupRows rows :
  List.NoDup (List.map keyOf (SecureDatabase.groupRows sqlDATE rows)).
Proof.
  unfold SecureDatabase.groupRows.
  assert (G : forall gs, List.NoDup (List.map keyOf gs) ->
    List.NoDup (List.map keyOf
      (fold_left (fun gs r => SecureDatabase.addToGroups sqlDATE r gs) rows gs))).
  { induction rows as [|r rows IH]; intros gs N; simpl; [exact N|].
    apply IH. apply keys_addToGroups. exact N. }
  apply G. constructor.
Qed.

Lemma positive_groupRows rows :
  Forall (fun g => 1 <= SecureDatabase.stat_count g)
         (SecureDatabase.groupRows sqlDATE rows).
Proof.
  unfold SecureDatabase.groupRows.
  assert (A : forall r gs, Forall (fun g => 1 <= SecureDatabase.stat_count g) gs ->
    Forall (fun g => 1 <= SecureDatabase.stat_count g)
           (SecureDatabase.addToGroups sqlDATE r gs)).
  { intros r gs F. induction F as [|g gs Hg F IH]; simpl.
    - repeat constructor. simpl. lia.
    - destruct (SecureDatabase.sameGroup sqlDATE r g); constructor; auto. simpl. lia. }
  assert (G : forall gs, Forall (fun g => 1 <= SecureDatabase.stat_count g) gs ->
    Forall (fun g => 1 <= SecureDatabase.stat_count g)
      (fold_left (fun gs r => SecureDatabase.addToGroups sqlDATE r gs) rows gs)).
  { induction rows as [|r rows IH]; intros gs F; simpl; [exact F|]. apply IH, A, F. }
  apply G. constructor.
Qed.

Lemma weight_of_key gs g :
  List.NoDup (List.map keyOf gs) -> In g gs ->
  weight (fun e d => bool_decide ((e, d) = keyOf g)) gs = SecureDatabase.stat_count g.
Proof.
  induction gs as [|x gs IH]; simpl; [intros _ []|].
  intros N Hin. inversion N as [|? ? Nx Ngs]; subst.
  assert (Z0 : forall h, ~ In (keyOf h) (List.map keyOf gs) ->
               weight (fun e d => bool_decide ((e, d) = keyOf h)) gs = 0).
  { intros h Hh. clear -Hh. induction gs as [|y gs IH]; simpl in *; [reflexivity|].
    destruct (bool_decide_reflect
                ((SecureDatabase.stat_emoji y, SecureDatabase.stat_date y) = keyOf h))
      as [E|_].
    - exfalso. apply Hh. left. exact E.
    - rewrite IH; [lia|]. intros X. apply Hh. right. exact X. }
  destruct Hin as [->|Hin].
  - rewrite bool_decide_eq_true_2 by reflexivity. rewrite Z0 by exact Nx. lia.
  - destruct (bool_decide_reflect
                ((SecureDatabase.stat_emoji x, SecureDatabase.stat_date x) = keyOf g))
      as [E|_].
    + exfalso. apply Nx. change (In (keyOf x) (List.map keyOf gs)).
      unfold keyOf at 1. rewrite E. apply in_map. exact Hin.
    + rewrite IH by assumption. lia.
Qed.

Lemma weight_nonneg p gs :
  Forall (fun g => 1 <= SecureDatabase.stat_count g) gs -> 0 <= weight p gs.
Proof.
  induction 1 as [|g gs Hg _ IH]; simpl; [lia|]. destruct (p _ _); lia.
Qed.

Lemma weight_exists p gs :
  Forall (fun g => 1 <= SecureDatabase.stat_count g) gs ->
  existsb (fun g => p (SecureDatabase.stat_emoji g) (SecureDatabase.stat_date g)) gs
  = (0 <? weight p gs).
Proof.
  induction 1 as [|g gs Hg F IH]; simpl; [reflexivity|].
  pose proof (weight_nonneg p gs F).
  destruct (p _ _); simpl.
  - symmetry. apply Z.ltb_lt. lia.
  - rewrite IH. reflexivity.
Qed.

(** The [forEach] of [getStatistics]. *)
Lemma tally_fold (stats : list SecureDatabase.Stat) (dist : gmap jsstring Z) (tot : Z) :
  let r := fold_left MoodDatabase.tally stats (dist, tot) in
  snd r = tot + weight (fun _ _ => true) stats
  /\ forall k,
       fst r !! k
       = if existsb (fun g => bool_decide (ToString (SecureDatabase.stat_emoji g) = k)) stats
         then Some (default 0 (dist !! k)
                    + weight (fun e _ => bool_decide (ToString e = k)) stats)
         else dist !! k.
Proof.
  revert dist tot. induction stats as [|g stats IH]; intros dist tot; simpl.
  - split; [lia|reflexivity].
  - set (k0 := ToString (SecureDatabase.stat_emoji g)).
    set (d1 := match dist !! k0 with
               | Some v => if v =? 0 then <[k0 := 0]> dist else dist
               | None => <[k0 := 0]> dist
               end).
    assert (D1 : default 0 (d1 !! k0) = default 0 (dist !! k0)).
    { unfold d1. destruct (dist !! k0) as [v|] eqn:E.
      - destruct (Z.eqb_spec v 0) as [->|_].
        + rewrite lookup_insert_eq. reflexivity.
        + rewrite E. reflexivity.
      - rewrite lookup_insert_eq. reflexivity. }
    specialize (IH (<[k0 := default 0 (d1 !! k0) + SecureDatabase.stat_count g]> d1)
                   (tot + SecureDatabase.stat_count g)).
    cbv zeta in IH. destruct IH as [IH1 IH2].
    split; [rewrite IH1; lia|].
    intros k. rewrite IH2.
    destruct (bool_decide_reflect (k0 = k)) as [<-|NE]; simpl.
    + rewrite lookup_insert_eq. simpl. rewrite D1.
      destruct (existsb _ stats) eqn:X.
      * f_equal. lia.
      * f_equal.
        assert (W0 : weight (fun e _ => bool_decide (ToString e = k0)) stats = 0).
        { clear -X. induction stats as [|h stats IH]; simpl in *; [reflexivity|].
          apply orb_false_iff in X. destruct X as [X1 X2].
          rewrite X1, IH by exact X2. reflexivity. }
        rewrite W0. lia.
    + rewrite lookup_insert_ne by exact NE.
      assert (d1 !! k = dist !! k) as ->.
      { unfold d1. destruct (dist !! k0) as [v|].
        - destruct (v =? 0); [rewrite lookup_insert_ne by exact NE|]; reflexivity.
        - rewrite lookup_insert_ne by exact NE. reflexivity. }
      reflexivity.
Qed.

End StatisticsFacts.

Lemma sqlGe_onOrAfter cutoff r :
  SecureDatabase.sqlGe (MoodEntry.date r) (VStr cutoff) = onOrAfter cutoff r.
Proof.
  unfold onOrAfter, SecureDatabase.sqlGe, JsString.leb, JsString.geb.
  destruct (MoodEntry.date r) as [| |b|n|d]; try reflexivity.
Qed.



Example isValidDate_on_UTC :
  MoodEntry.isValidDate 0 (VStr (js "2025-09-22")) = true
  /\ MoodEntry.isValidDate 0 (VStr (js "2024-02-29")) = true
  /\ MoodEntry.isValidDate 0 (VStr (js "2025-02-29")) = false
  /\ MoodEntry.isValidDate 0 (VStr (js "2025-13-01")) = false
  /\ MoodEntry.isValidDate 0 (VStr (js "2025-9-22")) = false
  /\ MoodEntry.isValidDate 0 (VNum 20250922) = false
  /\ JsDate.parse (js "2025-02-30") = JsDate.parse (js "2025-03-02")
  /\ JsDate.toISOString (Some morning) = Some (js "2025-09-22T10:04:05.123Z").
Proof. vm_compute. repeat split; reflexivity. Qed.

(** C8: the date validator accepts, in every time zone, only strings of the
    form [YYYY-MM-DD] that spell a date of the calendar, so ["2025-02-30"],
    which matches the pattern, is rejected everywhere; it compares the local
    year, month and day of the instant [new Date(s)] denotes with the numbers
    in the string. It accepts every such string where local time is UTC or
    ahead of it; where local time is behind UTC the instant, midnight UTC,
    reads as the day before and the validator rejects every string: in a
    process five hours behind UTC, ["2025-09-22"] is rejected.
    [isValidDateString] of the middleware is the same function. *)
Theorem date_validator_and_time_zone :
  (forall tz s, MoodEntry.isValidDate tz (VStr s) = true ->
                MoodEntry.dateRegex_test s = true /\ denotesCalendarDate s = true)
  /\ MoodEntry.dateRegex_test (js "2025-02-30") = true
  /\ (forall tz, MoodEntry.isValidDate tz (VStr (js "2025-02-30")) = false)
  /\ (forall tz s, 0 <= tz < JsDate.msPerDay ->
                   MoodEntry.isValidDate tz (VStr s) = denotesCalendarDate s)
  /\ (forall tz v, - JsDate.msPerDay <= tz < 0 -> MoodEntry.isValidDate tz v = false)
  /\ denotesCalendarDate (js "2025-09-22") = true
  /\ MoodEntry.isValidDate (-18000000) (VStr (js "2025-09-22")) = false
  /\ isValidDateString (-18000000) (js "2025-09-22") = false
  /\ (forall tz s, isValidDateString tz s = MoodEntry.isValidDate tz (VStr s)).
Proof.
  split; [exact isValidDate_sound|].
  split; [vm_compute; reflexivity|].
  split.
  { intros tz. destruct (MoodEntry.isValidDate tz (VStr (js "2025-02-30"))) eqn:E;
      [|reflexivity].
    apply isValidDate_sound in E. destruct E as [_ E]. vm_compute in E. discriminate E. }
  split.
  { intros tz s H. destruct (denotesCalendarDate s) eqn:D.
    - apply isValidDate_complete; assumption.
    - destruct (MoodEntry.isValidDate tz (VStr s)) eqn:E; [|reflexivity].
      apply isValidDate_sound in E. destruct E as [_ E]. congruence. }
  split; [exact isValidDate_behind_UTC|].
  split; [vm_compute; reflexivity|].
  split; [vm_compute; reflexivity|].
  split; [vm_compute; reflexivity|].
  exact isValidDateString_eq.
Qed.


(** * Further properties of the code *)

(** ** Ids *)

Section IdFacts.
Variable LocalTZA : Z.

Lemma maxId_bound rows bound :
  0 <= bound ->
  Forall (fun r => exists n, MoodEntry.id r = VNum n /\ 1 <= n <= bound) rows ->
  SecureDatabase.maxId rows <= bound.
Proof.
  intros B F. induction F as [|r l (n & E & R) _ IH]; simpl; [exact B|].
  rewrite E. lia.
Qed.

Lemma getMoodEntries_seq now options db :
  SecureDatabase.seq (snd (MoodDatabase.getMoodEntries LocalTZA now options db))
  = SecureDatabase.seq db.
Proof.
  unfold MoodDatabase.getMoodEntries.
  destruct (_ || _); [reflexivity|].
  destruct (_ <? 1); [reflexivity|].
  unfold MoodDatabase.bind at 1.
  destruct (MoodDatabase.given (MoodDatabase.from options)),
    (MoodDatabase.given (MoodDatabase.to options));
    try destruct (JsString.gtb _ _); try reflexivity;
    unfold MoodDatabase.ret, MoodDatabase.bind, MoodDatabase.lift,
      SecureDatabase.getCount, SecureDatabase.allPage;
    destruct (MoodDatabase.mapC _ _); reflexivity.
Qed.

Lemma getStatistics_seq sqlDATE now options db :
  SecureDatabase.seq (snd (MoodDatabase.getStatistics LocalTZA sqlDATE now options db))
  = SecureDatabase.seq db.
Proof.
  unfold MoodDatabase.getStatistics.
  destruct (MoodDatabase.cutoffDateStr _ _ _); [|reflexivity].
  unfold MoodDatabase.bind, SecureDatabase.allStatistics.
  destruct (fold_left _ _ _). reflexivity.
Qed.

Lemma deleteMoodEntryByDate_seq now date db :
  SecureDatabase.seq (snd (MoodDatabase.deleteMoodEntryByDate LocalTZA now date db))
  = SecureDatabase.seq db.
Proof.
  unfold MoodDatabase.deleteMoodEntryByDate, MoodDatabase.bind at 1.
  pose proof (getMoodEntryByDate_table LocalTZA now date db) as [_ T].
  destruct (MoodDatabase.getMoodEntryByDate LocalTZA now date db) as [[[x|]|err] db1];
    simpl in T; try exact T.
  unfold MoodDatabase.bind, SecureDatabase.run. simpl.
  destruct (_ =? 0); simpl; exact T.
Qed.

Lemma idsAssigned_same db db' :
  SecureDatabase.table db' = SecureDatabase.table db ->
  SecureDatabase.seq db' = SecureDatabase.seq db ->
  idsAssigned db -> idsAssigned db'.
Proof. unfold idsAssigned. intros -> ->. auto. Qed.

Lemma idsAssigned_filter (f : SecureDatabase.Row -> bool) db db' :
  SecureDatabase.table db' = List.filter f (SecureDatabase.table db) ->
  SecureDatabase.seq db' = SecureDatabase.seq db ->
  idsAssigned db -> idsAssigned db'.
Proof.
  unfold idsAssigned. intros -> -> (B & F & N). split; [exact B|]. split.
  - apply List.Forall_forall. intros r Hr. apply filter_In in Hr.
    exact (proj1 (List.Forall_forall _ _) F r (proj1 Hr)).
  - apply NoDup_map_filter. exact N.
Qed.

(** What the insert does to table and sequence, for a validated entry. *)
Lemma insertMoodEntry_effect now data db :
  invalid LocalTZA data = false ->
  let e := MoodEntry.assign now data in
  let rowid := Z.max (SecureDatabase.seq db) (SecureDatabase.maxId (SecureDatabase.table db)) + 1 in
  (SecureDatabase.table (snd (MoodDatabase.insertMoodEntry e db)) = SecureDatabase.table db
   /\ SecureDatabase.seq (snd (MoodDatabase.insertMoodEntry e db)) = SecureDatabase.seq db
   /\ exists err, fst (MoodDatabase.insertMoodEntry e db) = Throw err)
  \/ (SecureDatabase.table (snd (MoodDatabase.insertMoodEntry e db))
      = SecureDatabase.table db ++ [rowOf rowid e]
      /\ SecureDatabase.seq (snd (MoodDatabase.insertMoodEntry e db)) = rowid
      /\ exists e', fst (MoodDatabase.insertMoodEntry e db) = Return e'
                    /\ MoodEntry.id e' = VNum rowid).
Proof.
  intros V e rowid.
  destruct (insertMoodEntry_run LocalTZA now data db V) as (d & Hd & R).
  fold e in R. rewrite R. clear R.
  destruct (SecureDatabase.noteCheck _); cbn [negb].
  2:{ left. simpl. eauto. }
  destruct (rowsOn d db).
  - right. simpl. eauto.
  - left. simpl. eauto.
Qed.

Lemma idsAssigned_insert now data db :
  invalid LocalTZA data = false ->
  idsAssigned db ->
  idsAssigned (snd (MoodDatabase.insertMoodEntry (MoodEntry.assign now data) db)).
Proof.
  intros V I.
  destruct (insertMoodEntry_effect now data db V) as [(T & S & _)|(T & S & _)].
  - revert I. apply idsAssigned_same; assumption.
  - destruct I as (B & F & N).
    pose proof (maxId_bound _ _ B F) as M.
    unfold idsAssigned. rewrite T, S.
    set (rowid := Z.max (SecureDatabase.seq db)
                        (SecureDatabase.maxId (SecureDatabase.table db)) + 1) in *.
    assert (rowid = SecureDatabase.seq db + 1) as Er by (unfold rowid; lia).
    split; [lia|]. split.
    + apply Forall_app. split.
      * eapply List.Forall_impl; [|exact F]. intros r (n & E & R). exists n. split; [exact E|lia].
      * constructor; [|constructor]. exists rowid. split; [reflexivity|lia].
    + rewrite map_app. apply List.NoDup_app; [exact N|constructor; [intros []|constructor]|].
      intros x Hx [<-|[]]. apply in_map_iff in Hx. destruct Hx as (r & E & Hr).
      destruct (proj1 (List.Forall_forall _ _) F r Hr) as (n & En & Rn).
      cbn [rowOf MoodEntry.id] in E. rewrite En in E. injection E as ->. lia.
Qed.

Lemma step_idsAssigned sqlDATE db db' :
  step LocalTZA sqlDATE db db' ->
  idsAssigned db -> idsAssigned db' /\ SecureDatabase.seq db <= SecureDatabase.seq db'.
Proof.
  intros S I. destruct S.
  - unfold MoodDatabase.createMoodEntry, MoodDatabase.bind.
    pose proof (checkMoodEntry_table LocalTZA now data db) as [T Sq].
    destruct (MoodDatabase.checkMoodEntry LocalTZA now data db) as [[e|err] db1] eqn:C;
      cbn [snd] in T, Sq.
    + apply checkMoodEntry_returns in C. destruct C as (V & -> & _).
      assert (I1 : idsAssigned db1) by (revert I; apply idsAssigned_same; assumption).
      split; [apply idsAssigned_insert; assumption|].
      destruct (insertMoodEntry_effect now data db1 V) as [(_ & S1 & _)|(_ & S1 & _)];
        rewrite S1; lia.
    + cbn [snd]. split; [revert I; apply idsAssigned_same; assumption|lia].
  - pose proof (checkMoodEntry_table LocalTZA now data db) as [T Sq].
    split; [revert I; apply idsAssigned_same; assumption|lia].
  - apply new_returns in H. destruct H as [-> V].
    split; [apply idsAssigned_insert; assumption|].
    destruct (insertMoodEntry_effect now data db V) as [(_ & S1 & _)|(_ & S1 & _)];
      rewrite S1; lia.
  - pose proof (getMoodEntryByDate_table LocalTZA now date db) as [T Sq].
    split; [revert I; apply idsAssigned_same; assumption|lia].
  - pose proof (getMoodEntries_table LocalTZA now options db) as T.
    pose proof (getMoodEntries_seq now options db) as Sq.
    split; [revert I; apply idsAssigned_same; assumption|lia].
  - pose proof (deleteMoodEntryByDate_seq now date db) as Sq.
    split; [|lia].
    destruct (deleteMoodEntryByDate_table LocalTZA now date db _ eq_refl) as [T|T].
    + revert I. apply idsAssigned_same; assumption.
    + revert I. apply idsAssigned_filter with (1 := T). exact Sq.
  - split; [|simpl; lia].
    revert I. apply idsAssigned_filter with
      (f := fun r => negb (SecureDatabase.sqlEq (MoodEntry.date r) (SecureDatabase.bind date)));
      reflexivity.
  - pose proof (getStatistics_table LocalTZA sqlDATE now options db) as T.
    pose proof (getStatistics_seq sqlDATE now options db) as Sq.
    split; [revert I; apply idsAssigned_same; assumption|lia].
Qed.

Lemma reachable_idsAssigned sqlDATE db :
  reachable LocalTZA sqlDATE db -> idsAssigned db.
Proof.
  induction 1 as [|db db' _ IH S].
  - split; [simpl; lia|]. split; constructor.
  - exact (proj1 (step_idsAssigned sqlDATE db db' S IH)).
Qed.

Lemma steps_reachable sqlDATE db db' :
  reachable LocalTZA sqlDATE db -> rtc (step LocalTZA sqlDATE) db db' ->
  reachable LocalTZA sqlDATE db' /\ SecureDatabase.seq db <= SecureDatabase.seq db'.
Proof.
  intros R S. induction S as [db|db db1 db2 S1 _ IH]; [split; [exact R|lia]|].
  pose proof (step_idsAssigned sqlDATE db db1 S1 (reachable_idsAssigned sqlDATE db R)) as [_ L].
  destruct IH as [R2 L2]; [eapply reachable_step; eauto|]. split; [exact R2|lia].
Qed.

Lemma createMoodEntry_id now data db e db' :
  MoodDatabase.createMoodEntry LocalTZA now data db = (Return e, db') ->
  MoodEntry.id e
  = VNum (Z.max (SecureDatabase.seq db) (SecureDatabase.maxId (SecureDatabase.table db)) + 1)
  /\ SecureDatabase.seq db'
     = Z.max (SecureDatabase.seq db) (SecureDatabase.maxId (SecureDatabase.table db)) + 1.
Proof.
  unfold MoodDatabase.createMoodEntry, MoodDatabase.bind. intros H.
  pose proof (checkMoodEntry_table LocalTZA now data db) as [T Sq].
  destruct (MoodDatabase.checkMoodEntry LocalTZA now data db) as [[e0|err] db1] eqn:C;
    [|discriminate H].
  cbn [snd] in T, Sq.
  apply checkMoodEntry_returns in C. destruct C as (V & -> & _).
  destruct (insertMoodEntry_effect now data db1 V) as [(_ & _ & err & E)|(_ & S1 & e' & E & Ei)];
    rewrite H in *; cbn [fst snd] in *.
  - discriminate E.
  - injection E as <-. rewrite T, Sq in *. split; assumption.
Qed.

End IdFacts.

(** X1: an id is never given out twice. For a row of a database the
    repository has reached, whatever happens afterwards (the row may be
    deleted), every entry created later gets a strictly larger id. *)
Theorem ids_never_reused
    (LocalTZA : Z) (sqlDATE : JsVal -> JsVal)
    (db db1 db2 : SecureDatabase.t) (r e : MoodEntry.t) (now : Z) (data : MoodEntry.t) :
  reachable LocalTZA sqlDATE db ->
  In r (SecureDatabase.table db) ->
  rtc (step LocalTZA sqlDATE) db db1 ->
  MoodDatabase.createMoodEntry LocalTZA now data db1 = (Return e, db2) ->
  exists m n, MoodEntry.id r = VNum m /\ MoodEntry.id e = VNum n /\ m < n.
Proof.
  intros R Hr S C.
  destruct (reachable_idsAssigned LocalTZA sqlDATE db R) as (_ & F & _).
  destruct (proj1 (List.Forall_forall _ _) F r Hr) as (m & Em & Rm).
  destruct (steps_reachable LocalTZA sqlDATE db db1 R S) as [_ L].
  destruct (createMoodEntry_id LocalTZA now data db1 e db2 C) as [Ei _].
  exists m. eexists. split; [exact Em|]. split; [exact Ei|]. lia.
Qed.

Lemma ids_never_reused_witness :
  exists m n,
    MoodEntry.id (MoodEntry.mk (VNum 1) (VStr (js "2025-09-22")) (VStr sad) VNull
                    (VStr (js "2025-09-22T10:04:05.123Z"))
                    (VStr (js "2025-09-22T10:04:05.123Z"))) = VNum m
    /\ MoodEntry.id (MoodEntry.mk (VNum 2) (VStr (js "2025-09-22")) (VStr happy) VNull
                       (VStr (js "2025-09-22T10:04:05.123Z"))
                       (VStr (js "2025-09-22T10:04:05.123Z"))) = VNum n
    /\ m < n.
Proof.
  apply (ids_never_reused 0 (fun v => v) oneEntry
           (snd (MoodDatabase.deleteMoodEntryByDate 0 morning (VStr (js "2025-09-22")) oneEntry))
           (snd (MoodDatabase.createMoodEntry 0 morning (candidate "2025-09-22" happy VNull)
              (snd (MoodDatabase.deleteMoodEntryByDate 0 morning (VStr (js "2025-09-22"))
                      oneEntry))))
           _ _ morning (candidate "2025-09-22" happy VNull)).
  - unfold oneEntry. eapply reachable_step; [apply reachable_empty|apply step_create].
  - vm_compute. left. reflexivity.
  - apply rtc_once. apply step_delete.
  - vm_compute. reflexivity.
Defined.

(** ** Updating an entry *)

Section UpdateFacts.
Variable LocalTZA : Z.

Lemma filter_sqlEq_decide d (rows : list SecureDatabase.Row) :
  List.filter (fun r => negb (SecureDatabase.sqlEq (MoodEntry.date r) (VStr d))) rows
  = List.filter (fun r => negb (bool_decide (MoodEntry.date r = VStr d))) rows.
Proof.
  apply filter_ext. intros r. rewrite sqlEq_text_decide. reflexivity.
Qed.

Lemma rowsOn_app d db rows :
  rowsOn d (SecureDatabase.mk (SecureDatabase.table db ++ rows) (SecureDatabase.seq db)
                              (SecureDatabase.journal db))
  = rowsOn d db ++ List.filter (fun r => bool_decide (MoodEntry.date r = VStr d)) rows.
Proof. unfold rowsOn. simpl. apply List.filter_app. Qed.

Lemma withDate_fields data date :
  MoodEntry.date (withDate data date) = date
  /\ MoodEntry.emoji (withDate data date) = MoodEntry.emoji data
  /\ MoodEntry.note (withDate data date) = MoodEntry.note data.
Proof. repeat split. Qed.

(** The delete phase of an update, on a date that has a row. *)
Lemma updateMoodEntry_present now d data db r :
  wellFormed LocalTZA db ->
  In r (SecureDatabase.table db) -> MoodEntry.date r = VStr d ->
  exists db1,
    MoodDatabase.updateMoodEntry LocalTZA now (VStr d) data db
    = MoodDatabase.createMoodEntry LocalTZA now (withDate data (VStr d)) db1
    /\ SecureDatabase.table db1
       = List.filter (fun r => negb (bool_decide (MoodEntry.date r = VStr d)))
                     (SecureDatabase.table db)
    /\ SecureDatabase.seq db1 = SecureDatabase.seq db
    /\ rowsOn d db1 = []
    /\ wellFormed LocalTZA db1.
Proof.
  intros W Hr Hd.
  unfold MoodDatabase.updateMoodEntry, MoodDatabase.bind.
  rewrite (deleteMoodEntryByDate_present LocalTZA now d db r W Hr Hd).
  eexists. split; [reflexivity|].
  cbn [SecureDatabase.table SecureDatabase.seq].
  split; [apply filter_sqlEq_decide|]. split; [reflexivity|].
  split.
  - apply (rowsOn_after_delete d db). reflexivity.
  - apply (filter_wellFormed LocalTZA
             (fun r => negb (SecureDatabase.sqlEq (MoodEntry.date r) (VStr d))) db);
      [reflexivity|exact W].
Qed.

End UpdateFacts.

(** X2: [updateMoodEntry] does not create. On a date without an entry it
    throws the [NOT_FOUND] error of the delete, whatever the new data are,
    and the table and the id sequence stay as they were. *)
Theorem updateMoodEntry_absent
    (LocalTZA now : Z) (d : jsstring) (data : MoodEntry.t) (db : SecureDatabase.t) :
  rowsOn d db = [] ->
  exists db',
    MoodDatabase.updateMoodEntry LocalTZA now (VStr d) data db
    = (Throw (MoodDatabase.notFound (VStr d)), db')
    /\ code (MoodDatabase.notFound (VStr d)) = Some (js "NOT_FOUND")
    /\ SecureDatabase.table db' = SecureDatabase.table db
    /\ SecureDatabase.seq db' = SecureDatabase.seq db.
Proof.
  intros F. unfold MoodDatabase.updateMoodEntry, MoodDatabase.bind.
  rewrite deleteMoodEntryByDate_absent by exact F.
  eexists. repeat split.
Qed.

Lemma updateMoodEntry_absent_witness :
  exists db',
    MoodDatabase.updateMoodEntry 0 morning (VStr (js "2025-09-23"))
      (candidate "2025-09-23" happy VNull) oneEntry
    = (Throw (MoodDatabase.notFound (VStr (js "2025-09-23"))), db')
    /\ code (MoodDatabase.notFound (VStr (js "2025-09-23"))) = Some (js "NOT_FOUND")
    /\ SecureDatabase.table db' = SecureDatabase.table oneEntry
    /\ SecureDatabase.seq db' = SecureDatabase.seq oneEntry.
Proof.
  apply (updateMoodEntry_absent 0 morning (js "2025-09-23")
           (candidate "2025-09-23" happy VNull) oneEntry).
  vm_compute. reflexivity.
Defined.



(** X4: an update is not atomic. When the date has an entry and the new
    data are invalid, [updateMoodEntry] throws the validation error of
    [createMoodEntry] after the delete has run: the entry of the date is
    lost and the other rows are kept. *)
Theorem updateMoodEntry_invalid_loses_entry
    (LocalTZA now : Z) (d : jsstring) (data : MoodEntry.t) (db : SecureDatabase.t)
    (r : SecureDatabase.Row) :
  wellFormed LocalTZA db ->
  In r (SecureDatabase.table db) -> MoodEntry.date r = VStr d ->
  invalid LocalTZA (withDate data (VStr d)) = true ->
  exists db',
    MoodDatabase.updateMoodEntry LocalTZA now (VStr d) data db
    = (Throw (ValidationError
                (JsString.join (js "; ")
                   (List.map ruleMessage (violated LocalTZA (withDate data (VStr d)))))),
       db')
    /\ rowsOn d db' = []
    /\ SecureDatabase.table db'
       = List.filter (fun r => negb (bool_decide (MoodEntry.date r = VStr d)))
                     (SecureDatabase.table db)
    /\ (length (SecureDatabase.table db') < length (SecureDatabase.table db))%nat.
Proof.
  intros W Hr Hd V.
  destruct (updateMoodEntry_present LocalTZA now d data db r W Hr Hd)
    as (db1 & -> & T1 & S1 & F1 & W1).
  rewrite createMoodEntry_invalid by exact V.
  exists db1. split; [reflexivity|]. split; [exact F1|]. split; [exact T1|].
  rewrite T1. apply (filter_length_lt _ _ r); [exact Hr|].
  rewrite bool_decide_eq_true_2 by exact Hd. reflexivity.
Qed.

Lemma updateMoodEntry_invalid_loses_entry_witness :
  exists db',
    MoodDatabase.updateMoodEntry 0 morning (VStr (js "2025-09-22"))
      (candidate "2025-09-22" (js ":-)") VNull) oneEntry
    = (Throw (ValidationError
                (JsString.join (js "; ")
                   (List.map ruleMessage
                      (violated 0 (withDate (candidate "2025-09-22" (js ":-)") VNull)
                                            (VStr (js "2025-09-22"))))))),
       db')
    /\ rowsOn (js "2025-09-22") db' = []
    /\ SecureDatabase.table db'
       = List.filter (fun r => negb (bool_decide (MoodEntry.date r = VStr (js "2025-09-22"))))
                     (SecureDatabase.table oneEntry)
    /\ (length (SecureDatabase.table db') < length (SecureDatabase.table oneEntry))%nat.
Proof.
  apply (updateMoodEntry_invalid_loses_entry 0 morning (js "2025-09-22")
           (candidate "2025-09-22" (js ":-)") VNull) oneEntry
           (MoodEntry.mk (VNum 1) (VStr (js "2025-09-22")) (VStr sad) VNull
              (VStr (js "2025-09-22T10:04:05.123Z"))
              (VStr (js "2025-09-22T10:04:05.123Z")))).
  - apply (reachable_wellFormed 0 (fun v => v)).
    unfold oneEntry. eapply reachable_step; [apply reachable_empty|apply step_create].
  - vm_compute. left. reflexivity.
  - reflexivity.
  - vm_compute. reflexivity.
Defined.

(** ** Validation before the repository is called *)

Section InputFacts.
Variable LocalTZA : Z.

(** Validity depends on the date, the emoji and the note only. *)
Lemma invalid_fields (a b : MoodEntry.t) :
  MoodEntry.date a = MoodEntry.date b ->
  MoodEntry.emoji a = MoodEntry.emoji b ->
  MoodEntry.note a = MoodEntry.note b ->
  invalid LocalTZA a = invalid LocalTZA b.
Proof.
  intros D E N. unfold invalid, allRules, violates. cbn [existsb].
  rewrite D, E, N. reflexivity.
Qed.

Lemma inputErrors_nil data :
  MoodEntry.inputErrors data = []
  <-> (exists c s, MoodEntry.date data = VStr (c :: s))
      /\ (exists c s, MoodEntry.emoji data = VStr (c :: s))
      /\ textOrAbsent (MoodEntry.note data) = true.
Proof.
  unfold MoodEntry.inputErrors.
  destruct data as [i d e n c u]. cbn [MoodEntry.date MoodEntry.emoji MoodEntry.note].
  split.
  - intros H.
    destruct d as [| |[|]|nd|[|cd sd]]; try destruct (nd =? 0) eqn:Nd;
      destruct e as [| |[|]|ne|[|ce se]]; try destruct (ne =? 0) eqn:Ne;
      destruct n; cbn in H; try rewrite Nd in H; try rewrite Ne in H; cbn in H;
      try discriminate H.
    all: (split; [exists cd, sd; reflexivity|]; split; [exists ce, se; reflexivity|]);
      reflexivity.
  - intros ((cd & sd & ->) & (ce & se & ->) & T).
    destruct n; try discriminate T; reflexivity.
Qed.

Lemma valid_inputErrors data :
  invalid LocalTZA data = false ->
  textOrAbsent (MoodEntry.note data) = true ->
  MoodEntry.inputErrors data = [].
Proof.
  intros V T. apply inputErrors_nil.
  destruct (valid_fields LocalTZA data V) as (d & em & Ed & Vd & Ee & Ve & _).
  split; [|split; [|exact T]].
  - apply isValidDate_sound in Vd. destruct Vd as [Rx _].
    destruct d as [|c s]; [discriminate Rx|exists c, s; exact Ed].
  - destruct em as [|c s]; [vm_compute in Ve; discriminate Ve|exists c, s; exact Ee].
Qed.

Lemma validateInput_cases now data :
  let v := MoodEntry.validateInput LocalTZA now data in
  (invalid LocalTZA data = false /\ textOrAbsent (MoodEntry.note data) = true
   /\ v = {| MoodEntry.isValid := true; MoodEntry.errors := [] |})
  \/ ((invalid LocalTZA data = true \/ textOrAbsent (MoodEntry.note data) = false)
      /\ MoodEntry.isValid v = false /\ MoodEntry.errors v <> []).
Proof.
  cbv zeta. unfold MoodEntry.validateInput.
  destruct (MoodEntry.inputErrors data) as [|m ms] eqn:E.
  - cbn [length Z.of_nat Z.ltb Z.compare].
    apply inputErrors_nil in E. destruct E as (_ & _ & T).
    set (data' := MoodEntry.mk VUndefined (MoodEntry.date data) (MoodEntry.emoji data)
                    (MoodEntry.note data) VUndefined VUndefined).
    assert (I : invalid LocalTZA data' = invalid LocalTZA data)
      by (apply invalid_fields; reflexivity).
    destruct (invalid LocalTZA data) eqn:V.
    + right. rewrite (new_invalid LocalTZA now data' I).
      split; [left; reflexivity|]. split; [reflexivity|discriminate].
    + left. rewrite (new_valid LocalTZA now data' I). auto.
  - right.
    replace (0 <? Z.of_nat (length (m :: ms))) with true
      by (symmetry; apply Z.ltb_lt; cbn [length]; lia).
    cbn [MoodEntry.isValid MoodEntry.errors].
    split; [|split; [reflexivity|discriminate]].
    destruct (invalid LocalTZA data) eqn:V; [left; reflexivity|right].
    destruct (textOrAbsent (MoodEntry.note data)) eqn:T; [|reflexivity].
    rewrite (valid_inputErrors data V T) in E. discriminate E.
Qed.

End InputFacts.

(** X5: what [validateInput] decides. Its verdict is [isValid] exactly when
    the data break none of the entity's rules and the note is a string,
    [null] or absent; the verdict does not depend on the clock or on the
    other properties of the data; and the list of messages is empty exactly
    when the verdict is [isValid]. *)
Theorem validateInput_verdict (LocalTZA now : Z) (data : MoodEntry.t) :
  let v := MoodEntry.validateInput LocalTZA now data in
  (MoodEntry.isValid v = true
   <-> invalid LocalTZA data = false /\ textOrAbsent (MoodEntry.note data) = true)
  /\ (MoodEntry.isValid v = true <-> MoodEntry.errors v = [])
  /\ (forall now' data',
        MoodEntry.date data' = MoodEntry.date data ->
        MoodEntry.emoji data' = MoodEntry.emoji data ->
        MoodEntry.note data' = MoodEntry.note data ->
        MoodEntry.isValid (MoodEntry.validateInput LocalTZA now' data') = MoodEntry.isValid v).
Proof.
  cbv zeta.
  assert (Iff : forall n dt,
            MoodEntry.isValid (MoodEntry.validateInput LocalTZA n dt) = true
            <-> invalid LocalTZA dt = false /\ textOrAbsent (MoodEntry.note dt) = true).
  { intros n dt.
    destruct (validateInput_cases LocalTZA n dt) as [(V & T & ->)|(H & -> & _)].
    - split; auto.
    - split; [discriminate|]. intros [V T]. destruct H; congruence. }
  split; [apply Iff|]. split.
  - destruct (validateInput_cases LocalTZA now data) as [(_ & _ & ->)|(_ & -> & N)].
    + split; reflexivity.
    + split; [discriminate|]. intros E. contradiction.
  - intros now' data' D E N.
    destruct (MoodEntry.isValid (MoodEntry.validateInput LocalTZA now data)) eqn:V.
    + apply Iff. apply Iff in V. destruct V as [V T].
      rewrite (invalid_fields LocalTZA data' data D E N), N. auto.
    + destruct (MoodEntry.isValid (MoodEntry.validateInput LocalTZA now' data')) eqn:V';
        [|reflexivity].
      apply Iff in V'. destruct V' as [V' T'].
      rewrite (invalid_fields LocalTZA data' data D E N) in V'. rewrite N in T'.
      assert (X : MoodEntry.isValid (MoodEntry.validateInput LocalTZA now data) = true)
        by (apply Iff; auto).
      congruence.
Qed.



(** ** The date of the URL *)

Section ParamFacts.
Variable LocalTZA : Z.

(** [validateDateParam] repeats the checks of [isValidDate]. *)
Lemma validateDateParam_isValidDate d :
  Validation.validateDateParam LocalTZA (Some d)
  = if MoodEntry.isValidDate LocalTZA (VStr d) then Validation.Next d
    else Validation.Respond 400
           (match d with
            | [] => js "Date parameter is required"
            | _ => if MoodEntry.dateRegex_test d
                   then js "Invalid date. Please provide a valid date in YYYY-MM-DD format"
                   else js "Invalid date format. Use YYYY-MM-DD format"
            end) None.
Proof.
  unfold Validation.validateDateParam, MoodEntry.isValidDate.
  destruct d as [|c s]; [reflexivity|].
  destruct (MoodEntry.dateRegex_test (c :: s)); cbn [negb]; [|reflexivity].
  cbv zeta.
  destruct (numEq (JsDate.getFullYear _ _) _); cbn [negb orb andb]; [|reflexivity].
  destruct (numEq (option_map _ _) _); cbn [negb orb andb]; [|reflexivity].
  destruct (numEq (JsDate.getDate _ _) _); reflexivity.
Qed.

End ParamFacts.

(** X7: what [validateDateParam] lets through. In every time zone, when the
    middleware calls [next] the validated date is the parameter itself, it
    has the form [YYYY-MM-DD] and it spells a date of the calendar;
    otherwise the answer has status 400 and no [details]. *)
Theorem validateDateParam_sound (LocalTZA : Z) (date : option jsstring) :
  match Validation.validateDateParam LocalTZA date with
  | Validation.Next d =>
      date = Some d /\ MoodEntry.dateRegex_test d = true /\ denotesCalendarDate d = true
  | Validation.Respond status _ details => status = 400 /\ details = None
  end.
Proof.
  destruct date as [d|]; [|split; reflexivity].
  rewrite validateDateParam_isValidDate.
  destruct (MoodEntry.isValidDate LocalTZA (VStr d)) eqn:V; [|split; reflexivity].
  apply isValidDate_sound in V. destruct V. auto.
Qed.

(** X8: in a time zone on or east of UTC, [validateDateParam] accepts
    every string that spells a calendar date. *)
Theorem validateDateParam_complete (LocalTZA : Z) (d : jsstring) :
  0 <= LocalTZA < JsDate.msPerDay ->
  denotesCalendarDate d = true ->
  Validation.validateDateParam LocalTZA (Some d) = Validation.Next d.
Proof.
  intros Z D. rewrite validateDateParam_isValidDate.
  rewrite (isValidDate_complete LocalTZA d Z D). reflexivity.
Qed.

Lemma validateDateParam_complete_witness :
  Validation.validateDateParam 7200000 (Some (js "2024-02-29"))
  = Validation.Next (js "2024-02-29").
Proof.
  apply (validateDateParam_complete 7200000 (js "2024-02-29")).
  - unfold JsDate.msPerDay. lia.
  - vm_compute. reflexivity.
Defined.

(** X9: in a time zone behind UTC the checks of the URL reject every date.
    [validateDateParam] answers 400 whatever the parameter is, with the
    message for an invalid date when the parameter has the form
    [YYYY-MM-DD]; and [validateMoodListQuery] answers 400 as soon as the
    query carries a [from] or a [to]. *)
Theorem url_dates_rejected_behind_UTC
    (LocalTZA : Z) (date : option jsstring) (q : Validation.Query) :
  - JsDate.msPerDay <= LocalTZA < 0 ->
  (exists msg, Validation.validateDateParam LocalTZA date = Validation.Respond 400 msg None
               /\ (forall d, date = Some d -> MoodEntry.dateRegex_test d = true ->
                     msg = js "Invalid date. Please provide a valid date in YYYY-MM-DD format"))
  /\ (Validation.from q <> None \/ Validation.to q <> None ->
      exists msg details,
        Validation.validateMoodListQuery LocalTZA q
        = Validation.Respond 400 msg (Some details)
        /\ details <> []).
Proof.
  intros Z. split.
  - destruct date as [d|].
    + rewrite validateDateParam_isValidDate.
      rewrite (isValidDate_behind_UTC LocalTZA (VStr d) Z).
      eexists. split; [reflexivity|].
      intros d' [= <-] R. rewrite R. destruct d; [discriminate R|reflexivity].
    + eexists. split; [reflexivity|]. intros d [=].
  - intros B. unfold Validation.validateMoodListQuery.
    assert (N : Validation.queryErrors LocalTZA q <> []).
    { unfold Validation.queryErrors, Validation.boundErrors.
      intros E.
      apply app_eq_nil in E. destruct E as [_ E].
      apply app_eq_nil in E. destruct E as [_ E].
      apply app_eq_nil in E. destruct E as [Ef E].
      apply app_eq_nil in E. destruct E as [Et _].
      destruct B as [B|B].
      - destruct (Validation.from q) as [f|]; [|contradiction].
        rewrite isValidDateString_eq, (isValidDate_behind_UTC LocalTZA (VStr f) Z) in Ef.
        discriminate Ef.
      - destruct (Validation.to q) as [t|]; [|contradiction].
        rewrite isValidDateString_eq, (isValidDate_behind_UTC LocalTZA (VStr t) Z) in Et.
        discriminate Et. }
    destruct (Validation.queryErrors LocalTZA q) as [|m ms]; [contradiction|].
    replace (0 <? Z.of_nat (length (m :: ms))) with true
      by (symmetry; apply Z.ltb_lt; cbn [length]; lia).
    eexists. eexists. split; [reflexivity|discriminate].
Qed.

Lemma url_dates_rejected_behind_UTC_witness :
  (exists msg,
     Validation.validateDateParam (-18000000) (Some (js "2025-09-22"))
     = Validation.Respond 400 msg None
     /\ (forall d, Some (js "2025-09-22") = Some d -> MoodEntry.dateRegex_test d = true ->
           msg = js "Invalid date. Please provide a valid date in YYYY-MM-DD format"))
  /\ (Validation.from {| Validation.limit := None; Validation.page := None;
                         Validation.from := Some (js "2025-09-01");
                         Validation.to := None |} <> None
      \/ Validation.to {| Validation.limit := None; Validation.page := None;
                          Validation.from := Some (js "2025-09-01");
                          Validation.to := None |} <> None ->
      exists msg details,
        Validation.validateMoodListQuery (-18000000)
          {| Validation.limit := None; Validation.page := None;
             Validation.from := Some (js "2025-09-01"); Validation.to := None |}
        = Validation.Respond 400 msg (Some details)
        /\ details <> []).
Proof.
  apply (url_dates_rejected_behind_UTC (-18000000) (Some (js "2025-09-22"))
           {| Validation.limit := None; Validation.page := None;
              Validation.from := Some (js "2025-09-01"); Validation.to := None |}).
  unfold JsDate.msPerDay. lia.
Defined.

(** X10: the check of the URL hides no stored entry. In a well-formed
    database the date of every row passes [validateDateParam] in the
    process's own time zone, and the lookup by the validated date returns
    the entity built from that row. *)
Theorem stored_dates_pass_validateDateParam
    (LocalTZA now : Z) (db : SecureDatabase.t) (r : SecureDatabase.Row) :
  wellFormed LocalTZA db ->
  In r (SecureDatabase.table db) ->
  exists d db',
    MoodEntry.date r = VStr d
    /\ Validation.validateDateParam LocalTZA (Some d) = Validation.Next d
    /\ MoodDatabase.getMoodEntryByDate LocalTZA now (VStr d) db
       = (Return (Some (MoodEntry.assign now r)), db')
    /\ SecureDatabase.table db' = SecureDatabase.table db.
Proof.
  intros W Hr.
  assert (V : invalid LocalTZA r = false)
    by exact (proj1 (List.Forall_forall _ _) (proj1 W) r Hr).
  destruct (valid_fields LocalTZA r V) as (d & em & Ed & Vd & _).
  exists d. eexists. split; [exact Ed|]. split.
  - rewrite validateDateParam_isValidDate, Vd. reflexivity.
  - rewrite (getMoodEntryByDate_present LocalTZA now d db r W Hr Ed).
    split; reflexivity.
Qed.

Lemma stored_dates_pass_validateDateParam_witness :
  exists d db',
    MoodEntry.date (MoodEntry.mk (VNum 1) (VStr (js "2025-09-22")) (VStr sad) VNull
                      (VStr (js "2025-09-22T10:04:05.123Z"))
                      (VStr (js "2025-09-22T10:04:05.123Z"))) = VStr d
    /\ Validation.validateDateParam 0 (Some d) = Validation.Next d
    /\ MoodDatabase.getMoodEntryByDate 0 (morning + 5) (VStr d) oneEntry
       = (Return (Some (MoodEntry.assign (morning + 5)
                          (MoodEntry.mk (VNum 1) (VStr (js "2025-09-22")) (VStr sad) VNull
                             (VStr (js "2025-09-22T10:04:05.123Z"))
                             (VStr (js "2025-09-22T10:04:05.123Z"))))), db')
    /\ SecureDatabase.table db' = SecureDatabase.table oneEntry.
Proof.
  apply (stored_dates_pass_validateDateParam 0 (morning + 5) oneEntry).
  - apply (reachable_wellFormed 0 (fun v => v)).
    unfold oneEntry. eapply reachable_step; [apply reachable_empty|apply step_create].
  - vm_compute. left. reflexivity.
Defined.

(** ** The list route *)

Section QueryFacts.
Variable LocalTZA : Z.

Lemma queryErrors_nil q :
  Validation.queryErrors LocalTZA q = [] ->
  Validation.limitErrors (Validation.limit q) = []
  /\ Validation.pageErrors (Validation.page q) = []
  /\ (forall f, Validation.from q = Some f -> isValidDateString LocalTZA f = true)
  /\ (forall t, Validation.to q = Some t -> isValidDateString LocalTZA t = true)
  /\ Validation.rangeErrors (Validation.from q) (Validation.to q) = [].
Proof.
  unfold Validation.queryErrors, Validation.boundErrors. intros E.
  apply app_eq_nil in E. destruct E as [El E].
  apply app_eq_nil in E. destruct E as [Ep E].
  apply app_eq_nil in E. destruct E as [Ef E].
  apply app_eq_nil in E. destruct E as [Et Er].
  split; [exact El|]. split; [exact Ep|]. split; [|split; [|exact Er]].
  - intros f Hf. rewrite Hf in Ef.
    destruct (isValidDateString LocalTZA f); [reflexivity|discriminate Ef].
  - intros t Ht. rewrite Ht in Et.
    destruct (isValidDateString LocalTZA t); [reflexivity|discriminate Et].
Qed.

Lemma limitErrors_nil limit :
  Validation.limitErrors limit = [] ->
  1 <= match match limit with Some l => Validation.parseInt l | None => None end with
       | Some n => if n =? 0 then 20 else n
       | None => 20
       end <= 100.
Proof.
  unfold Validation.limitErrors. destruct limit as [l|]; [|lia].
  destruct (Validation.parseInt l) as [n|]; [|discriminate].
  destruct (Z.ltb_spec n 1); [discriminate|].
  destruct (Z.ltb_spec 100 n); [discriminate|]. intros _.
  destruct (Z.eqb_spec n 0); lia.
Qed.

Lemma pageErrors_nil page :
  Validation.pageErrors page = [] ->
  1 <= match match page with Some l => Validation.parseInt l | None => None end with
       | Some n => if n =? 0 then 1 else n
       | None => 1
       end.
Proof.
  unfold Validation.pageErrors. destruct page as [l|]; [|lia].
  destruct (Validation.parseInt l) as [n|]; [|discriminate].
  destruct (Z.ltb_spec n 1); [discriminate|]. intros _.
  destruct (Z.eqb_spec n 0); lia.
Qed.

Lemma dateOrAbsent_valid bound :
  (forall b, bound = Some b -> isValidDateString LocalTZA b = true) ->
  dateOrAbsent (MoodDatabase.given bound) = true.
Proof.
  intros H. destruct bound as [[|c s]|]; try reflexivity.
  specialize (H _ eq_refl). rewrite isValidDateString_eq in H.
  apply isValidDate_sound in H. exact (proj1 H).
Qed.

End QueryFacts.

Lemma limitOffset_length {A} limit offset (l : list A) :
  0 <= limit -> Z.of_nat (length (SecureDatabase.limitOffset limit offset l)) <= limit.
Proof.
  intros L. unfold SecureDatabase.limitOffset.
  destruct (Z.ltb_spec limit 0); [lia|].
  pose proof (firstn_le_length (Z.to_nat limit) (skipn (Z.to_nat offset) l)). lia.
Qed.

(** X11: a query that [validateMoodListQuery] lets through is listed. When
    the middleware calls [next] (for a page number that JavaScript numbers
    hold exactly), the options the route builds from the validated query
    are valid, and [getMoodEntries] on them returns a page: none of its own
    checks of the limit, the page and the bounds can fail. The page carries
    the limit and page number of the query, or 20 and 1 where the query
    gives none, holds at most [limit] entries, and the table is unchanged. *)
Theorem validated_query_is_listed
    (LocalTZA now : Z) (q : Validation.Query) (q' : Validation.ListQuery)
    (db : SecureDatabase.t) :
  Validation.validateMoodListQuery LocalTZA q = Validation.Next q' ->
  safePage q ->
  rowsValid LocalTZA db ->
  validOptions (Validation.listOptions q') = true
  /\ exists pg db',
       MoodDatabase.getMoodEntries LocalTZA now (Validation.listOptions q') db
       = (Return pg, db')
       /\ MoodDatabase.page_limit pg
          = match Validation.limit q with
            | Some l => default 20 (Validation.parseInt l)
            | None => 20
            end
       /\ MoodDatabase.page_no pg
          = match Validation.page q with
            | Some p => default 1 (Validation.parseInt p)
            | None => 1
            end
       /\ 1 <= MoodDatabase.page_limit pg <= 100
       /\ 1 <= MoodDatabase.page_no pg
       /\ Z.of_nat (length (MoodDatabase.moods pg)) <= MoodDatabase.page_limit pg
       /\ SecureDatabase.table db' = SecureDatabase.table db.
Proof.
  intros H _ RV. unfold Validation.validateMoodListQuery in H.
  destruct (Validation.queryErrors LocalTZA q) as [|m ms] eqn:E.
  2:{ replace (0 <? Z.of_nat (length (m :: ms))) with true in H
        by (symmetry; apply Z.ltb_lt; cbn [length]; lia).
      discriminate H. }
  cbn in H. injection H as <-.
  destruct (queryErrors_nil LocalTZA q E) as (El & Ep & Ef & Et & Er).
  pose proof (limitErrors_nil _ El) as Ll.
  pose proof (pageErrors_nil _ Ep) as Lp.
  set (o := Validation.listOptions _).
  assert (G : forall f t, MoodDatabase.given (Validation.from q) = Some f ->
                MoodDatabase.given (Validation.to q) = Some t -> JsString.gtb f t = false).
  { intros f t Hf Ht. unfold Validation.rangeErrors in Er. rewrite Hf, Ht in Er.
    destruct (JsString.gtb f t); [discriminate Er|reflexivity]. }
  split.
  - unfold validOptions, o, Validation.listOptions.
    cbn [MoodDatabase.limit MoodDatabase.page MoodDatabase.from MoodDatabase.to
         Validation.limitNum Validation.pageNum Validation.fromDate Validation.toDate
         default from_option id].
    rewrite (dateOrAbsent_valid LocalTZA _ Ef), (dateOrAbsent_valid LocalTZA _ Et).
    replace (1 <=? _) with true by (symmetry; apply Z.leb_le; apply Ll).
    replace (_ <=? 100) with true by (symmetry; apply Z.leb_le; apply Ll).
    replace (1 <=? _) with true by (symmetry; apply Z.leb_le; exact Lp).
    cbn [andb].
    destruct (MoodDatabase.given (Validation.from q)) as [f|] eqn:Hf; [|reflexivity].
    destruct (MoodDatabase.given (Validation.to q)) as [t|] eqn:Ht; [|reflexivity].
    rewrite (G f t eq_refl eq_refl). reflexivity.
  - pose proof (getMoodEntries_run LocalTZA now o db RV) as R. cbv zeta in R.
    specialize (R Ll Lp G). rewrite R.
    eexists. eexists. split; [reflexivity|].
    cbn [MoodDatabase.page_limit MoodDatabase.page_no MoodDatabase.moods
         SecureDatabase.log SecureDatabase.table].
    unfold o, Validation.listOptions.
    cbn [MoodDatabase.limit MoodDatabase.page MoodDatabase.from MoodDatabase.to
         Validation.limitNum Validation.pageNum Validation.fromDate Validation.toDate
         default from_option id] in *.
    split.
    { unfold Validation.limitErrors in El. destruct (Validation.limit q) as [l|]; [|reflexivity].
      destruct (Validation.parseInt l) as [n|]; [|discriminate El].
      destruct (Z.ltb_spec n 1); [discriminate El|].
      destruct (Z.eqb_spec n 0); [lia|reflexivity]. }
    split.
    { unfold Validation.pageErrors in Ep. destruct (Validation.page q) as [l|]; [|reflexivity].
      destruct (Validation.parseInt l) as [n|]; [|discriminate Ep].
      destruct (Z.ltb_spec n 1); [discriminate Ep|].
      destruct (Z.eqb_spec n 0); [lia|reflexivity]. }
    split; [exact Ll|]. split; [exact Lp|]. split; [|reflexivity].
    rewrite length_map. apply limitOffset_length. lia.
Qed.

Lemma validated_query_is_listed_witness :
  validOptions
    (Validation.listOptions
       {| Validation.limitNum := Some 10; Validation.pageNum := None;
          Validation.fromDate := Some (js "2025-09-20"); Validation.toDate := None |}) = true
  /\ exists pg db',
       MoodDatabase.getMoodEntries 0 morning
         (Validation.listOptions
            {| Validation.limitNum := Some 10; Validation.pageNum := None;
               Validation.fromDate := Some (js "2025-09-20"); Validation.toDate := None |})
         threeDays
       = (Return pg, db')
       /\ MoodDatabase.page_limit pg
          = match Validation.limit
                    {| Validation.limit := Some (js " 10 per page"); Validation.page := None;
                       Validation.from := Some (js "2025-09-20"); Validation.to := None |} with
            | Some l => default 20 (Validation.parseInt l)
            | None => 20
            end
       /\ MoodDatabase.page_no pg
          = match Validation.page
                    {| Validation.limit := Some (js " 10 per page"); Validation.page := None;
                       Validation.from := Some (js "2025-09-20"); Validation.to := None |} with
            | Some p => default 1 (Validation.parseInt p)
            | None => 1
            end
       /\ 1 <= MoodDatabase.page_limit pg <= 100
       /\ 1 <= MoodDatabase.page_no pg
       /\ Z.of_nat (length (MoodDatabase.moods pg)) <= MoodDatabase.page_limit pg
       /\ SecureDatabase.table db' = SecureDatabase.table threeDays.
Proof.
  apply (validated_query_is_listed 0 morning
           {| Validation.limit := Some (js " 10 per page"); Validation.page := None;
              Validation.from := Some (js "2025-09-20"); Validation.to := None |}
           {| Validation.limitNum := Some 10; Validation.pageNum := None;
              Validation.fromDate := Some (js "2025-09-20"); Validation.toDate := None |}
           threeDays).
  - vm_compute. reflexivity.
  - intros p n H. discriminate H.
  - exact (proj1 (reachable_wellFormed 0 (fun v => v) threeDays threeDays_reachable)).
Defined.

(** ** Pages of a listing *)

Section PageFacts.
Context {A : Type}.

Lemma firstn_add (a b : nat) (l : list A) :
  firstn (a + b) l = firstn a l ++ firstn b (skipn a l).
Proof.
  revert l. induction a as [|a IH]; intros l; [reflexivity|].
  destruct l as [|x l]; simpl.
  - rewrite firstn_nil. reflexivity.
  - rewrite IH. reflexivity.
Qed.

(** The first [k] chunks of [n] elements make up the first [k * n]. *)
Lemma chunks_firstn (n k : nat) (l : list A) :
  concat (List.map (fun p => firstn n (skipn ((p - 1) * n) l)) (seq 1 k))
  = firstn (k * n) l.
Proof.
  induction k as [|k IH]; [reflexivity|].
  rewrite seq_S, map_app, concat_app, IH. cbn [List.map concat].
  rewrite app_nil_r.
  replace (1 + k - 1)%nat with k by lia.
  replace (S k * n)%nat with (k * n + n)%nat by lia.
  symmetry. apply firstn_add.
Qed.

End PageFacts.



(** ** What a call changes *)

Section EffectFacts.
Variable LocalTZA : Z.

Lemma filter_length_eq {A} (f : A -> bool) (l : list A) :
  length (List.filter f l) = length l -> List.filter f l = l.
Proof.
  induction l as [|x l IH]; [reflexivity|]. simpl.
  destruct (f x) eqn:Fx; simpl; intros H.
  - rewrite IH by lia. reflexivity.
  - pose proof (filter_length_le f l). lia.
Qed.

Lemma filter_filter_weaker {A} (f g : A -> bool) (l : list A) :
  (forall x, f x = true -> g x = true) ->
  List.filter f (List.filter g l) = List.filter f l.
Proof.
  intros H. induction l as [|x l IH]; [reflexivity|]. simpl.
  destruct (g x) eqn:Gx; simpl.
  - rewrite IH. reflexivity.
  - destruct (f x) eqn:Fx; [rewrite (H x Fx) in Gx; discriminate Gx|exact IH].
Qed.

Lemma rowsOn_nil_filter d db :
  rowsOn d db = [] ->
  List.filter (fun r => negb (SecureDatabase.sqlEq (MoodEntry.date r) (VStr d)))
              (SecureDatabase.table db)
  = SecureDatabase.table db.
Proof.
  unfold rowsOn. intros H.
  induction (SecureDatabase.table db) as [|x l IH]; [reflexivity|].
  simpl in *. rewrite sqlEq_text_decide.
  destruct (bool_decide (MoodEntry.date x = VStr d)); [discriminate H|].
  simpl. rewrite IH by exact H. reflexivity.
Qed.

(** The table after [createMoodEntry]: as before, or with one more row. *)
Lemma createMoodEntry_effect now data db :
  let r := MoodDatabase.createMoodEntry LocalTZA now data db in
  let rowid := Z.max (SecureDatabase.seq db) (SecureDatabase.maxId (SecureDatabase.table db)) + 1 in
  (SecureDatabase.table (snd r) = SecureDatabase.table db
   /\ SecureDatabase.seq (snd r) = SecureDatabase.seq db
   /\ exists err, fst r = Throw err)
  \/ (invalid LocalTZA data = false
      /\ SecureDatabase.table (snd r)
         = SecureDatabase.table db ++ [rowOf rowid (MoodEntry.assign now data)]
      /\ SecureDatabase.seq (snd r) = rowid
      /\ exists e, fst r = Return e).
Proof.
  cbv zeta. unfold MoodDatabase.createMoodEntry, MoodDatabase.bind.
  pose proof (checkMoodEntry_table LocalTZA now data db) as [T Sq].
  destruct (MoodDatabase.checkMoodEntry LocalTZA now data db) as [[e|err] db1] eqn:C;
    cbn [snd] in T, Sq.
  - apply checkMoodEntry_returns in C. destruct C as (V & -> & _).
    destruct (insertMoodEntry_effect LocalTZA now data db1 V)
      as [(T1 & S1 & err & E)|(T1 & S1 & e' & E & _)]; rewrite T, Sq in *.
    + left. eauto.
    + right. eauto.
  - left. cbn [fst snd]. eauto.
Qed.

Lemma deleteMoodEntryByDate_throws now date db err db' :
  MoodDatabase.deleteMoodEntryByDate LocalTZA now date db = (Throw err, db') ->
  SecureDatabase.table db' = SecureDatabase.table db
  /\ SecureDatabase.seq db' = SecureDatabase.seq db.
Proof.
  unfold MoodDatabase.deleteMoodEntryByDate, MoodDatabase.bind at 1.
  pose proof (getMoodEntryByDate_table LocalTZA now date db) as [T Sq].
  destruct (MoodDatabase.getMoodEntryByDate LocalTZA now date db) as [[[x|]|e0] db1];
    cbn [snd] in T, Sq.
  - unfold MoodDatabase.bind, SecureDatabase.run.
    cbn [SecureDatabase.changes SecureDatabase.log SecureDatabase.table
         SecureDatabase.seq SecureDatabase.journal].
    destruct (Z.eqb_spec
                (Z.of_nat (length (SecureDatabase.table db1))
                 - Z.of_nat (length (List.filter
                      (fun r => negb (SecureDatabase.sqlEq (MoodEntry.date r)
                                                           (SecureDatabase.bind date)))
                      (SecureDatabase.table db1)))) 0) as [E|E].
    + unfold MoodDatabase.throw. intros [= _ <-]. cbn [SecureDatabase.table SecureDatabase.seq].
      rewrite filter_length_eq by lia. auto.
    + unfold MoodDatabase.ret. discriminate.
  - unfold MoodDatabase.throw. intros [= _ <-]. auto.
  - intros [= _ <-]. auto.
Qed.

Lemma rowsOn_table d db db' :
  SecureDatabase.table db' = SecureDatabase.table db -> rowsOn d db' = rowsOn d db.
Proof. unfold rowsOn. intros ->. reflexivity. Qed.

Lemma createMoodEntry_other_date now data d' db :
  MoodEntry.date data <> VStr d' ->
  rowsOn d' (snd (MoodDatabase.createMoodEntry LocalTZA now data db)) = rowsOn d' db.
Proof.
  intros N.
  destruct (createMoodEntry_effect now data db) as [(T & _)|(V & T & _)].
  - apply rowsOn_table. exact T.
  - unfold rowsOn. rewrite T, List.filter_app.
    destruct (valid_fields LocalTZA data V) as (d & em & Ed & _).
    cbn [List.filter rowOf MoodEntry.date MoodEntry.assign]. rewrite Ed.
    cbn [SecureDatabase.bind].
    rewrite bool_decide_eq_false_2 by congruence. apply app_nil_r.
Qed.

Lemma deleteMoodEntryByDate_other_date now d d' db :
  d <> d' ->
  rowsOn d' (snd (MoodDatabase.deleteMoodEntryByDate LocalTZA now (VStr d) db)) = rowsOn d' db.
Proof.
  intros N.
  destruct (deleteMoodEntryByDate_table LocalTZA now (VStr d) db _ eq_refl) as [T|T].
  - apply rowsOn_table. exact T.
  - unfold rowsOn. rewrite T. apply filter_filter_weaker.
    intros x Hx. apply bool_decide_eq_true_1 in Hx. cbn [SecureDatabase.bind].
    rewrite sqlEq_text_decide, bool_decide_eq_false_2; [reflexivity|congruence].
Qed.

End EffectFacts.

(** X13: only a call that succeeds changes the table. The three queries
    ([getMoodEntryByDate], [getMoodEntries], [getStatistics]) leave the rows
    and the id sequence as they are whether they return or throw, and so do
    [createMoodEntry] and [deleteMoodEntryByDate] whenever they throw. *)
Theorem failed_calls_change_nothing
    (LocalTZA : Z) (sqlDATE : JsVal -> JsVal) (now : Z) (db : SecureDatabase.t) :
  let same db' :=
    SecureDatabase.table db' = SecureDatabase.table db
    /\ SecureDatabase.seq db' = SecureDatabase.seq db in
  (forall date, same (snd (MoodDatabase.getMoodEntryByDate LocalTZA now date db)))
  /\ (forall options, same (snd (MoodDatabase.getMoodEntries LocalTZA now options db)))
  /\ (forall options,
        same (snd (MoodDatabase.getStatistics LocalTZA sqlDATE now options db)))
  /\ (forall data err db',
        MoodDatabase.createMoodEntry LocalTZA now data db = (Throw err, db') -> same db')
  /\ (forall date err db',
        MoodDatabase.deleteMoodEntryByDate LocalTZA now date db = (Throw err, db') ->
        same db').
Proof.
  cbv zeta. repeat split.
  - apply getMoodEntryByDate_table.
  - apply getMoodEntryByDate_table.
  - apply getMoodEntries_table.
  - apply getMoodEntries_seq.
  - apply getStatistics_table.
  - apply getStatistics_seq.
  - destruct (createMoodEntry_effect LocalTZA now data db) as [(T & _)|(_ & _ & _ & e & E)];
      rewrite H in *; cbn [fst snd] in *; [exact T|discriminate E].
  - destruct (createMoodEntry_effect LocalTZA now data db) as [(_ & S & _)|(_ & _ & _ & e & E)];
      rewrite H in *; cbn [fst snd] in *; [exact S|discriminate E].
  - exact (proj1 (deleteMoodEntryByDate_throws LocalTZA now date db err db' H)).
  - exact (proj2 (deleteMoodEntryByDate_throws LocalTZA now date db err db' H)).
Qed.

(** X14: a write on one date leaves the other dates alone. Creating an
    entry for date [d], deleting the entry of [d] or updating it does not
    change the rows stored for any other date, whether the call returns or
    throws. *)
Theorem other_dates_untouched
    (LocalTZA now : Z) (d d' : jsstring) (db : SecureDatabase.t) :
  d <> d' ->
  (forall data, MoodEntry.date data = VStr d ->
     rowsOn d' (snd (MoodDatabase.createMoodEntry LocalTZA now data db)) = rowsOn d' db)
  /\ rowsOn d' (snd (MoodDatabase.deleteMoodEntryByDate LocalTZA now (VStr d) db))
     = rowsOn d' db
  /\ (forall data,
        rowsOn d' (snd (MoodDatabase.updateMoodEntry LocalTZA now (VStr d) data db))
        = rowsOn d' db).
Proof.
  intros N. split; [|split].
  - intros data Ed. apply createMoodEntry_other_date. rewrite Ed. congruence.
  - apply deleteMoodEntryByDate_other_date. exact N.
  - intros data. unfold MoodDatabase.updateMoodEntry, MoodDatabase.bind.
    pose proof (deleteMoodEntryByDate_other_date LocalTZA now d d' db N) as D.
    destruct (MoodDatabase.deleteMoodEntryByDate LocalTZA now (VStr d) db) as [[x|err] db1];
      cbn [snd] in D; [|exact D].
    rewrite <- D. apply createMoodEntry_other_date. cbn [MoodEntry.date]. congruence.
Qed.

Lemma other_dates_untouched_witness :
  (forall data, MoodEntry.date data = VStr (js "2025-09-21") ->
     rowsOn (js "2025-09-22")
       (snd (MoodDatabase.createMoodEntry 0 morning data threeDays))
     = rowsOn (js "2025-09-22") threeDays)
  /\ rowsOn (js "2025-09-22")
       (snd (MoodDatabase.deleteMoodEntryByDate 0 morning (VStr (js "2025-09-21")) threeDays))
     = rowsOn (js "2025-09-22") threeDays
  /\ (forall data,
        rowsOn (js "2025-09-22")
          (snd (MoodDatabase.updateMoodEntry 0 morning (VStr (js "2025-09-21")) data threeDays))
        = rowsOn (js "2025-09-22") threeDays).
Proof.
  apply (other_dates_untouched 0 morning (js "2025-09-21") (js "2025-09-22") threeDays).
  discriminate.
Defined.

(** X15: deleting what was just created restores the table, not the id. In
    a well-formed database, after [createMoodEntry] returned an entry,
    [deleteMoodEntryByDate] on the entry's date returns the entity with the
    entry's id, and the table is again what it was before the create; the
    id sequence keeps the id that was given out. *)
Theorem create_then_delete_restores_table
    (LocalTZA now now' : Z) (data e : MoodEntry.t) (db db1 : SecureDatabase.t) :
  wellFormed LocalTZA db ->
  textOrAbsent (MoodEntry.note data) = true ->
  MoodDatabase.createMoodEntry LocalTZA now data db = (Return e, db1) ->
  exists deleted db2 n,
    MoodDatabase.deleteMoodEntryByDate LocalTZA now' (MoodEntry.date e) db1
    = (Return deleted, db2)
    /\ MoodEntry.id deleted = MoodEntry.id e
    /\ MoodEntry.date deleted = MoodEntry.date e
    /\ SecureDatabase.table db2 = SecureDatabase.table db
    /\ MoodEntry.id e = VNum n
    /\ SecureDatabase.seq db2 = n
    /\ SecureDatabase.seq db < n.
Proof.
  intros W T C.
  destruct (createMoodEntry_returns LocalTZA now data db e db1 T C)
    as (d & rowid & V & Ed & F & -> & T1).
  destruct (createMoodEntry_id LocalTZA now data db _ db1 C) as [Ei Sq].
  cbn [MoodEntry.id] in Ei. injection Ei as ->.
  pose proof (createMoodEntry_wellFormed LocalTZA now data db W) as W1.
  rewrite C in W1. cbn [snd] in W1.
  cbn [MoodEntry.date MoodEntry.id]. rewrite Ed.
  set (rowid := Z.max (SecureDatabase.seq db)
                      (SecureDatabase.maxId (SecureDatabase.table db)) + 1) in *.
  set (r := rowOf rowid (MoodEntry.assign now data)) in *.
  assert (Dr : MoodEntry.date r = VStr d)
    by (unfold r; cbn [rowOf MoodEntry.date MoodEntry.assign]; rewrite Ed; reflexivity).
  rewrite (deleteMoodEntryByDate_present LocalTZA now' d db1 r W1
             ltac:(rewrite T1; apply in_or_app; right; left; reflexivity) Dr).
  eexists. eexists. exists rowid. split; [reflexivity|].
  cbn [SecureDatabase.table SecureDatabase.seq MoodEntry.id MoodEntry.date
       MoodEntry.assign].
  split; [reflexivity|]. split; [exact Dr|]. split.
  - rewrite T1, List.filter_app, (rowsOn_nil_filter d db F).
    cbn [List.filter]. rewrite Dr, sqlEq_text_decide, bool_decide_eq_true_2 by reflexivity.
    apply app_nil_r.
  - split; [reflexivity|]. split; [exact Sq|]. unfold rowid. lia.
Qed.

Lemma create_then_delete_restores_table_witness :
  exists deleted db2 n,
    MoodDatabase.deleteMoodEntryByDate 0 (morning + 60000)
      (MoodEntry.date (MoodEntry.mk (VNum 2) (VStr (js "2025-09-20")) (VStr happy) VNull
                         (VStr (js "2025-09-22T10:04:05.123Z"))
                         (VStr (js "2025-09-22T10:04:05.123Z"))))
      (snd (MoodDatabase.createMoodEntry 0 morning (candidate "2025-09-20" happy VNull)
              oneEntry))
    = (Return deleted, db2)
    /\ MoodEntry.id deleted
       = MoodEntry.id (MoodEntry.mk (VNum 2) (VStr (js "2025-09-20")) (VStr happy) VNull
                         (VStr (js "2025-09-22T10:04:05.123Z"))
                         (VStr (js "2025-09-22T10:04:05.123Z")))
    /\ MoodEntry.date deleted
       = MoodEntry.date (MoodEntry.mk (VNum 2) (VStr (js "2025-09-20")) (VStr happy) VNull
                           (VStr (js "2025-09-22T10:04:05.123Z"))
                           (VStr (js "2025-09-22T10:04:05.123Z")))
    /\ SecureDatabase.table db2 = SecureDatabase.table oneEntry
    /\ MoodEntry.id (MoodEntry.mk (VNum 2) (VStr (js "2025-09-20")) (VStr happy) VNull
                       (VStr (js "2025-09-22T10:04:05.123Z"))
                       (VStr (js "2025-09-22T10:04:05.123Z"))) = VNum n
    /\ SecureDatabase.seq db2 = n
    /\ SecureDatabase.seq oneEntry < n.
Proof.
  apply (create_then_delete_restores_table 0 morning (morning + 60000)
           (candidate "2025-09-20" happy VNull)).
  - apply (reachable_wellFormed 0 (fun v => v)).
    unfold oneEntry. eapply reachable_step; [apply reachable_empty|apply step_create].
  - reflexivity.
  - vm_compute. reflexivity.
Defined.

(** ** Instances and rows *)

Section InstanceFacts.
Variable LocalTZA : Z.

Lemma nowISO_truthy now : truthy (MoodEntry.nowISO now) = true.
Proof.
  unfold MoodEntry.nowISO, JsDate.toISOString.
  destruct (JsDate.yearString _); reflexivity.
Qed.

(** The constructor's assignments, applied twice, are those applied once. *)
Lemma assign_assign now now' data :
  MoodEntry.assign now' (MoodEntry.assign now data) = MoodEntry.assign now data.
Proof.
  destruct data as [i d e n c u]. unfold MoodEntry.assign.
  cbn [MoodEntry.id MoodEntry.date MoodEntry.emoji MoodEntry.note
       MoodEntry.created_at MoodEntry.updated_at].
  f_equal.
  - destruct i; reflexivity.
  - destruct n as [| |b|z|[|x s]]; reflexivity.
  - destruct (truthy c) eqn:C; [rewrite C|rewrite nowISO_truthy]; reflexivity.
  - destruct (truthy u) eqn:U; [rewrite U|rewrite nowISO_truthy]; reflexivity.
Qed.

Lemma assign_invalid now data :
  invalid LocalTZA (MoodEntry.assign now data) = invalid LocalTZA data.
Proof.
  unfold invalid, allRules, violates. cbn [existsb].
  cbn [MoodEntry.assign MoodEntry.date MoodEntry.emoji MoodEntry.note].
  destruct (MoodEntry.note data) as [| |b|z|[|x s]]; reflexivity.
Qed.

End InstanceFacts.

(** X16: an instance survives the way through its row format. For an
    instance the constructor returned, [toDbFormat] and [toJSON] list the
    same six properties, and [fromDbRow] on them, at any later instant,
    returns the instance itself: the id and the note are kept and the
    timestamps are not stamped again. The creation time of the instance is
    the ISO text of the clock unless the data carried a truthy one. *)
Theorem fromDbRow_toDbFormat
    (LocalTZA now now' : Z) (data e : MoodEntry.t) :
  MoodEntry.new LocalTZA now data = Return e ->
  MoodEntry.fromDbRow LocalTZA now' (MoodEntry.toDbFormat e) = Return e
  /\ MoodEntry.toJSON e = MoodEntry.toDbFormat e
  /\ isString (MoodEntry.created_at e) || truthy (MoodEntry.created_at data) = true.
Proof.
  intros H. apply new_returns in H. destruct H as [-> V].
  split; [|split; [reflexivity|]].
  - unfold MoodEntry.toDbFormat. rewrite fromDbRow_new.
    rewrite new_valid by (rewrite assign_invalid; exact V).
    rewrite assign_assign. reflexivity.
  - cbn [MoodEntry.assign MoodEntry.created_at].
    destruct (truthy (MoodEntry.created_at data)); [apply orb_true_r|].
    unfold MoodEntry.nowISO, JsDate.toISOString. reflexivity.
Qed.

Lemma fromDbRow_toDbFormat_witness :
  MoodEntry.fromDbRow 0 (morning + 1000)
    (MoodEntry.toDbFormat (MoodEntry.assign morning (candidate "2025-09-22" sad (VStr []))))
  = Return (MoodEntry.assign morning (candidate "2025-09-22" sad (VStr [])))
  /\ MoodEntry.toJSON (MoodEntry.assign morning (candidate "2025-09-22" sad (VStr [])))
     = MoodEntry.toDbFormat (MoodEntry.assign morning (candidate "2025-09-22" sad (VStr [])))
  /\ isString (MoodEntry.created_at
                 (MoodEntry.assign morning (candidate "2025-09-22" sad (VStr []))))
     || truthy (MoodEntry.created_at (candidate "2025-09-22" sad (VStr []))) = true.
Proof.
  apply (fromDbRow_toDbFormat 0 morning (morning + 1000)
           (candidate "2025-09-22" sad (VStr []))).
  vm_compute. reflexivity.
Defined.

(** ** The performance monitor *)

Lemma budgetMap_not_budgets op :
  In op (List.map fst PerformanceMonitor.budgetMap) ->
  PerformanceMonitor.lookup PerformanceMonitor.budgets op = PerformanceMonitor.Missing
  /\ exists budget,
       In (op, budget) PerformanceMonitor.budgetMap
       /\ PerformanceMonitor.lookup PerformanceMonitor.budgetMap op
          = PerformanceMonitor.Own budget
       /\ budget <> 0.
Proof.
  cbn [PerformanceMonitor.budgetMap List.map fst].
  intros [<-|[<-|[<-|[]]]]; (split; [vm_compute; reflexivity|]).
  - exists 100. split; [left; reflexivity|]. split; [vm_compute; reflexivity|lia].
  - exists 500. split; [right; left; reflexivity|]. split; [vm_compute; reflexivity|lia].
  - exists 50. split; [right; right; left; reflexivity|].
    split; [vm_compute; reflexivity|lia].
Qed.

Lemma endTimer_route_metric start finish now op (this : PerformanceMonitor.t) :
  In op (List.map fst PerformanceMonitor.budgetMap) ->
  exists m,
    snd (PerformanceMonitor.endTimer finish now
           (PerformanceMonitor.startTimer start op) this) = this ++ [m]
    /\ PerformanceMonitor.withinBudget m = true.
Proof.
  intros H. destruct (budgetMap_not_budgets op H) as (M & _).
  eexists. split; [reflexivity|].
  cbn [PerformanceMonitor.withinBudget PerformanceMonitor.startTimer
       PerformanceMonitor.operationType].
  unfold PerformanceMonitor.isWithinBudget. rewrite M. reflexivity.
Qed.

(** X17: the monitor records no violation for the operation types of the
    routes. For a type that [validateBudget] has a budget for
    (['mood_entry'], ['analytics'], ['database']), [endTimer] looks the type
    up among the upper-case keys of [budgets], finds none and records the
    metric as within budget whatever the duration is, while
    [validateBudget] on the ended timer compares the duration with the
    budget of the type. *)
Theorem endTimer_ignores_route_budgets
    (start finish now hrtime : Z) (op : jsstring) (this : PerformanceMonitor.t) :
  In op (List.map fst PerformanceMonitor.budgetMap) ->
  let result :=
    PerformanceMonitor.endTimer finish now (PerformanceMonitor.startTimer start op) this in
  let metric := fst (fst result) in
  let timer := snd (fst result) in
  PerformanceMonitor.withinBudget metric = true
  /\ PerformanceMonitor.metricDuration metric = finish - start
  /\ snd result = this ++ [metric]
  /\ exists budget,
       In (op, budget) PerformanceMonitor.budgetMap
       /\ PerformanceMonitor.validateBudget hrtime timer op
          = (finish - start <=? budget * 1000000).
Proof.
  intros H. cbv zeta.
  destruct (budgetMap_not_budgets op H) as (M & budget & Hb & L & N).
  unfold PerformanceMonitor.endTimer, PerformanceMonitor.startTimer.
  cbn [fst snd PerformanceMonitor.withinBudget PerformanceMonitor.metricDuration
       PerformanceMonitor.operationType PerformanceMonitor.startTime].
  split.
  - unfold PerformanceMonitor.isWithinBudget. rewrite M. reflexivity.
  - split; [reflexivity|]. split; [reflexivity|].
    exists budget. split; [exact Hb|].
    unfold PerformanceMonitor.validateBudget.
    cbn [PerformanceMonitor.duration PerformanceMonitor.operationType].
    rewrite L. cbn [PerformanceMonitor.propertyTruthy].
    destruct (Z.eqb_spec budget 0); [contradiction|].
    cbn [negb PerformanceMonitor.propertyTruthy].
    destruct (Z.eqb_spec budget 0); [contradiction|]. reflexivity.
Qed.

Lemma endTimer_ignores_route_budgets_witness :
  let result :=
    PerformanceMonitor.endTimer 900000000 morning
      (PerformanceMonitor.startTimer 0 (js "mood_entry")) PerformanceMonitor.new in
  let metric := fst (fst result) in
  let timer := snd (fst result) in
  PerformanceMonitor.withinBudget metric = true
  /\ PerformanceMonitor.metricDuration metric = 900000000 - 0
  /\ snd result = PerformanceMonitor.new ++ [metric]
  /\ exists budget,
       In (js "mood_entry", budget) PerformanceMonitor.budgetMap
       /\ PerformanceMonitor.validateBudget 900000001 timer (js "mood_entry")
          = (900000000 - 0 <=? budget * 1000000).
Proof.
  apply (endTimer_ignores_route_budgets 0 900000000 morning 900000001 (js "mood_entry")
           PerformanceMonitor.new).
  left. reflexivity.
Defined.

(** X18: the report of [validateBudgets] counts no violation of a route.
    After any series of timers of the operation types of the routes, started
    on a monitor without violations, the report lists as many operations as
    were recorded and no violation. *)
Theorem validateBudgets_reports_no_route_violation
    (runs : list (jsstring * Z * Z * Z)) (this : PerformanceMonitor.t) :
  Forall (fun run => In (fst (fst (fst run))) (List.map fst PerformanceMonitor.budgetMap))
         runs ->
  PerformanceMonitor.details (PerformanceMonitor.validateBudgets this) = [] ->
  let report := PerformanceMonitor.validateBudgets (recorded runs this) in
  PerformanceMonitor.totalOperations report = Z.of_nat (length this + length runs)
  /\ PerformanceMonitor.violations report = 0
  /\ PerformanceMonitor.details report = [].
Proof.
  revert this. induction runs as [|[[[op start] finish] now] runs IH]; intros this F D.
  - cbv zeta. cbn [recorded fold_left length].
    unfold PerformanceMonitor.validateBudgets in *.
    cbn [PerformanceMonitor.totalOperations PerformanceMonitor.violations
         PerformanceMonitor.details] in *.
    rewrite D. split; [f_equal; lia|]. split; reflexivity.
  - inversion F as [|x l Hop F']; subst. cbn [fst] in Hop.
    destruct (endTimer_route_metric start finish now op this Hop) as (m & E & W).
    assert (R : recorded ((op, start, finish, now) :: runs) this
                = recorded runs (this ++ [m])) by (rewrite <- E; reflexivity).
    cbv zeta. rewrite R.
    specialize (IH (this ++ [m]) F'). cbv zeta in IH.
    destruct IH as (T & V & Dt).
    + unfold PerformanceMonitor.validateBudgets in *.
      cbn [PerformanceMonitor.details] in *.
      rewrite List.filter_app, D. cbn [List.filter app]. rewrite W. reflexivity.
    + split; [|split; assumption].
      rewrite T, length_app. cbn [length]. f_equal. lia.
Qed.

Lemma validateBudgets_reports_no_route_violation_witness :
  let report :=
    PerformanceMonitor.validateBudgets
      (recorded [(js "mood_entry", 0, 900000000, morning);
                 (js "analytics", 5, 10, morning + 1)] PerformanceMonitor.new) in
  PerformanceMonitor.totalOperations report
  = Z.of_nat (length PerformanceMonitor.new
              + length [(js "mood_entry", 0, 900000000, morning);
                        (js "analytics", 5, 10, morning + 1)])
  /\ PerformanceMonitor.violations report = 0
  /\ PerformanceMonitor.details report = [].
Proof.
  apply (validateBudgets_reports_no_route_violation
           [(js "mood_entry", 0, 900000000, morning); (js "analytics", 5, 10, morning + 1)]
           PerformanceMonitor.new).
  - constructor; [left; reflexivity|].
    constructor; [right; left; reflexivity|]. constructor.
  - reflexivity.
Defined.

(** ** Numbers in the query *)

Section NumberFacts.

Lemma isDigit_range c : JsString.isDigit c = true -> (48 <= c <= 57)%N.
Proof.
  unfold JsString.isDigit. intros H. apply andb_prop in H. destruct H as [A B].
  apply N.leb_le in A. apply N.leb_le in B. lia.
Qed.

Lemma isDigit_not_whiteSpace c :
  JsString.isDigit c = true -> Validation.isWhiteSpace c = false.
Proof.
  intros H. pose proof (isDigit_range c H) as R.
  unfold Validation.isWhiteSpace. cbn [existsb].
  repeat (match goal with
          | |- context [N.eqb c ?k] => destruct (N.eqb_spec c k); [lia|]
          end).
  reflexivity.
Qed.

Lemma trimStart_app ws s :
  Forall (fun c => Validation.isWhiteSpace c = true) ws ->
  Validation.trimStart (ws ++ s) = Validation.trimStart s.
Proof.
  induction 1 as [|c ws Hc _ IH]; [reflexivity|]. simpl. rewrite Hc. exact IH.
Qed.

Lemma leadingDigits_app ds rest :
  Forall (fun c => JsString.isDigit c = true) ds ->
  match rest with [] => True | c :: _ => JsString.isDigit c = false end ->
  Validation.leadingDigits (ds ++ rest) = ds.
Proof.
  intros F R. induction F as [|c ds Hc _ IH]; simpl.
  - destruct rest as [|c rest]; [reflexivity|]. simpl. rewrite R. reflexivity.
  - rewrite Hc, IH. reflexivity.
Qed.

(** [parseInt] reads the numeral a text begins with, after white space. *)
Lemma parseInt_prefix ws ds rest :
  Forall (fun c => Validation.isWhiteSpace c = true) ws ->
  ds <> [] ->
  Forall (fun c => JsString.isDigit c = true) ds ->
  match rest with [] => True | c :: _ => JsString.isDigit c = false end ->
  Validation.parseInt (ws ++ ds ++ rest) = Some (Validation.digitsValue ds).
Proof.
  intros W N D R. unfold Validation.parseInt.
  rewrite trimStart_app by exact W.
  destruct ds as [|c ds]; [contradiction|].
  pose proof (leadingDigits_app (c :: ds) rest D R) as L.
  inversion D as [|? ? Hc Dd]; subst.
  pose proof (isDigit_range c Hc) as Rc.
  assert (T : Validation.trimStart ((c :: ds) ++ rest) = (c :: ds) ++ rest)
    by (simpl; rewrite (isDigit_not_whiteSpace c Hc); reflexivity).
  rewrite T.
  set (s := (c :: ds) ++ rest) in *.
  match goal with
  | |- (let '(sign, s0) := ?m in _) = _ => replace m with (1, s)
  end.
  - rewrite L. f_equal. lia.
  - unfold s. simpl app. destruct c as [|p]; [reflexivity|].
    do 6 (destruct p as [p|p|]; try reflexivity); lia.
Qed.

End NumberFacts.



(** ** Statistics beyond the range of dates *)

Section RangeFacts.
Variable LocalTZA : Z.

Lemma setDate_out_of_range now days :
  8640000000000000 < Z.abs (now - days * JsDate.msPerDay) ->
  JsDate.setDate LocalTZA (Some now)
    (option_map (fun d => d - days) (JsDate.getDate LocalTZA (Some now)))
  = None.
Proof.
  intros B. cbn [JsDate.getDate option_map JsDate.setDate].
  rewrite MakeDay_shift, <- Day_from_fields.
  assert (E : JsDate.UTC LocalTZA
                (JsDate.MakeDate (JsDate.Day (JsDate.LocalTime LocalTZA now) - days)
                          (JsDate.TimeWithinDay (JsDate.LocalTime LocalTZA now)))
              = now - days * JsDate.msPerDay).
  { unfold JsDate.UTC, JsDate.MakeDate, JsDate.Day, JsDate.TimeWithinDay,
      JsDate.LocalTime, JsDate.msPerDay.
    Z.div_mod_to_equations. lia. }
  rewrite E. unfold JsDate.TimeClip.
  destruct (Z.leb_spec (Z.abs (now - days * JsDate.msPerDay)) 8640000000000000);
    [lia|reflexivity].
Qed.

End RangeFacts.


